(** * fractionaiBot: the task-execution core, embedded and verified

    A shallow embedding of the JavaScript sources of the bot
    (KeyManager, ProxyManager, TaskManager, HttpClient, Worker, EthSigner,
    CaptchaSolver and the captcha recognition of FractionAIHandler)
    together with the properties its design document states about them
    and further properties read off the code.

    Conventions of the embedding.
    - JavaScript strings are [string]s holding their UTF-8 bytes; only
      the ASCII part of [toLowerCase] and [toUpperCase] is modelled.
    - JavaScript numbers that the code uses as counters, delays and
      timestamps are integers of [Z]; [NaN] is [None] where it can occur.
    - [undefined] and [null] object fields are [None].
    - Objects used as dictionaries are the [gmap string _] of their own
      properties, read with [Js.get] and written with [Js.assign]; [Map]s
      are [gmap]s.
    - Exceptions are the [Throw] constructor of [Result].
    - Everything the code obtains from outside (the clock and timers,
      [Math.random], the TLS transport, the task handlers, the ethers,
      axios and 2captcha libraries) is an explicit oracle argument.
    Part I holds the embedding, Part II the vocabulary of the properties
    and the sample inputs, Part III the theorems on the properties of the
    design document, Part IV the theorems on the further properties. *)

From Stdlib Require Import ZArith Lia.
From Stdlib Require String.
From Stdlib Require Import Ascii.
From stdpp Require Import gmap strings list pretty.

Local Open Scope Z_scope.
#[local] Set Warnings "-clear-no-such-hyp".

(** * Part I: definitions *)

(** ** JavaScript values and string methods *)

Record Error := mkError {
  message : string;
  isCaptchaFatalError : bool
}.

Inductive Result (A : Type) : Type :=
| Ok (a : A)
| Throw (e : Error).
Arguments Ok {A} a.
Arguments Throw {A} e.

Module Js.

(** [!!s] for a string. *)
Definition truthy (s : string) : bool := negb (String.eqb s "").

(** [!!v] for a string-valued field that may be null or undefined. *)
Definition truthyField (v : option string) : bool :=
  match v with
  | Some s => truthy s
  | None => false
  end.

(** [a || b] on such fields. *)
Definition or (a b : option string) : option string :=
  if truthyField a then a else b.

(** [v || d] on numbers: 0 is falsy. *)
Definition orNumber (v d : Z) : Z := if v =? 0 then d else v.

Definition startsWith (s p : string) : bool := String.prefix p s.

Fixpoint includes (s needle : string) : bool :=
  String.prefix needle s ||
  match s with
  | String _ s' => includes s' needle
  | EmptyString => false
  end.

Fixpoint split_go (sep : ascii) (cur : string) (s : string) : list string :=
  match s with
  | EmptyString => [String.rev cur]
  | String a s' =>
      if Ascii.eqb a sep
      then String.rev cur :: split_go sep EmptyString s'
      else split_go sep (String a cur) s'
  end.

(** [s.split(sep)] for a one-character separator. *)
Definition split (sep : ascii) (s : string) : list string :=
  split_go sep EmptyString s.

(** [l.join(sep)] *)
Definition join (sep : string) (l : list string) : string :=
  String.concat sep l.

(** The white space and line terminators [trim] strips, by their UTF-8
    encoding: U+0009 to U+000D and U+0020 on one byte, *)
Definition isWhiteSpace (a : ascii) : bool :=
  match a with
  | "009" | "010" | "011" | "012" | "013" | " " => true
  | _ => false
  end%char.

(** U+00A0 on two bytes, *)
Definition isWhiteSpace2 (a b : ascii) : bool :=
  ((Ascii.N_of_ascii a =? 194) && (Ascii.N_of_ascii b =? 160))%N.

(** and on three bytes U+1680, U+2000 to U+200A, U+2028, U+2029, U+202F,
    U+205F, U+3000 and U+FEFF. *)
Definition isWhiteSpace3 (a b c : ascii) : bool :=
  let a := Ascii.N_of_ascii a in
  let b := Ascii.N_of_ascii b in
  let c := Ascii.N_of_ascii c in
  ((a =? 225) && (b =? 154) && (c =? 128)
   || (a =? 226) && (b =? 128)
      && ((128 <=? c) && (c <=? 138) || (c =? 168) || (c =? 169) || (c =? 175))
   || (a =? 226) && (b =? 129) && (c =? 159)
   || (a =? 227) && (b =? 128) && (c =? 128)
   || (a =? 239) && (b =? 187) && (c =? 191))%N.

Fixpoint trimStart (s : string) : string :=
  match s with
  | String a s1 =>
      if isWhiteSpace a then trimStart s1
      else
        match s1 with
        | String b s2 =>
            if isWhiteSpace2 a b then trimStart s2
            else
              match s2 with
              | String c s3 => if isWhiteSpace3 a b c then trimStart s3 else s
              | EmptyString => s
              end
        | EmptyString => s
        end
  | EmptyString => EmptyString
  end.

(** [trimStart] on a string read from its end. *)
Fixpoint trimStartReversed (s : string) : string :=
  match s with
  | String a s1 =>
      if isWhiteSpace a then trimStartReversed s1
      else
        match s1 with
        | String b s2 =>
            if isWhiteSpace2 b a then trimStartReversed s2
            else
              match s2 with
              | String c s3 =>
                  if isWhiteSpace3 c b a then trimStartReversed s3 else s
              | EmptyString => s
              end
        | EmptyString => s
        end
  | EmptyString => EmptyString
  end.

Definition trimEnd (s : string) : string :=
  String.rev (trimStartReversed (String.rev s)).

Definition trim (s : string) : string := trimEnd (trimStart s).

(** [s.length]: the number of UTF-16 code units of the string.  A byte
    that continues a character counts for nothing, the first byte of a
    character for one unit, or for two when the character lies outside
    the basic plane (four bytes). *)
Definition codeUnits (a : ascii) : nat :=
  let n := Ascii.N_of_ascii a in
  if (n <? 128)%N then 1%nat
  else if (n <? 192)%N then 0%nat
  else if (n <? 240)%N then 1%nat
  else 2%nat.

Fixpoint length (s : string) : nat :=
  match s with
  | String a s' => (codeUnits a + length s')%nat
  | EmptyString => 0%nat
  end.

Definition lowerChar (a : ascii) : ascii :=
  let n := Ascii.N_of_ascii a in
  if ((65 <=? n) && (n <=? 90))%N then Ascii.ascii_of_N (n + 32) else a.

Definition upperChar (a : ascii) : ascii :=
  let n := Ascii.N_of_ascii a in
  if ((97 <=? n) && (n <=? 122))%N then Ascii.ascii_of_N (n - 32) else a.

Fixpoint mapChars (f : ascii → ascii) (s : string) : string :=
  match s with
  | String a s' => String (f a) (mapChars f s')
  | EmptyString => EmptyString
  end.

Definition toLowerCase : string → string := mapChars lowerChar.
Definition toUpperCase : string → string := mapChars upperChar.

(** [l[l.length - 1]] of a non-empty array of strings. *)
Definition lastOf (l : list string) : string := List.last l EmptyString.

(** [{...o, [k]: v}] on an object kept as its list of own properties in
    creation order: an existing key keeps its place. *)
Fixpoint setProp (o : list (string * string)) (k v : string)
  : list (string * string) :=
  match o with
  | [] => [(k, v)]
  | (k', v') :: o' =>
      if String.eqb k' k then (k, v) :: o' else (k', v') :: setProp o' k v
  end.

(** [{...a, ...b}] *)
Definition spread (a b : list (string * string)) : list (string * string) :=
  fold_left (λ o kv, setProp o kv.1 kv.2) b a.

(** [o[k]] *)
Fixpoint getProp (o : list (string * string)) (k : string) : option string :=
  match o with
  | [] => None
  | (k', v') :: o' => if String.eqb k' k then Some v' else getProp o' k
  end.

(** *** Plain objects used as dictionaries

    An object created by [{}] and indexed by computed names is kept as
    the finite map of its own properties.  Such an object inherits from
    [Object.prototype], which a read or a write by name goes through. *)

(** The property names of [Object.prototype]. *)
Definition objectPrototype : list string :=
  [ "constructor"; "__defineGetter__"; "__defineSetter__"; "hasOwnProperty";
    "__lookupGetter__"; "__lookupSetter__"; "isPrototypeOf";
    "propertyIsEnumerable"; "toString"; "valueOf"; "__proto__";
    "toLocaleString" ].

(** What a read [o[k]] yields on a dictionary whose own properties hold
    strings: a string, or the member of [Object.prototype] of that name
    (a function, and the prototype object itself for [__proto__]). *)
Inductive Value :=
| VString (s : string)
| VInherited (name : string).

#[global] Instance Value_eq_dec : EqDecision Value.
Proof. solve_decision. Defined.

(** [o[k]]: [__proto__] is an accessor of the prototype and never an own
    property; any other name is looked up on the object first. *)
Definition get (o : gmap string string) (k : string) : option Value :=
  if String.eqb k "__proto__" then Some (VInherited k)
  else
    match o !! k with
    | Some v => Some (VString v)
    | None =>
        if bool_decide (k ∈ objectPrototype) then Some (VInherited k)
        else None
    end.

(** [o[k] = v]: a new or updated own property, except under the name
    [__proto__], where the accessor of the prototype takes the value (it
    replaces the prototype when [v] is an object and ignores any other
    [v]) and the own properties stay as they are. *)
Definition assign {A : Type} (o : gmap string A) (k : string) (v : A)
  : gmap string A :=
  if String.eqb k "__proto__" then o else <[k := v]> o.

(** [!!v] for what a read yields. *)
Definition truthyValue (v : option Value) : bool :=
  match v with
  | Some (VString s) => truthy s
  | Some (VInherited _) => true
  | None => false
  end.

(** [v === s] for a string [s]. *)
Definition strictEquals (v : Value) (s : string) : bool :=
  match v with
  | VString t => String.eqb t s
  | VInherited _ => false
  end.

End Js.

Coercion Js.VString : string >-> Js.Value.

(** ** Accounts and proxies *)

Record Proxy := mkProxy {
  host : option string;
  port : option string;
  username : option string;
  password : option string
}.

(** An account object.  [loadAccounts] creates [privateKey], [alias] and
    [address]; [proxy] is added by the proxy manager; [others] stands for
    any further own properties a caller may have put on the object. *)
Record Account := mkAccount {
  privateKey : string;
  alias : string;
  address : option string;
  proxy : option Proxy;
  others : list (string * string)
}.

(** ** KeyManager *)

Module KeyManager.
Section WithEthers.

(** [new ethers.Wallet(key).address]; [None] when the constructor throws. *)
Variable Wallet : string → option string.

(** The account file on disk, as [loadAccounts] meets it: the path does
    not exist ([fs.existsSync] is false), or [fs.readFileSync(path, 'utf8')]
    throws (the path is a directory, the file may not be read, ...), or it
    returns the content. *)
Inductive File :=
| Missing
| Unreadable (error : Error)
| Content (accountsData : string).

Definition keepLine (line : string) : bool :=
  Js.truthy line && negb (Js.startsWith line "#").

Definition mkEntry (index : nat) (key : string) : Account :=
  {| privateKey := key;
     alias := "Account " +:+ pretty (index + 1)%nat;
     address := None;
     proxy := None;
     others := [] |}.

Definition normalizeKey (key : string) : string :=
  if Js.startsWith key "0x" then key else "0x" +:+ key.

(** The callback of the second [filter]: it rewrites the account in place
    and keeps it when the wallet can be built. *)
Definition validate (account : Account) : option Account :=
  let key := normalizeKey (privateKey account) in
  match Wallet key with
  | Some addr =>
      Some {| privateKey := key;
              alias := alias account;
              address := Some addr;
              proxy := proxy account;
              others := others account |}
  | None => None
  end.

Definition loadAccounts (accountsFile : string) (file : File)
  : Result (list Account) :=
  match file with
  | Missing =>
      Throw (mkError ("账号文件 " +:+ accountsFile +:+ " 不存在") false)
  | Unreadable error => Throw error
  | Content accountsData =>
      let lines :=
        List.filter keepLine (map Js.trim (Js.split "010" accountsData)) in
      let accounts := imap mkEntry lines in
      Ok (omap validate accounts)
  end.

Definition getAddressFromPrivateKey (key : string) : Result string :=
  let key := if Js.truthy key && negb (Js.startsWith key "0x")
             then "0x" +:+ key else key in
  match Wallet key with
  | Some addr => Ok addr
  | None => Throw (mkError "无效的私钥" false)
  end.

Definition isValidPrivateKey (key : string) : bool :=
  let key := if Js.truthy key && negb (Js.startsWith key "0x")
             then "0x" +:+ key else key in
  bool_decide (is_Some (Wallet key)).

End WithEthers.
End KeyManager.

(** ** ProxyManager *)

Module ProxyManager.

(** [config.network] and the environment variables it falls back to. *)
Record NetworkConfig := mkNetworkConfig {
  useProxy : bool;
  useDynamicProxy : bool;
  proxyHost : option string;
  proxyPort : option string;
  proxyUsername : option string;
  proxyPassword : option string;
  env_PROXY_HOST : option string;
  env_PROXY_PORT : option string;
  env_PROXY_USERNAME : option string;
  env_PROXY_PASSWORD : option string
}.

Record t := mk {
  config : NetworkConfig;
  dynamicProxy : option Proxy
}.

Definition loadProxyConfig (cfg : NetworkConfig) : option Proxy :=
  if negb (useProxy cfg) then None
  else if useDynamicProxy cfg then
    let p := {| host := Js.or (proxyHost cfg) (env_PROXY_HOST cfg);
                port := Js.or (proxyPort cfg) (env_PROXY_PORT cfg);
                username := Js.or (proxyUsername cfg) (env_PROXY_USERNAME cfg);
                password := Js.or (proxyPassword cfg) (env_PROXY_PASSWORD cfg) |} in
    if negb (Js.truthyField (host p)) || negb (Js.truthyField (port p))
    then None else Some p
  else None.

Definition constructor (cfg : NetworkConfig) : t :=
  {| config := cfg; dynamicProxy := loadProxyConfig cfg |}.

Definition getDynamicProxy (pm : t) : option Proxy :=
  if negb (useProxy (config pm)) then None else dynamicProxy pm.

(** [account.proxy && account.proxy.host] *)
Definition hasProxy (account : Account) : bool :=
  match proxy account with
  | Some p => Js.truthyField (host p)
  | None => false
  end.

Definition withProxy (account : Account) (p : Proxy) : Account :=
  {| privateKey := privateKey account;
     alias := alias account;
     address := address account;
     proxy := Some p;
     others := others account |}.

Definition noProxy : Proxy :=
  {| host := None; port := None; username := None; password := None |}.

Definition assignProxiesToAccounts (pm : t) (accounts : list Account)
  : list Account :=
  match getDynamicProxy pm with
  | None => map (λ account, withProxy account noProxy) accounts
  | Some p =>
      map (λ account, if hasProxy account then account
                      else withProxy account p) accounts
  end.

End ProxyManager.

(** ** TaskManager (the orchestrator) *)

Module TaskManager.
Section WithEthers.

Variable Wallet : string → option string.

(** A started worker thread: its [workerData]. *)
Record Spawned := mkSpawned {
  workerId : Z;
  account : Account
}.

Record t := mk {
  accountsFile : string;
  proxyManager : ProxyManager.t;
  accounts : list Account;
  workers : list Spawned;
  isRunning : bool;
  totalAccounts : Z;
  activeThreads : Z
}.

Definition constructor (privateKeyFile : string)
    (network : ProxyManager.NetworkConfig) : t :=
  {| accountsFile := privateKeyFile;
     proxyManager := ProxyManager.constructor network;
     accounts := [];
     workers := [];
     isRunning := false;
     totalAccounts := 0;
     activeThreads := 0 |}.

Definition loadAccounts (tm : t) (file : KeyManager.File) : Result t :=
  match KeyManager.loadAccounts Wallet (accountsFile tm) file with
  | Throw e => Throw e
  | Ok loaded =>
      if Z.of_nat (length loaded) =? 0
      then Throw (mkError "未找到有效账号" false)
      else
        let assigned :=
          ProxyManager.assignProxiesToAccounts (proxyManager tm) loaded in
        Ok {| accountsFile := accountsFile tm;
              proxyManager := proxyManager tm;
              accounts := assigned;
              workers := workers tm;
              isRunning := isRunning tm;
              totalAccounts := Z.of_nat (length assigned);
              activeThreads := activeThreads tm |}
  end.

(** One turn of the [for] loop of [start]: [accounts[i]] is read and a
    worker thread is created for it; reading a property of a missing
    element raises a TypeError. *)
Definition spawnOne (tm : Result t) (i : Z) : Result t :=
  match tm with
  | Throw e => Throw e
  | Ok tm =>
      match accounts tm !! Z.to_nat i with
      | None => Throw (mkError "TypeError" false)
      | Some acc =>
          Ok {| accountsFile := accountsFile tm;
                proxyManager := proxyManager tm;
                accounts := accounts tm;
                workers := workers tm ++ [mkSpawned (i + 1) acc];
                isRunning := isRunning tm;
                totalAccounts := totalAccounts tm;
                activeThreads := activeThreads tm + 1 |}
      end
  end.

Definition setRunning (b : bool) (tm : t) : t :=
  {| accountsFile := accountsFile tm;
     proxyManager := proxyManager tm;
     accounts := accounts tm;
     workers := workers tm;
     isRunning := b;
     totalAccounts := totalAccounts tm;
     activeThreads := activeThreads tm |}.

(** [start], from its first statement to the end of the loop that creates
    the worker threads ([maxWorkers] is [config.concurrency.maxWorkers]).
    The loop has no [await], so no listener runs before it ends; the rest
    of [start] is [awaitWorkers] below. *)
Definition start (maxWorkers : Z) (tm : t) (file : KeyManager.File)
  : Result t :=
  if isRunning tm then Ok tm
  else
    match loadAccounts (setRunning true tm) file with
    | Throw e => Throw e
    | Ok tm =>
        if Z.of_nat (length (accounts tm)) =? 0
        then Throw (mkError "未找到任何账号数据" false)
        else
          let maxThreads := Js.orNumber maxWorkers 5 in
          let threadCount :=
            Z.min maxThreads (Z.of_nat (length (accounts tm))) in
          foldl spawnOne (Ok tm) (seqZ 0 threadCount)
    end.

End WithEthers.

(** What a worker thread posts to the main thread: the summary of its run,
    or the record [main] builds when the run threw. *)
Module Message.
Record t := mk {
  success : bool;
  error : option string;
  address : option string
}.
End Message.

(** An element of [this.results]: the message with the id of the thread
    that sent it (the timestamp is left out). *)
Module Collected.
Record t := mk {
  message : Message.t;
  workerId : Z
}.
End Collected.

(** The counters of [this.metrics] the handlers change, with
    [this.results]; [running] is [this.metrics.activeThreads]. *)
Record Collector := mkCollector {
  running : Z;
  completedTasks : Z;
  failedTasks : Z;
  results : list Collected.t
}.

(** The three events [start] listens to on the worker created at loop
    index [i], and what its listeners do on each. *)
Inductive WorkerEvent :=
| OnMessage (i : Z) (message : Message.t)
| OnError (i : Z)
| OnExit (i : Z) (code : Z).

Definition handle (c : Collector) (e : WorkerEvent) : Collector :=
  match e with
  | OnMessage i message =>
      {| running := running c;
         completedTasks :=
           if Message.success message then completedTasks c + 1
           else completedTasks c;
         failedTasks :=
           if Message.success message then failedTasks c
           else failedTasks c + 1;
         results := results c ++ [Collected.mk message (i + 1)] |}
  | OnError i =>
      {| running := running c - 1;
         completedTasks := completedTasks c;
         failedTasks := failedTasks c + 1;
         results := results c |}
  | OnExit i code =>
      {| running := running c - 1;
         completedTasks := completedTasks c;
         failedTasks := failedTasks c;
         results := results c |}
  end.

(** The rest of [start], from [await Promise.all(workerPromises)] on:
    while [start] waits, the listeners handle the events of the worker
    threads ([events], in the order they arrive, up to the exit of the
    last thread); then the manager is marked as not running.  The counters
    of finished threads and [this.results] start from what the constructor
    set.  [saveResults] and [printResults], which follow, change none of
    these fields. *)
Definition awaitWorkers (events : list WorkerEvent) (tm : t) : t * Collector :=
  let c :=
    foldl handle
      {| running := activeThreads tm; completedTasks := 0; failedTasks := 0;
         results := [] |} events in
  ({| accountsFile := accountsFile tm;
      proxyManager := proxyManager tm;
      accounts := accounts tm;
      workers := workers tm;
      isRunning := false;
      totalAccounts := totalAccounts tm;
      activeThreads := running c |}, c).

(** [successCount] and [failCount] of [printResults]. *)
Definition successCount (results : list Collected.t) : Z :=
  Z.of_nat
    (length (List.filter (λ r, Message.success (Collected.message r)) results)).

Definition failCount (results : list Collected.t) : Z :=
  Z.of_nat
    (length
       (List.filter (λ r, negb (Message.success (Collected.message r))) results)).

End TaskManager.

(** ** HttpClient *)

Module HttpClient.

(** Request headers in one of the two encodings the transport accepts. *)
Inductive Headers :=
| HObject (fields : list (string * string))
| HString (text : string).

(** [this.options] *)
Module Options.
Record t := mk {
  proxy : option Proxy;
  ja3Fingerprint : string;
  timeout : Z;
  followRedirects : bool;
  maxRetries : Z;
  retryDelay : Z;
  rateLimit : Z
}.
End Options.

(** The [options] argument of [request]: an object on which any of these
    properties may be absent.  [headersFormat] can come to hold what a
    read of the endpoint memory yields. *)
Module RequestOptions.
Record t := mk {
  url : option string;
  headersFormat : option Js.Value;
  headers : option Headers;
  timeout : option Z;
  responseType : option string;
  maxRetries : option Z;
  retryDelay : option Z
}.
Definition empty : t := mk None None None None None None None.
End RequestOptions.

(** What is handed to the cycletls client (the fixed dial, read, write
    and keep-alive settings are constants and left out). *)
Record RequestConfig := mkRequestConfig {
  rc_headers : Headers;
  rc_timeout : option Z;
  rc_ja3 : string;
  rc_proxy : option string;
  rc_disableRedirect : bool;
  rc_body : option string;
  rc_responseType : option string
}.

Record Response := mkResponse {
  status : Z;
  statusText : option string;
  headers : list (string * string);
  body : string
}.

Inductive ResponseData :=
| DBuffer (bytes : string)
| DJson (source : string)
| DText (text : string).

(** The value [request] resolves to. *)
Record Reply := mkReply {
  reply_status : Z;
  reply_statusText : string;
  reply_headers : list (string * string);
  reply_data : ResponseData
}.

Inductive Event :=
| Slept (requested : option Z)
| Sent (url : string) (config : RequestConfig) (method : string)
| Exited
| Rotated (fingerprint : string).

(** Library functions of the JavaScript platform. *)
Record Platform := mkPlatform {
  URL_pathname : string → option string;
  JSON_stringify : list (string * string) → string;
  JSON_parse : string → option (list (string * string));
  URLSearchParams_toString : list (string * string) → string
}.

(** The outside world: the timers, [Math.random] and the TLS transport. *)
Record Env := mkEnv {
  (** by how much [Date.now()] has moved when the k-th [delay(ms)] resolves *)
  timer : nat → option Z → Z;
  (** [Math.floor(Math.random() * n)] at the k-th draw *)
  random : nat → nat → nat;
  (** the k-th call [client(url, requestConfig, method)] *)
  cycleTLS : nat → string → RequestConfig → string → Result Response
}.

(** The clock, the module-level [cycleTLSClient] and what has happened. *)
Record World := mkWorld {
  now : Z;
  cycleTLSClient : bool;
  sleeps : nat;
  draws : nat;
  sends : nat;
  events : list Event
}.

(** [endpointHeadersFormat] is the object created by [{}] in the
    constructor, kept as its own properties. *)
Record t := mk {
  options : Options.t;
  requestTimestamps : list Z;
  endpointHeadersFormat : gmap string string;
  defaultHeadersFormat : string
}.

Definition commonJA3 : list string :=
  [ "771,4865-4866-4867-49195-49199-49196-49200-52393-52392-49171-49172-156-157-47-53,0-23-65281-10-11-35-16-5-13-18-51-45-43-27-17513,29-23-24,0";
    "771,4865-4867-4866-49195-49199-52393-52392-49196-49200-49162-49161-49171-49172-156-157-47-53,0-23-65281-10-11-35-16-5-34-51-43-13-45-28-21,29-23-24-25-256-257,0";
    "771,49196-49195-49188-49187-49162-49161-52393-49200-49199-49192-49191-49172-49171-52392,0-13-5-11-43-10-27-51-35-16-17513,29-23-24,0" ].

Section WithEnv.

Variable P : Platform.
Variable E : Env.
(** [config.security.ja3Fingerprints] *)
Variable ja3Fingerprints : list string.

Definition log (e : Event) (w : World) : World :=
  {| now := now w; cycleTLSClient := cycleTLSClient w; sleeps := sleeps w;
     draws := draws w; sends := sends w; events := events w ++ [e] |}.

(** [await delay(ms)] *)
Definition delay (ms : option Z) (w : World) : World :=
  {| now := now w + timer E (sleeps w) ms;
     cycleTLSClient := cycleTLSClient w;
     sleeps := S (sleeps w);
     draws := draws w;
     sends := sends w;
     events := events w ++ [Slept ms] |}.

Definition getRandomJa3Fingerprint (w : World) : string * World :=
  let pool :=
    if (0 <? length ja3Fingerprints)%nat then ja3Fingerprints else commonJA3 in
  let index := (random E (draws w) (length pool) `mod` length pool)%nat in
  (default "" (pool !! index),
   {| now := now w; cycleTLSClient := cycleTLSClient w; sleeps := sleeps w;
      draws := S (draws w); sends := sends w; events := events w |}).

Definition setClient (alive : bool) (w : World) : World :=
  {| now := now w; cycleTLSClient := alive; sleeps := sleeps w;
     draws := draws w; sends := sends w; events := events w |}.

(** The constructor: defaults, overridden by the options given. *)
Definition constructor (proxy : option Proxy) (maxRetries retryDelay
    rateLimit timeout : option Z) (w : World) : t * World :=
  let '(fingerprint, w) := getRandomJa3Fingerprint w in
  ({| options :=
        {| Options.proxy := proxy;
           Options.ja3Fingerprint := fingerprint;
           Options.timeout := default 60000 timeout;
           Options.followRedirects := true;
           Options.maxRetries := default 3 maxRetries;
           Options.retryDelay := default 2000 retryDelay;
           Options.rateLimit := default 30 rateLimit |};
      requestTimestamps := [];
      endpointHeadersFormat := ∅;
      defaultHeadersFormat := "object" |}, w).

Definition getEndpointKey (url : string) : string :=
  match URL_pathname P url with
  | Some pathname =>
      let pathParts := List.filter Js.truthy (Js.split "/" pathname) in
      if (0 <? length pathParts)%nat then Js.lastOf pathParts else ""
  | None =>
      let parts := Js.split "/" url in
      default "" (head (Js.split "?" (Js.lastOf parts)))
  end.

Definition getHeadersFormatForEndpoint (c : t) (url : string) : Js.Value :=
  let endpointKey := getEndpointKey url in
  match Js.get (endpointHeadersFormat c) endpointKey with
  | Some remembered =>
      if Js.truthy endpointKey && Js.truthyValue (Some remembered)
      then remembered
      else Js.VString (defaultHeadersFormat c)
  | None => Js.VString (defaultHeadersFormat c)
  end.

Definition setTimestamps (ts : list Z) (c : t) : t :=
  {| options := options c; requestTimestamps := ts;
     endpointHeadersFormat := endpointHeadersFormat c;
     defaultHeadersFormat := defaultHeadersFormat c |}.

(** The sliding window kept by [checkRateLimit]. *)
Definition inWindow (now timestamp : Z) : bool := now - timestamp <? 60000.

(** [checkRateLimit]; [fuel] bounds the depth of its recursion. *)
Fixpoint checkRateLimit (fuel : nat) (c : t) (w : World)
  : option (t * World) :=
  match fuel with
  | O => None
  | S fuel =>
      if Options.rateLimit (options c) =? 0 then Some (c, w)
      else
        let now := now w in
        let kept := List.filter (inWindow now) (requestTimestamps c) in
        let c := setTimestamps kept c in
        if Options.rateLimit (options c) <=? Z.of_nat (length kept) then
          let waitTime :=
            match head kept with
            | Some oldestRequest => Some (Z.max 1 (oldestRequest + 60000 - now))
            | None => None
            end in
          checkRateLimit fuel c (delay waitTime w)
        else Some (setTimestamps (kept ++ [now]) c, w)
  end.

Definition getProxyUrl (c : t) : option string :=
  match Options.proxy (options c) with
  | Some p =>
      if Js.truthyField (host p) then
        let credentials :=
          if Js.truthyField (username p) && Js.truthyField (password p)
          then default "" (username p) +:+ ":" +:+ default "" (password p) +:+ "@"
          else "" in
        Some ("http://" +:+ credentials +:+ default "" (host p) +:+ ":"
              +:+ default "undefined" (port p))
      else None
  | None => None
  end.

Definition endpointKeyOf (url : option string) : string :=
  match url with
  | Some u => if Js.truthy u then Js.lastOf (Js.split "/" u) else "default"
  | None => "default"
  end.

(** Conversion of [options.headers] to the chosen format. *)
Definition convertHeaders (format : option Js.Value) (h : option Headers)
  : option Headers :=
  match h with
  | Some (HObject fields) =>
      if bool_decide (format = Some (Js.VString "string"))
      then Some (HString (JSON_stringify P fields)) else h
  | Some (HString text) =>
      if negb (Js.truthy text) then h
      else if bool_decide (format = Some (Js.VString "object"))
      then match JSON_parse P text with
           | Some fields => Some (HObject fields)
           | None => h
           end
      else h
  | None => None
  end.

Definition prepareRequestOptions (c : t) (options : RequestOptions.t)
  : RequestOptions.t :=
  let endpointKey := endpointKeyOf (RequestOptions.url options) in
  let headersFormat :=
    if negb (String.eqb endpointKey "default")
       && Js.truthyValue (Js.get (endpointHeadersFormat c) endpointKey)
    then Js.get (endpointHeadersFormat c) endpointKey
    else if negb (Js.truthyValue (RequestOptions.headersFormat options))
    then (if String.eqb endpointKey "nonce" then Some (Js.VString "string")
          else Some (Js.VString (defaultHeadersFormat c)))
    else RequestOptions.headersFormat options in
  let timeout :=
    match RequestOptions.timeout options with
    | Some v =>
        if (v =? 0) && negb (Options.timeout (HttpClient.options c) =? 0)
        then Some (Options.timeout (HttpClient.options c)) else Some v
    | None =>
        if negb (Options.timeout (HttpClient.options c) =? 0)
        then Some (Options.timeout (HttpClient.options c)) else None
    end in
  {| RequestOptions.url := RequestOptions.url options;
     RequestOptions.headersFormat := headersFormat;
     RequestOptions.headers :=
       convertHeaders headersFormat (RequestOptions.headers options);
     RequestOptions.timeout := timeout;
     RequestOptions.responseType := RequestOptions.responseType options;
     RequestOptions.maxRetries := RequestOptions.maxRetries options;
     RequestOptions.retryDelay := RequestOptions.retryDelay options |}.

Definition isHeadersFormatError (error : Error) : bool :=
  Js.truthy (message error)
  && (Js.includes (message error) "Unmarshal Error"
      || Js.includes (message error) "cannot unmarshal object"
      || Js.includes (message error) "headers of type string").

Definition handleRequestError (c : t) (error : Error)
    (options : RequestOptions.t) : t * RequestOptions.t :=
  if isHeadersFormatError error then
    let endpointKey := endpointKeyOf (RequestOptions.url options) in
    let newFormat :=
      if bool_decide (RequestOptions.headersFormat options
                      = Some (Js.VString "string"))
      then "object" else "string" in
    ({| options := HttpClient.options c;
        requestTimestamps := requestTimestamps c;
        endpointHeadersFormat :=
          Js.assign (endpointHeadersFormat c) endpointKey newFormat;
        defaultHeadersFormat := defaultHeadersFormat c |},
     {| RequestOptions.url := RequestOptions.url options;
        RequestOptions.headersFormat := Some (Js.VString newFormat);
        RequestOptions.headers :=
          convertHeaders (Some (Js.VString newFormat))
            (RequestOptions.headers options);
        RequestOptions.timeout := RequestOptions.timeout options;
        RequestOptions.responseType := RequestOptions.responseType options;
        RequestOptions.maxRetries := RequestOptions.maxRetries options;
        RequestOptions.retryDelay := RequestOptions.retryDelay options |})
  else (c, options).

Definition defaultHeaders : list (string * string) :=
  [ ("User-Agent", "Mozilla/5.0 (Windows NT 10.0; Win64; x64) AppleWebKit/537.36 (KHTML, like Gecko) Chrome/91.0.4472.124 Safari/537.36");
    ("Accept", "application/json, text/plain, */*");
    ("Accept-Language", "zh-CN,zh;q=0.9,en-US;q=0.8,en;q=0.7");
    ("Connection", "keep-alive") ].

Definition stringifyHeaders (fields : list (string * string)) : string :=
  Js.join (String "010" "") (map (λ kv, kv.1 +:+ ": " +:+ kv.2) fields).

(** The body of the [try] block up to the call of the transport: the
    request configuration and the URL actually requested. *)
Definition buildRequest (c : t) (method url : string)
    (data : option (list (string * string)))
    (headers : list (string * string))
    (options requestOptions : RequestOptions.t) (headersFormat : Js.Value)
  : string * RequestConfig :=
  let mergedHeaders := Js.spread defaultHeaders headers in
  let chosen :=
    if Js.strictEquals headersFormat "object" then HObject mergedHeaders
    else HString (stringifyHeaders mergedHeaders) in
  let contentType := Js.getProp mergedHeaders "Content-Type" in
  let responseType :=
    if bool_decide (RequestOptions.responseType options = Some "arraybuffer")
    then Some "arraybuffer" else None in
  let config h b :=
    {| rc_headers := h;
       rc_timeout := (λ ms, ms `div` 1000) <$> RequestOptions.timeout requestOptions;
       rc_ja3 := Options.ja3Fingerprint (HttpClient.options c);
       rc_proxy := getProxyUrl c;
       rc_disableRedirect := negb (Options.followRedirects (HttpClient.options c));
       rc_body := b;
       rc_responseType := responseType |} in
  match data with
  | None => (url, config chosen None)
  | Some data =>
      if String.eqb (Js.toUpperCase method) "GET" then
        (url +:+ (if Js.includes url "?" then "&" else "?")
             +:+ URLSearchParams_toString P data,
         config chosen None)
      else if Js.truthyField contentType
              && Js.includes (default "" contentType)
                   "application/x-www-form-urlencoded"
      then (url, config chosen (Some (URLSearchParams_toString P data)))
      else
        let withType :=
          if Js.truthyField contentType then chosen
          else match chosen with
               | HObject fields =>
                   HObject (Js.setProp fields "Content-Type" "application/json")
               | HString text =>
                   HString (text +:+ String "010" "Content-Type: application/json")
               end in
        (url, config withType (Some (JSON_stringify P data)))
  end.

Definition processResponse (options : RequestOptions.t) (response : Response)
  : Reply :=
  let contentType := Js.getProp (headers response) "content-type" in
  let responseData :=
    if bool_decide (RequestOptions.responseType options = Some "arraybuffer")
    then DBuffer (body response)
    else if Js.truthy (body response) && Js.truthyField contentType
            && Js.includes (default "" contentType) "application/json"
    then match JSON_parse P (body response) with
         | Some _ => DJson (body response)
         | None => DText (body response)
         end
    else DText (body response) in
  {| reply_status := status response;
     reply_statusText := default "" (Js.or (statusText response) (Some ""));
     reply_headers := headers response;
     reply_data := responseData |}.

(** [retryCount < fixedOptions.maxRetries]: false when the property is
    undefined. *)
Definition mayRetry (retryCount : Z) (maxRetries : option Z) : bool :=
  match maxRetries with
  | Some m => retryCount <? m
  | None => false
  end.

(** [fixedOptions.retryDelay * Math.pow(2, retryCount - 1)]: NaN when the
    property is undefined. *)
Definition backoff (retryDelay : option Z) (retryCount : Z) : option Z :=
  (λ d, d * 2 ^ (retryCount - 1)) <$> retryDelay.

Definition setFingerprint (fingerprint : string) (c : t) : t :=
  {| options :=
       {| Options.proxy := Options.proxy (options c);
          Options.ja3Fingerprint := fingerprint;
          Options.timeout := Options.timeout (options c);
          Options.followRedirects := Options.followRedirects (options c);
          Options.maxRetries := Options.maxRetries (options c);
          Options.retryDelay := Options.retryDelay (options c);
          Options.rateLimit := Options.rateLimit (options c) |};
     requestTimestamps := requestTimestamps c;
     endpointHeadersFormat := endpointHeadersFormat c;
     defaultHeadersFormat := defaultHeadersFormat c |}.

Definition send (url : string) (config : RequestConfig) (method : string)
    (w : World) : Result Response * World :=
  (cycleTLS E (sends w) url config method,
   {| now := now w; cycleTLSClient := cycleTLSClient w; sleeps := sleeps w;
      draws := draws w; sends := S (sends w);
      events := events w ++ [Sent url config method] |}).

(** The [while (true)] loop of [request].  [requestOptions] and
    [headersFormat] are the two locals computed before the loop; the loop
    itself only changes [retryCount], [url], the fingerprint and the
    endpoint memory. *)
Fixpoint requestLoop (fuel : nat) (method : string)
    (data : option (list (string * string)))
    (headers : list (string * string))
    (options requestOptions : RequestOptions.t) (headersFormat : Js.Value)
    (retryCount : Z) (url : string) (c : t) (w : World)
  : option (Result Reply * t * World) :=
  match fuel with
  | O => None
  | S fuel =>
      let '(url, requestConfig) :=
        buildRequest c method url data headers options requestOptions
          headersFormat in
      let '(outcome, w) := send url requestConfig (Js.toUpperCase method) w in
      match outcome with
      | Ok response => Some (Ok (processResponse options response), c, w)
      | Throw error =>
          let '(c, fixedOptions) := handleRequestError c error requestOptions in
          if mayRetry retryCount (RequestOptions.maxRetries fixedOptions) then
            let retryCount := retryCount + 1 in
            let waitTime :=
              backoff (RequestOptions.retryDelay fixedOptions) retryCount in
            let w := delay waitTime w in
            let w := if cycleTLSClient w
                     then setClient false (log Exited w) else w in
            let '(fingerprint, w) := getRandomJa3Fingerprint w in
            let c := setFingerprint fingerprint c in
            requestLoop fuel method data headers options requestOptions
              headersFormat retryCount url c (log (Rotated fingerprint) w)
          else Some (Throw error, c, w)
      end
  end.

Definition request (fuel : nat) (method url : string)
    (data : option (list (string * string)))
    (headers : list (string * string)) (options : RequestOptions.t)
    (c : t) (w : World) : option (Result Reply * t * World) :=
  let requestOptions := prepareRequestOptions c options in
  match checkRateLimit fuel c w with
  | None => None
  | Some (c, w) =>
      let w := setClient true w in
      let headersFormat := getHeadersFormatForEndpoint c url in
      requestLoop fuel method data headers options requestOptions
        headersFormat 0 url c w
  end.

Definition get fuel url headers options :=
  request fuel "GET" url None headers options.

Definition post fuel url data headers options :=
  request fuel "POST" url data headers options.

Definition updateHeadersFormatForEndpoint (c : t) (url format : string) : t :=
  let endpointKey := getEndpointKey url in
  if Js.truthy endpointKey then
    {| options := HttpClient.options c;
       requestTimestamps := requestTimestamps c;
       endpointHeadersFormat :=
         Js.assign (endpointHeadersFormat c) endpointKey format;
       defaultHeadersFormat := defaultHeadersFormat c |}
  else c.

(** [close]: the shared transport is shut down when there is one. *)
Definition close (w : World) : World :=
  if cycleTLSClient w then setClient false (log Exited w) else w.

End WithEnv.
End HttpClient.

(** ** Worker (the per-account task runner) *)

Module Worker.

(** The object a task yields: what [withErrorHandling], the FractionAI
    handler and [executeTask] return. *)
Record TaskResult := mkTaskResult {
  success : bool;
  data : option string;
  status : option string;
  error : option string;
  fatalError : bool
}.

(** [config.tasks.delayBetweenTasks]: absent or false, [true], or a number. *)
Inductive DelayBetweenTasks :=
| DelayOff
| DelayRandom
| DelayFixed (ms : Z).

(** [config.errorHandling] and [config.tasks] *)
Record Config := mkConfig {
  maxConsecutiveErrors : Z;
  cooldownPeriod : Z;
  maxRetries : Z;
  initialRetryDelay : Z;
  stopOnFailure : bool;
  delayBetweenTasks : DelayBetweenTasks;
  sequence : option (list string)
}.

(** What the runner does not decide itself. *)
Record Env := mkEnv {
  (** the k-th run of the closure that [sign] or [createEvent] passes to
      [withErrorHandling]: the data it returns, or what it throws *)
  taskFn : nat → string → Result string;
  (** the k-th call of a method of the FractionAI handler *)
  handler : nat → string → Result TaskResult;
  (** [Math.floor(Math.random() * 2000)] at the k-th draw *)
  random : nat → Z
}.

Inductive Event :=
| Slept (ms : Z)
| Began (taskType : string) (retryCount : Z)
| Counted (consecutiveErrors : Z)
| Recorded (taskType : string) (result : TaskResult)
| Closed.

Record Metrics := mkMetrics {
  tasksCompleted : Z;
  tasksFailed : Z;
  totalRequests : Z
}.

Record t := mk {
  consecutiveErrors : Z;
  taskResults : gmap string TaskResult;
  metrics : Metrics;
  workerStatus : option string;
  errorMessage : option string;
  initialDelay : Z;
  calls : nat;
  draws : nat;
  trace : list Event
}.

(** [executeAllTasks] resolves to this. *)
Record Summary := mkSummary {
  summary_success : bool;
  tasks : gmap string TaskResult;
  summary_metrics : Metrics
}.

(** The worker right after its constructor ran. *)
Definition constructor (initialDelay : Z) : t :=
  {| consecutiveErrors := 0;
     taskResults := ∅;
     metrics := mkMetrics 0 0 0;
     workerStatus := None;
     errorMessage := None;
     initialDelay := initialDelay;
     calls := 0;
     draws := 0;
     trace := [] |}.

Section WithEnv.

Variable config : Config.
Variable E : Env.

Definition emit (e : Event) (w : t) : t :=
  {| consecutiveErrors := consecutiveErrors w; taskResults := taskResults w;
     metrics := metrics w; workerStatus := workerStatus w;
     errorMessage := errorMessage w; initialDelay := initialDelay w;
     calls := calls w; draws := draws w; trace := trace w ++ [e] |}.

(** [await delay(ms)] *)
Definition delay (ms : Z) (w : t) : t := emit (Slept ms) w.

(** [this.consecutiveErrors = v] *)
Definition setConsecutiveErrors (v : Z) (w : t) : t :=
  emit (Counted v)
    {| consecutiveErrors := v; taskResults := taskResults w;
       metrics := metrics w; workerStatus := workerStatus w;
       errorMessage := errorMessage w; initialDelay := initialDelay w;
       calls := calls w; draws := draws w; trace := trace w |}.

Definition called (w : t) : t :=
  {| consecutiveErrors := consecutiveErrors w; taskResults := taskResults w;
     metrics := metrics w; workerStatus := workerStatus w;
     errorMessage := errorMessage w; initialDelay := initialDelay w;
     calls := S (calls w); draws := draws w; trace := trace w |}.

Definition drawn (w : t) : t :=
  {| consecutiveErrors := consecutiveErrors w; taskResults := taskResults w;
     metrics := metrics w; workerStatus := workerStatus w;
     errorMessage := errorMessage w; initialDelay := initialDelay w;
     calls := calls w; draws := S (draws w); trace := trace w |}.

Definition setMetrics (m : Metrics) (w : t) : t :=
  {| consecutiveErrors := consecutiveErrors w; taskResults := taskResults w;
     metrics := m; workerStatus := workerStatus w;
     errorMessage := errorMessage w; initialDelay := initialDelay w;
     calls := calls w; draws := draws w; trace := trace w |}.

(** [this.taskResults[taskName] = r] *)
Definition store (taskName : string) (r : TaskResult) (w : t) : t :=
  {| consecutiveErrors := consecutiveErrors w;
     taskResults := Js.assign (taskResults w) taskName r;
     metrics := metrics w; workerStatus := workerStatus w;
     errorMessage := errorMessage w; initialDelay := initialDelay w;
     calls := calls w; draws := draws w; trace := trace w |}.

(** [this.status = 'failed'; this.errorMessage = ...] *)
Definition markFailed (w : t) : t :=
  {| consecutiveErrors := consecutiveErrors w; taskResults := taskResults w;
     metrics := metrics w; workerStatus := Some "failed";
     errorMessage := Some "验证码识别连续失败，任务终止";
     initialDelay := initialDelay w;
     calls := calls w; draws := draws w; trace := trace w |}.

Definition completed (d : string) : TaskResult :=
  {| success := true; data := Some d; status := Some "completed";
     error := None; fatalError := false |}.

Definition failed (msg : string) : TaskResult :=
  {| success := false; data := None; status := Some "failed";
     error := Some msg; fatalError := false |}.

(** [{ success: false, error: error.message, taskType, address }] *)
Definition failure (msg : string) : TaskResult :=
  {| success := false; data := None; status := None;
     error := Some msg; fatalError := false |}.

(** [{ success: false, error: error.message, fatalError: true, ... }] *)
Definition fatal (msg : string) : TaskResult :=
  {| success := false; data := None; status := None;
     error := Some msg; fatalError := true |}.

(** [withErrorHandling(taskFn, taskName)]; [task] names the closure. *)
Definition withErrorHandling (task taskName : string) (w : t)
  : TaskResult * t :=
  let m := metrics w in
  let w := setMetrics
             (mkMetrics (tasksCompleted m) (tasksFailed m) (totalRequests m + 1))
             w in
  let outcome := taskFn E (calls w) task in
  let w := called w in
  match outcome with
  | Ok result =>
      let w := setConsecutiveErrors 0 w in
      let m := metrics w in
      let w := setMetrics
                 (mkMetrics (tasksCompleted m + 1) (tasksFailed m)
                    (totalRequests m)) w in
      let w := store taskName (completed result) w in
      (completed result, w)
  | Throw error =>
      let w := setConsecutiveErrors (consecutiveErrors w + 1) w in
      let m := metrics w in
      let w := setMetrics
                 (mkMetrics (tasksCompleted m) (tasksFailed m + 1)
                    (totalRequests m)) w in
      let w := store taskName (failed (message error)) w in
      let w :=
        if maxConsecutiveErrors config <=? consecutiveErrors w then
          let cooldownPeriod := Js.orNumber (cooldownPeriod config) 300000 in
          setConsecutiveErrors 0 (delay cooldownPeriod w)
        else w in
      (failed (message error), w)
  end.

Definition sign (w : t) : TaskResult * t :=
  withErrorHandling "sign" "签名授权" w.

Definition createEvent (w : t) : TaskResult * t :=
  withErrorHandling "createEvent" "创建事件" w.

(** The task types [handleFractionAITask] has a [case] for. *)
Definition handlerMethods : list string :=
  [ "verify"; "getUserAgents"; "createAgent"; "enableAutomatedMatchmaking";
    "disableAutomatedMatchmaking"; "checkAutomationStatus"; "getProfile";
    "getAgents"; "createMatch"; "joinMatch"; "checkMatchStatus";
    "getMatchResult"; "claimRewards" ].

Definition handleFractionAITask (taskType : string) (w : t)
  : TaskResult * t :=
  if bool_decide (taskType ∈ handlerMethods) then
    let outcome := handler E (calls w) taskType in
    let w := called w in
    match outcome with
    | Ok result => (result, w)
    | Throw error =>
        if isCaptchaFatalError error
        then (fatal (message error), markFailed w)
        else (failure (message error), w)
    end
  else (failure ("未知的FractionAI任务类型: " +:+ taskType), w).

(** The task types of the [switch] in [executeTask] that go to the
    FractionAI handler, with the method each one names. *)
Definition fractionAITasks : list (string * string) :=
  [ ("fractionAI:verify", "verify");
    ("fractionAI:diagnoseApi", "diagnoseApi");
    ("fractionAI:getUserAgents", "getUserAgents");
    ("fractionAI:checkAutomationStatus", "checkAutomationStatus");
    ("fractionAI:createAgent", "createAgent");
    ("fractionAI:enableAutomatedMatchmaking", "enableAutomatedMatchmaking");
    ("fractionAI:disableAutomatedMatchmaking", "disableAutomatedMatchmaking");
    ("fractionAI:getProfile", "getProfile");
    ("fractionAI:getAgents", "getAgents");
    ("fractionAI:createMatch", "createMatch");
    ("fractionAI:joinMatch", "joinMatch");
    ("fractionAI:checkMatchStatus", "checkMatchStatus");
    ("fractionAI:getMatchResult", "getMatchResult");
    ("fractionAI:claimRewards", "claimRewards") ].

(** The [switch] of [executeTask]. *)
Definition dispatch (taskType : string) (w : t) : Result TaskResult * t :=
  if String.eqb taskType "sign" then
    let '(r, w) := sign w in (Ok r, w)
  else if String.eqb taskType "createEvent" then
    let '(r, w) := createEvent w in (Ok r, w)
  else
    match Js.getProp fractionAITasks taskType with
    | Some method => let '(r, w) := handleFractionAITask method w in (Ok r, w)
    | None => (Throw (mkError ("未知的任务类型: " +:+ taskType) false), w)
    end.

(** [executeTask(taskType, retryCount, retryDelay)]; [fuel] bounds the
    depth of the recursive retries. *)
Fixpoint executeTask (fuel : nat) (taskType : string)
    (retryCount retryDelay : Z) (w : t) : option (TaskResult * t) :=
  match fuel with
  | O => None
  | S fuel =>
      let w := if (0 <? retryCount) && (0 <? retryDelay)
               then delay retryDelay w else w in
      let w := emit (Began taskType retryCount) w in
      match dispatch taskType w with
      | (Ok result, w) => Some (result, w)
      | (Throw error, w) =>
          if isCaptchaFatalError error
          then Some (fatal (message error), markFailed w)
          else
            let w := setConsecutiveErrors (consecutiveErrors w + 1) w in
            let w :=
              if maxConsecutiveErrors config <=? consecutiveErrors w
              then setConsecutiveErrors 0 (delay (cooldownPeriod config) w)
              else w in
            let maxRetries := Js.orNumber (maxRetries config) 3 in
            if retryCount <? maxRetries then
              let nextRetryDelay :=
                if retryDelay =? 0
                then Js.orNumber (initialRetryDelay config) 2000
                else retryDelay * 2 in
              executeTask fuel taskType (retryCount + 1) nextRetryDelay w
            else Some (failure (message error), w)
      end
  end.

(** [tasksToExecute.indexOf(taskType)] *)
Fixpoint indexOf (l : list string) (x : string) : Z :=
  match l with
  | [] => -1
  | y :: l' =>
      if String.eqb y x then 0
      else let i := indexOf l' x in if i <? 0 then -1 else i + 1
  end.

(** The pause between two tasks. *)
Definition pace (tasksToExecute : list string) (taskType : string) (w : t)
  : t :=
  let notLast :=
    indexOf tasksToExecute taskType <? Z.of_nat (length tasksToExecute) - 1 in
  match delayBetweenTasks config with
  | DelayOff => w
  | DelayFixed ms => if negb (ms =? 0) && notLast then delay ms w else w
  | DelayRandom =>
      if notLast
      then delay (1000 + random E (draws w)) (drawn w)
      else w
  end.

(** The [for ... of] loop of [executeAllTasks] over what is left of
    [tasksToExecute]; it yields the local [taskResults] (an object created
    by [{}], kept as its own properties) and [allTasksSuccessful]. *)
Fixpoint runTasks (fuel : nat) (tasksToExecute rest : list string)
    (taskResults : gmap string TaskResult) (w : t)
  : option (gmap string TaskResult * bool * t) :=
  match rest with
  | [] => Some (taskResults, true, w)
  | taskType :: rest =>
      match executeTask fuel taskType 0 0 w with
      | None => None
      | Some (result, w) =>
          let taskResults := Js.assign taskResults taskType result in
          let w := emit (Recorded taskType result) w in
          if fatalError result then Some (taskResults, false, w)
          else if negb (success result) && stopOnFailure config
          then Some (taskResults, false, w)
          else runTasks fuel tasksToExecute rest taskResults
                 (pace tasksToExecute taskType w)
      end
  end.

Definition executeAllTasks (fuel : nat) (w : t) : option (Summary * t) :=
  let w := delay (initialDelay w) w in
  let tasksToExecute := default ["sign"; "createEvent"] (sequence config) in
  match runTasks fuel tasksToExecute tasksToExecute ∅ w with
  | None => None
  | Some (taskResults, allTasksSuccessful, w) =>
      Some ({| summary_success := allTasksSuccessful;
               tasks := taskResults;
               summary_metrics := metrics w |},
            emit Closed w)
  end.

End WithEnv.
End Worker.

(** ** EthSigner *)

Module EthSigner.
Section WithEthers.

(** The three entry points of the ethers library the signer relies on:
    the address of the wallet built from a key ([None] when the
    constructor throws), [wallet.signMessage] and
    [ethers.utils.verifyMessage] ([None] when it throws). *)
Variable Wallet_address : string → option string.
Variable Wallet_signMessage : string → string → string.
Variable verifyMessage : string → string → option string.

Record t := mk {
  wallet : string;
  address : string
}.

Definition constructor (privateKey : option string) : Result t :=
  match privateKey with
  | None => Throw (mkError "无效的私钥" false)
  | Some key =>
      if negb (Js.truthy key) || negb (Js.startsWith key "0x")
      then Throw (mkError "无效的私钥" false)
      else match Wallet_address key with
           | Some a => Ok {| wallet := key; address := a |}
           | None => Throw (mkError "invalid private key" false)
           end
  end.

Definition signMessage (signer : t) (message : string) : string :=
  Wallet_signMessage (wallet signer) message.

Definition verifySignature (signer : t) (message signature : string)
  : Result bool :=
  match verifyMessage message signature with
  | Some recoveredAddress =>
      Ok (String.eqb (Js.toLowerCase recoveredAddress)
            (Js.toLowerCase (address signer)))
  | None => Throw (mkError "invalid signature" false)
  end.

End WithEthers.
End EthSigner.

(** ** CaptchaSolver *)

Module CaptchaSolver.

Definition SUPPORTED_SERVICES : list string := ["2captcha"; "anticaptcha"].

(** [this.options] *)
Module Options.
Record t := mk {
  pollingInterval : Z;
  timeout : Z;
  debug : bool;
  maxRetries : Z;
  retryDelay : Z
}.
End Options.

(** The [options] argument of the constructor: any property may be
    absent. *)
Module Overrides.
Record t := mk {
  pollingInterval : option Z;
  timeout : option Z;
  debug : option bool;
  maxRetries : option Z;
  retryDelay : option Z
}.
Definition empty : t := mk None None None None None.
End Overrides.

Record t := mk {
  service : string;
  apiKey : option string;
  options : Options.t;
  lastTaskId : option string;
  (** [this.tasks]: task id to creation time *)
  tasks : gmap string Z
}.

(** What a solver function of the 2captcha library resolves to. *)
Record Solution := mkSolution {
  id : string;
  data : string
}.

(** The outside world: the 2captcha library and the clock. *)
Record Env := mkEnv {
  (** the k-th call of the solver function *)
  solverFn : nat → Result Solution;
  (** the k-th call of [solver.report(id)] *)
  solver_report : nat → string → Result unit;
  (** the k-th reading of [Date.now()] *)
  Date_now : nat → Z
}.

(** A wait of [retryDelay * Math.pow(1.5, exponent)] ms: the product is a
    floating-point number and is kept as its two factors. *)
Inductive Event :=
| Slept (retryDelay : Z) (exponent : Z).

Record World := mkWorld {
  calls : nat;
  reports : nat;
  readings : nat;
  events : list Event
}.

Definition constructor (service apiKey : option string)
    (options : Overrides.t) : Result t :=
  let service :=
    default "2captcha" (Js.or (Js.toLowerCase <$> service) (Some "2captcha")) in
  let options :=
    {| Options.pollingInterval := default 5000 (Overrides.pollingInterval options);
       Options.timeout := default 180000 (Overrides.timeout options);
       Options.debug := default false (Overrides.debug options);
       Options.maxRetries := default 3 (Overrides.maxRetries options);
       Options.retryDelay := default 5000 (Overrides.retryDelay options) |} in
  if negb (bool_decide (service ∈ SUPPORTED_SERVICES)) then
    Throw (mkError ("不支持的验证码服务: " +:+ service +:+ "，目前支持: "
                    +:+ Js.join ", " SUPPORTED_SERVICES) false)
  else
    (* _initSolver *)
    if negb (Js.truthyField apiKey)
       || (Js.length (default "" apiKey) <? 5)%nat
    then Throw (mkError ("无效的" +:+ service +:+ "API密钥") false)
    else if String.eqb service "2captcha" then
      Ok {| service := service; apiKey := apiKey; options := options;
            lastTaskId := None; tasks := ∅ |}
    else if String.eqb service "anticaptcha" then
      Throw (mkError "AntiCaptcha服务尚未实现" false)
    else
      Ok {| service := service; apiKey := apiKey; options := options;
            lastTaskId := None; tasks := ∅ |}.

Section WithEnv.

Variable E : Env.

Definition called (w : World) : World :=
  {| calls := S (calls w); reports := reports w; readings := readings w;
     events := events w |}.

Definition read (w : World) : Z * World :=
  (Date_now E (readings w),
   {| calls := calls w; reports := reports w; readings := S (readings w);
      events := events w |}).

Definition delay (retryDelay exponent : Z) (w : World) : World :=
  {| calls := calls w; reports := reports w; readings := readings w;
     events := events w ++ [Slept retryDelay exponent] |}.

Definition setTasks (tasks : gmap string Z) (s : t) : t :=
  {| service := service s; apiKey := apiKey s; options := options s;
     lastTaskId := lastTaskId s; tasks := tasks |}.

Definition _cleanupTasks (s : t) (w : World) : t * World :=
  let '(now, w) := read w in
  let expiry := Options.timeout (options s) * 2 in
  (setTasks (filter (λ kv, ¬ (now - kv.2 > expiry)) (tasks s)) s, w).

Definition shouldRetry (error : Error) : bool :=
  Js.truthy (message error)
  && (Js.includes (message error) "timeout"
      || Js.includes (message error) "TIMEOUT"
      || Js.includes (message error) "network"
      || Js.includes (message error) "NETWORK"
      || Js.includes (message error) "queue").

(** Reading [lastError.message] when no attempt was made. *)
Definition nullMessage : Error :=
  mkError "TypeError: Cannot read properties of null (reading 'message')" false.

(** The [while] loop of [_executeWithRetry] and what follows it; [fuel]
    bounds the number of turns. *)
Fixpoint _executeWithRetry (fuel : nat) (retries : Z)
    (lastError : option Error) (s : t) (w : World)
  : option (Result string * t * World) :=
  match fuel with
  | O => None
  | S fuel =>
      if retries <=? Options.maxRetries (options s) then
        let outcome := solverFn E (calls w) in
        let w := called w in
        match outcome with
        | Ok result =>
            let s := {| service := service s; apiKey := apiKey s;
                        options := options s;
                        lastTaskId := Some (id result);
                        tasks := tasks s |} in
            let '(now, w) := read w in
            let s := setTasks (<[id result := now]> (tasks s)) s in
            let '(s, w) := _cleanupTasks s w in
            Some (Ok (data result), s, w)
        | Throw error =>
            if shouldRetry error
               && (retries <? Options.maxRetries (options s))
            then
              let retries := retries + 1 in
              _executeWithRetry fuel retries (Some error) s
                (delay (Options.retryDelay (options s)) (retries - 1) w)
            else Some (Throw error, s, w)
        end
      else Some (Throw (default nullMessage lastError), s, w)
  end.

(** [solveImageCaptcha] and the other [solve...] methods: the solver
    function of the library, run by [_executeWithRetry]. *)
Definition solveImageCaptcha (fuel : nat) (s : t) (w : World)
  : option (Result string * t * World) :=
  _executeWithRetry fuel 0 None s w.

Definition reportIncorrect (taskId : option string) (s : t) (w : World)
  : bool * World :=
  let id := Js.or taskId (lastTaskId s) in
  if negb (Js.truthyField id) then (false, w)
  else
    let outcome := solver_report E (reports w) (default "" id) in
    let w := {| calls := calls w; reports := S (reports w);
                readings := readings w; events := events w |} in
    match outcome with
    | Ok _ => (true, w)
    | Throw _ => (false, w)
    end.

End WithEnv.
End CaptchaSolver.

(** ** FractionAIHandler: captcha recognition *)

Module FractionAIHandler.

(** What [axios.request] resolves to: the status and the body, when
    there is one. *)
Record Response := mkResponse {
  status : Z;
  data : option string
}.

(** The outside world of [recognizeCaptchaImage]. *)
Record Env := mkEnv {
  (** the k-th download [axios.request({method: 'get', url, ...})] *)
  axios_request : nat → string → Result Response;
  (** [Buffer.from(data).toString('base64')] *)
  toBase64 : string → string;
  (** the captcha service *)
  captcha : CaptchaSolver.Env
}.

Inductive Event :=
| Requested (url : string)
| Slept (ms : Z).

Record World := mkWorld {
  requests : nat;
  trace : list Event;
  solving : CaptchaSolver.World
}.

Record t := mk {
  captchaSolver : option CaptchaSolver.t;
  api3BaseUrl : string
}.

(** The error the recognition gives up with. *)
Definition fatalError : Error :=
  mkError "验证码识别连续失败超过最大重试次数" true.

Section WithEnv.

Variable E : Env.

Definition delay (ms : Z) (w : World) : World :=
  {| requests := requests w; trace := trace w ++ [Slept ms];
     solving := solving w |}.

(** The repair of the image URL at the start of an attempt. *)
Definition fixUrl (h : t) (imageUrl : string) : string :=
  if Js.startsWith imageUrl "/" then api3BaseUrl h +:+ imageUrl
  else if negb (Js.startsWith imageUrl "http") then "https://" +:+ imageUrl
  else imageUrl.

(** The body of the [try] block: one attempt.  It also yields the image
    URL, which the attempt may have rewritten. *)
Definition attempt (fuel : nat) (imageUrl : string) (h : t) (w : World)
  : option (Result string * string * t * World) :=
  match captchaSolver h with
  | None =>
      Some (Throw (mkError "未配置验证码服务，请配置2captcha服务" false),
            imageUrl, h, w)
  | Some solver =>
      let imageUrl := fixUrl h imageUrl in
      let outcome := axios_request E (requests w) imageUrl in
      let w := {| requests := S (requests w);
                  trace := trace w ++ [Requested imageUrl];
                  solving := solving w |} in
      match outcome with
      | Throw error => Some (Throw error, imageUrl, h, w)
      | Ok response =>
          if negb (status response =? 200) then
            Some (Throw (mkError ("验证码图片下载失败，状态码: "
                                  +:+ pretty (status response)) false),
                  imageUrl, h, w)
          else
            match data response with
            | None => Some (Throw (mkError "验证码图片数据为空" false),
                            imageUrl, h, w)
            | Some bytes =>
                let imageBase64 := toBase64 E bytes in
                if negb (Js.truthy imageBase64)
                   || (Js.length imageBase64 <? 100)%nat
                then Some (Throw (mkError "验证码图片数据无效" false),
                           imageUrl, h, w)
                else
                  match CaptchaSolver.solveImageCaptcha (captcha E) fuel
                          solver (solving w) with
                  | None => None
                  | Some (r, solver, sw) =>
                      Some (r, imageUrl,
                            {| captchaSolver := Some solver;
                               api3BaseUrl := api3BaseUrl h |},
                            {| requests := requests w; trace := trace w;
                               solving := sw |})
                  end
            end
      end
  end.

(** [recognizeCaptchaImage]: the [while] loop; [None] in the result
    stands for the [undefined] the function returns when the loop ends
    without a [return]. *)
Fixpoint recognizeLoop (fuel fuel' : nat) (imageUrl : string)
    (retryCount : Z) (h : t) (w : World)
  : option (Result (option string) * t * World) :=
  match fuel with
  | O => None
  | S fuel =>
      if retryCount <? 3 then
        match attempt fuel' imageUrl h w with
        | None => None
        | Some (Ok captchaText, _, h, w) => Some (Ok (Some captchaText), h, w)
        | Some (Throw _, imageUrl, h, w) =>
            let retryCount := retryCount + 1 in
            if 3 <=? retryCount then Some (Throw fatalError, h, w)
            else recognizeLoop fuel fuel' imageUrl retryCount h
                   (delay (2000 * retryCount) w)
        end
      else Some (Ok None, h, w)
  end.

Definition recognizeCaptchaImage (fuel : nat) (imageUrl : string) (h : t)
    (w : World) : option (Result (option string) * t * World) :=
  recognizeLoop 3 fuel imageUrl 0 h w.

End WithEnv.
End FractionAIHandler.

(** ** Worker: the closure of [sign] *)

Module SignTask.

(** What the closure changes: the calls of [httpClient.post] made,
    [this.metrics.retries], and the waits. *)
Record World := mkWorld {
  posts : nat;
  retries : Z;
  slept : list Z
}.

Section WithEnv.

Variable Wallet_signMessage : string → string → string.
Variable verifyMessage : string → string → option string.
(** the k-th call [httpClient.post(url, {address, message, signature,
    timestamp})]: [response.data], or what the call throws *)
Variable post : nat → Result string.

(** The [while (retryCount <= maxRetries)] loop with [maxRetries = 3]
    and the [throw] after it; [fuel] bounds the number of turns. *)
Fixpoint postLoop (fuel : nat) (retryCount : Z) (lastError : option Error)
    (w : World) : option (Result string * World) :=
  match fuel with
  | O => None
  | S fuel =>
      if retryCount <=? 3 then
        let outcome := post (posts w) in
        let w := {| posts := S (posts w); retries := retries w;
                    slept := slept w |} in
        match outcome with
        | Ok data => Some (Ok data, w)
        | Throw error =>
            let retryCount := retryCount + 1 in
            let w := {| posts := posts w; retries := retries w + 1;
                        slept := slept w |} in
            let w :=
              if retryCount <=? 3
              then {| posts := posts w; retries := retries w;
                      slept := slept w ++ [2 ^ retryCount * 1000] |}
              else w in
            postLoop fuel retryCount (Some error) w
        end
      else
        Some (Throw (default (mkError "签名授权请求失败，达到最大重试次数" false)
                       lastError), w)
  end.

(** The function [sign] hands to [withErrorHandling]; [timestamp] is
    what [Date.now()] returns. *)
Definition taskFn (fuel : nat) (signer : EthSigner.t) (timestamp : Z)
    (w : World) : option (Result string * World) :=
  let message := "Sign message for authentication " +:+ pretty timestamp in
  let signature :=
    EthSigner.signMessage Wallet_signMessage signer message in
  match EthSigner.verifySignature verifyMessage signer message signature with
  | Throw error => Some (Throw error, w)
  | Ok isValid =>
      if negb isValid then Some (Throw (mkError "本地签名验证失败" false), w)
      else postLoop fuel 0 None w
  end.

End WithEnv.
End SignTask.

(** * Part II: vocabulary of the properties and sample inputs *)

(** ** Accounts, proxies and worker threads *)

(** A trimmed line that ends up as an account: it is not empty, is not a
    comment, and the key it holds, once given its [0x] prefix, is one
    the wallet library accepts. *)
Definition accepted (Wallet : string → option string) (line : string)
  : bool :=
  Js.truthy line && negb (Js.startsWith line "#")
  && bool_decide (is_Some (Wallet (KeyManager.normalizeKey line))).

(** The claim about the errors of [loadAccounts] in its own words: the
    call throws only when the accounts file does not exist. *)
Definition throwsOnlyWhenMissing (Wallet : string → option string)
    (accountsFile : string) : Prop :=
  ∀ file e,
    KeyManager.loadAccounts Wallet accountsFile file = Throw e →
    file = KeyManager.Missing.

(** The claim about explicit proxies in the words of the design document:
    an account that comes with a proxy host is handed back as it is. *)
Definition keepsExplicitProxies (pm : ProxyManager.t) (accounts : list Account)
  : Prop :=
  ∀ i account,
    accounts !! i = Some account →
    ProxyManager.hasProxy account = true →
    ProxyManager.assignProxiesToAccounts pm accounts !! i = Some account.

(** What [assignProxiesToAccounts] does to one account. *)
Definition assigned (pm : ProxyManager.t) (before after : Account) : Prop :=
  privateKey after = privateKey before
  ∧ alias after = alias before
  ∧ address after = address before
  ∧ others after = others before
  ∧ match ProxyManager.getDynamicProxy pm with
    | Some dynamic =>
        if ProxyManager.hasProxy before then after = before
        else proxy after = Some dynamic
    | None => proxy after = Some ProxyManager.noProxy
    end.

Definition directConnection : ProxyManager.NetworkConfig :=
  {| ProxyManager.useProxy := false;
     ProxyManager.useDynamicProxy := false;
     ProxyManager.proxyHost := None;
     ProxyManager.proxyPort := None;
     ProxyManager.proxyUsername := None;
     ProxyManager.proxyPassword := None;
     ProxyManager.env_PROXY_HOST := None;
     ProxyManager.env_PROXY_PORT := None;
     ProxyManager.env_PROXY_USERNAME := None;
     ProxyManager.env_PROXY_PASSWORD := None |}.

Definition accountWithProxy : Account :=
  {| privateKey := "0x01";
     alias := "Account 1";
     address := Some "0xAb";
     proxy := Some {| host := Some "10.0.0.1"; port := Some "8080";
                      username := None; password := None |};
     others := [] |}.

Definition spawnAll (tm : TaskManager.t) (n : nat) : TaskManager.t :=
  {| TaskManager.accountsFile := TaskManager.accountsFile tm;
     TaskManager.proxyManager := TaskManager.proxyManager tm;
     TaskManager.accounts := TaskManager.accounts tm;
     TaskManager.workers :=
       TaskManager.workers tm
       ++ imap (λ i a, TaskManager.mkSpawned (Z.of_nat i + 1) a)
            (take n (TaskManager.accounts tm));
     TaskManager.isRunning := TaskManager.isRunning tm;
     TaskManager.totalAccounts := TaskManager.totalAccounts tm;
     TaskManager.activeThreads := TaskManager.activeThreads tm + Z.of_nat n |}.

(** The threads a call of [start] has created. *)
Definition spawned (r : Result TaskManager.t) : list TaskManager.Spawned :=
  match r with
  | Ok tm => TaskManager.workers tm
  | Throw _ => []
  end.

(** The accounts a run works with: those of the key file, with their
    proxies assigned; none when the file is missing or cannot be read. *)
Definition loadedAccounts (Wallet : string → option string)
    (tm : TaskManager.t) (file : KeyManager.File)
  : list Account :=
  match KeyManager.loadAccounts Wallet (TaskManager.accountsFile tm) file with
  | Ok loaded =>
      ProxyManager.assignProxiesToAccounts (TaskManager.proxyManager tm) loaded
  | Throw _ => []
  end.

Definition sampleKeyFile : string :=
  String.concat (String "010" "") ["0xaa"; "# note"; "bb"; "0xcc"].

(** ** The signer *)

(** What the signer needs from the ethers library: recovering the
    signer of a message signed by the wallet of a key yields the address
    of that wallet, up to the case of its letters. *)
Definition recoversSigner (Wallet_address : string → option string)
    (Wallet_signMessage : string → string → string)
    (verifyMessage : string → string → option string) : Prop :=
  ∀ key addr message,
    Wallet_address key = Some addr →
    ∃ recovered,
      verifyMessage message (Wallet_signMessage key message) = Some recovered
      ∧ Js.toLowerCase recovered = Js.toLowerCase addr.

(** A stand-in for the library to run the signer on: the address of a
    key is the key in upper case, the signature of a message names the
    key, and recovery returns the named key in lower case.  The recovered
    address and the wallet address then differ in case only. *)
Definition toyAddress (key : string) : option string :=
  if Js.startsWith key "0x" then Some (Js.toUpperCase key) else None.

Definition toySign (key message : string) : string := key.

Definition toyRecover (message signature : string) : option string :=
  Some (Js.toLowerCase signature).

(** ** The HTTP client *)

(** The timers never move the clock backwards. *)
Definition clockMonotone (E : HttpClient.Env) : Prop :=
  ∀ k ms, 0 ≤ HttpClient.timer E k ms.

(** A timer does not fire before the time asked for has passed. *)
Definition timersHonest (E : HttpClient.Env) : Prop :=
  ∀ k ms, ms ≤ HttpClient.timer E k (Some ms).

(** The strict reading of the claim: the call returns only once one of the
    recorded timestamps is more than 60 seconds old. *)
Definition returnsAfterMoreThan60s (E : HttpClient.Env) (c : HttpClient.t)
    (w : HttpClient.World)
  : Prop :=
  ∀ fuel c' w',
    HttpClient.checkRateLimit E fuel c w = Some (c', w') →
    ∃ t, t ∈ HttpClient.requestTimestamps c ∧ 60000 < HttpClient.now w' - t.

(** Timers that fire exactly on time (a delay below 1 ms, or [NaN], fires
    after 1 ms), a random source that always picks the first choice, and a
    transport that refuses every connection. *)
Definition exactTimers : HttpClient.Env :=
  {| HttpClient.timer := λ _ ms, 1 `max` default 1 ms;
     HttpClient.random := λ _ _, 0%nat;
     HttpClient.cycleTLS := λ _ _ _ _,
       Throw (mkError "connect ECONNREFUSED" false) |}.

Definition clientWith (maxRetries rateLimit : Z) (timestamps : list Z)
  : HttpClient.t :=
  {| HttpClient.options :=
       {| HttpClient.Options.proxy := None;
          HttpClient.Options.ja3Fingerprint := "771,4865-4866,0-23,29-23-24,0";
          HttpClient.Options.timeout := 60000;
          HttpClient.Options.followRedirects := true;
          HttpClient.Options.maxRetries := maxRetries;
          HttpClient.Options.retryDelay := 2000;
          HttpClient.Options.rateLimit := rateLimit |};
     HttpClient.requestTimestamps := timestamps;
     HttpClient.endpointHeadersFormat := ∅;
     HttpClient.defaultHeadersFormat := "object" |}.

Definition worldAt (now : Z) : HttpClient.World :=
  {| HttpClient.now := now; HttpClient.cycleTLSClient := false;
     HttpClient.sleeps := 0; HttpClient.draws := 0; HttpClient.sends := 0;
     HttpClient.events := [] |}.

(** A reading of plain absolute URLs (no dot segments, escapes or
    fragments) for [new URL(url).pathname], and simple printers for the
    other library functions. *)
Definition plainPathname (url : string) : option string :=
  match Js.split "/" (default "" (head (Js.split "?" url))) with
  | scheme :: "" :: _ :: segments =>
      if Js.includes scheme ":"
      then Some ("/" +:+ Js.join "/" segments) else None
  | _ => None
  end.

Definition plainPlatform : HttpClient.Platform :=
  {| HttpClient.URL_pathname := plainPathname;
     HttpClient.JSON_stringify := λ fields,
       "{" +:+ Js.join "," (map (λ kv, kv.1 +:+ ":" +:+ kv.2) fields) +:+ "}";
     HttpClient.JSON_parse := λ _, None;
     HttpClient.URLSearchParams_toString := λ fields,
       Js.join "&" (map (λ kv, kv.1 +:+ "=" +:+ kv.2) fields) |}.

(** The headers encoding of every request sent so far. *)
Definition sentFormats (events : list HttpClient.Event) : list string :=
  omap (λ e, match e with
             | HttpClient.Sent _ config _ =>
                 match HttpClient.rc_headers config with
                 | HttpClient.HObject _ => Some "object"
                 | HttpClient.HString _ => Some "string"
                 end
             | _ => None
             end) events.

(** The waits made so far. *)
Definition sleptFor (events : list HttpClient.Event) : list (option Z) :=
  omap (λ e, match e with
             | HttpClient.Slept ms => Some ms
             | _ => None
             end) events.

Definition outcomeOf {A} (r : option (Result A * HttpClient.t * HttpClient.World))
  : option (Result A) :=
  (λ x, x.1.1) <$> r.

Definition worldOf {A} (r : option (Result A * HttpClient.t * HttpClient.World))
  : HttpClient.World :=
  default (worldAt 0) ((λ x, x.2) <$> r).

Definition clientOf {A} (r : option (Result A * HttpClient.t * HttpClient.World))
  : HttpClient.t :=
  default (clientWith 0 0 []) ((λ x, x.1.2) <$> r).

Definition unmarshalError : Error :=
  mkError "json: cannot unmarshal object into Go struct field Options.headers of type string" false.

(** A transport whose endpoint rejects structured headers with the
    encoding error and answers 200 to flattened ones. *)
Definition stringHeadersOnly : HttpClient.Env :=
  {| HttpClient.timer := λ _ ms, 1 `max` default 1 ms;
     HttpClient.random := λ _ _, 0%nat;
     HttpClient.cycleTLS := λ _ _ config _,
       match HttpClient.rc_headers config with
       | HttpClient.HObject _ => Throw unmarshalError
       | HttpClient.HString _ =>
           Ok (HttpClient.mkResponse 200 (Some "OK") [] "ok")
       end |}.

Definition balancesUrl : string :=
  "https://dapp-backend-4x.fractionai.xyz/api3/agents/balances".

(** ** The task runner *)

(** The tasks a trace shows a first attempt of, and the tasks it shows a
    result being recorded for, both in order. *)
Definition attempted (events : list Worker.Event) : list string :=
  omap (λ e, match e with
             | Worker.Began taskType 0 => Some taskType
             | _ => None
             end) events.

Definition recorded (events : list Worker.Event) : list string :=
  omap (λ e, match e with
             | Worker.Recorded taskType _ => Some taskType
             | _ => None
             end) events.

(** The names under which an object created by [{}] takes an assigned
    result as an own property: every name but [__proto__]. *)
Definition entryNames (names : list string) : list string :=
  List.filter (λ name, negb (String.eqb name "__proto__")) names.

(** Events that neither begin a task nor record a result. *)
Definition quiet (events : list Worker.Event) : Prop :=
  attempted events = [] ∧ recorded events = [].

(** [w'] is [w] after the events [events]. *)
Definition after (w : Worker.t) (events : list Worker.Event) (w' : Worker.t)
  : Prop :=
  Worker.trace w' = Worker.trace w ++ events.


(** Handlers and closures that always succeed, with a fixed pause draw. *)
Definition allSucceed : Worker.Env :=
  {| Worker.taskFn := λ _ _, Ok "done";
     Worker.handler := λ _ _,
       Ok (Worker.mkTaskResult true (Some "done") None None false);
     Worker.random := λ _, 500 |}.

Definition configWith (maxConsecutiveErrors : Z) (stopOnFailure : bool)
    (sequence : list string) : Worker.Config :=
  {| Worker.maxConsecutiveErrors := maxConsecutiveErrors;
     Worker.cooldownPeriod := 300000;
     Worker.maxRetries := 3;
     Worker.initialRetryDelay := 2000;
     Worker.stopOnFailure := stopOnFailure;
     Worker.delayBetweenTasks := Worker.DelayFixed 2000;
     Worker.sequence := Some sequence |}.

(** The captcha solver gave up: the handler of [createMatch] throws the
    error the solver marks as fatal; the other tasks succeed. *)
Definition captchaFatalError : Error :=
  mkError "验证码识别连续失败超过最大重试次数" true.

Definition captchaGivesUp : Worker.Env :=
  {| Worker.taskFn := λ _ _, Ok "done";
     Worker.handler := λ _ method,
       if String.eqb method "createMatch" then Throw captchaFatalError
       else Ok (Worker.mkTaskResult true (Some "done") None None false);
     Worker.random := λ _, 500 |}.

(** A monitor for the circuit breaker, run over the events of a worker.
    While [Counting c fresh] the consecutive-failure counter reads [c], and
    [fresh] tells that the attempt in progress has not changed it yet.  An
    attempt may begin only while [c] is below the threshold [max]; the
    counter changes at most once per attempt, by one step up or back to
    0; when a step up reaches [max] the breaker has [Tripped] and the next
    event must be a sleep of at least [cooldown] ms ([Cooled]), and the one
    after it the reset of the counter to 0.  Anything else is [Broken]. *)
Inductive Phase :=
| Counting (c : Z) (fresh : bool)
| Tripped
| Cooled
| Broken.

Definition breaker (max cooldown : Z) (p : Phase) (e : Worker.Event) : Phase :=
  match p with
  | Counting c fresh =>
      match e with
      | Worker.Began _ _ => if c <? max then Counting c true else Broken
      | Worker.Counted v =>
          if fresh && ((v =? 0) || (v =? c + 1))
          then (if max <=? v then Tripped else Counting v false)
          else Broken
      | _ => Counting c fresh
      end
  | Tripped =>
      match e with
      | Worker.Slept ms => if cooldown <=? ms then Cooled else Broken
      | _ => Broken
      end
  | Cooled =>
      match e with
      | Worker.Counted v => if v =? 0 then Counting 0 false else Broken
      | _ => Broken
      end
  | Broken => Broken
  end.

Definition watch (max cooldown : Z) (events : list Worker.Event) : Phase :=
  foldl (breaker max cooldown) (Counting 0 false) events.

(** The claim in the words of the design document: the counter counts
    failed tasks.  After a task has failed for good, the counter is one
    higher than before the task, or 0 when that reached the threshold and
    the runner cooled down. *)
Definition countsFailedTasks (config : Worker.Config) (E : Worker.Env)
    (fuel : nat) (w : Worker.t) (taskType : string) : Prop :=
  ∀ result w',
    Worker.executeTask config E fuel taskType 0 0 w = Some (result, w') →
    Worker.success result = false →
    Worker.consecutiveErrors w'
    = if Worker.maxConsecutiveErrors config <=? Worker.consecutiveErrors w + 1
      then 0 else Worker.consecutiveErrors w + 1.

(** The monitor has followed the worker so far and agrees with it on the
    counter, which is below the threshold. *)
Definition guarded (config : Worker.Config) (fresh : bool) (w : Worker.t)
  : Prop :=
  watch (Worker.maxConsecutiveErrors config) (Worker.cooldownPeriod config)
    (Worker.trace w)
  = Counting (Worker.consecutiveErrors w) fresh
  ∧ 0 ≤ Worker.consecutiveErrors w < Worker.maxConsecutiveErrors config.

(** What the error handlers of the runner do to the counter on a failure. *)
Definition countFailure (config : Worker.Config) (d : Z) (w : Worker.t)
  : Worker.t :=
  let w := Worker.setConsecutiveErrors (Worker.consecutiveErrors w + 1) w in
  if Worker.maxConsecutiveErrors config <=? Worker.consecutiveErrors w
  then Worker.setConsecutiveErrors 0 (Worker.delay d w) else w.

(** A task type that the switch of [executeTask] hands to the FractionAI
    handler. *)
Definition handlerTask (taskType : string) : bool :=
  bool_decide (is_Some (Js.getProp Worker.fractionAITasks taskType)).

(** One turn of the task loop on which the breaker leaves no mark, by its
    task, the result and the pause before the next task if there was one:
    the task is attempted once and its result recorded, the counter is
    not written, and the only sleep is that pause. *)
Definition roundEvents (round : string * Worker.TaskResult * option Z)
  : list Worker.Event :=
  let '(taskType, result, pause) := round in
  Worker.Began taskType 0
  :: Worker.Recorded taskType result
  :: match pause with
     | Some ms => [Worker.Slept ms]
     | None => []
     end.

(** The task sequence of the sample environment file ([TASK_SEQUENCE] in
    [.env.example]): five tasks, all routed to the FractionAI handler. *)
Definition shippedSequence : list string :=
  [ "fractionAI:verify"; "fractionAI:getUserAgents"; "fractionAI:createAgent";
    "fractionAI:disableAutomatedMatchmaking";
    "fractionAI:enableAutomatedMatchmaking" ].

(** The closure of [sign] always throws; everything else succeeds. *)
Definition signFails : Worker.Env :=
  {| Worker.taskFn := λ _ task,
       if String.eqb task "sign" then Throw (mkError "socket hang up" false)
       else Ok "done";
     Worker.handler := λ _ _,
       Ok (Worker.mkTaskResult true (Some "done") None None false);
     Worker.random := λ _, 500 |}.

(** ** The results the orchestrator collects *)

(** The entries the message events of a run add to [this.results]. *)
Definition collected (events : list TaskManager.WorkerEvent)
  : list TaskManager.Collected.t :=
  omap (λ e, match e with
             | TaskManager.OnMessage i message =>
                 Some (TaskManager.Collected.mk message (i + 1))
             | _ => None
             end) events.

Definition errorEvents (events : list TaskManager.WorkerEvent) : Z :=
  Z.of_nat
    (length (List.filter (λ e, match e with
                               | TaskManager.OnError _ => true
                               | _ => false
                               end) events)).

Definition exitEvents (events : list TaskManager.WorkerEvent) : Z :=
  Z.of_nat
    (length (List.filter (λ e, match e with
                               | TaskManager.OnExit _ _ => true
                               | _ => false
                               end) events)).

(** ** The attempts of one request *)

(** The URL an attempt asks for: the data of a GET request is added to
    the URL the attempt starts from. *)
Definition requestedUrl (P : HttpClient.Platform) (method : string)
    (data : option (list (string * string))) (url : string) : string :=
  match data with
  | Some fields =>
      if String.eqb (Js.toUpperCase method) "GET"
      then url +:+ (if Js.includes url "?" then "&" else "?")
               +:+ HttpClient.URLSearchParams_toString P fields
      else url
  | None => url
  end.

(** The URLs of the requests sent so far. *)
Definition sentUrls (events : list HttpClient.Event) : list string :=
  omap (λ e, match e with
             | HttpClient.Sent url _ _ => Some url
             | _ => None
             end) events.

(** The waits before retries number [from + 1] to [from + k]. *)
Definition backoffs (retryDelay : option Z) (from : Z) (k : nat)
  : list (option Z) :=
  (λ j, HttpClient.backoff retryDelay (from + Z.of_nat j + 1)) <$> seq 0 k.

(** The retry budget of a call: the [maxRetries] property of its
    options, nothing when the property is absent or not positive. *)
Definition retryBudget (options : HttpClient.RequestOptions.t) : nat :=
  Z.to_nat (default 0 (HttpClient.RequestOptions.maxRetries options)).

(** ** The results and the metrics of a run *)

(** The results a trace shows being recorded, in order. *)
Definition recordedResults (events : list Worker.Event)
  : list Worker.TaskResult :=
  omap (λ e, match e with
             | Worker.Recorded _ result => Some result
             | _ => None
             end) events.

(** A result after which [executeAllTasks] leaves its loop. *)
Definition halting (config : Worker.Config) (result : Worker.TaskResult)
  : bool :=
  Worker.fatalError result
  || (negb (Worker.success result) && Worker.stopOnFailure config).

(** The tasks that run under [withErrorHandling], the only place where
    [this.metrics] is updated. *)
Definition countedTask (taskType : string) : bool :=
  String.eqb taskType "sign" || String.eqb taskType "createEvent".

Definition countedAttempts (events : list Worker.Event) : Z :=
  Z.of_nat (length (List.filter countedTask (attempted events))).

(** Attempt number [k] of a task type [executeTask] has no case for, on a
    worker whose counter stood at [c] before the first attempt: the wait
    before a retry, the attempt, and the failure being counted. *)
Definition failedAttempt (taskType : string) (c d : Z) (k : Z)
  : list Worker.Event :=
  (if (0 <? k) && (0 <? d * 2 ^ (k - 1))
   then [Worker.Slept (d * 2 ^ (k - 1))] else [])
  ++ [Worker.Began taskType k; Worker.Counted (c + k + 1)].

(** The handler always throws an ordinary error. *)
Definition handlerFails : Worker.Env :=
  {| Worker.taskFn := λ _ _, Ok "done";
     Worker.handler := λ _ _, Throw (mkError "HTTP 500" false);
     Worker.random := λ _, 500 |}.

(** ** The captcha solver *)

(** The service a [CaptchaSolver] is built for: the given name in lower
    case, or 2captcha when none is given. *)
Definition chosenService (service : option string) : string :=
  match service with
  | Some name => if Js.truthy name then Js.toLowerCase name else "2captcha"
  | None => "2captcha"
  end.

(** An API key the solver accepts: present and at least 5 characters. *)
Definition usableKey (apiKey : option string) : bool :=
  match apiKey with
  | Some key => (5 <=? Js.length key)%nat
  | None => false
  end.

(** ** Captcha recognition *)

(** The waits and the downloads a trace of the handler shows. *)
Definition recognitionWaits (events : list FractionAIHandler.Event) : list Z :=
  omap (λ e, match e with
             | FractionAIHandler.Slept ms => Some ms
             | _ => None
             end) events.

Definition requestedUrls (events : list FractionAIHandler.Event)
  : list string :=
  omap (λ e, match e with
             | FractionAIHandler.Requested url => Some url
             | _ => None
             end) events.

(** The most calls of the 2captcha library one [solve...] call makes. *)
Definition solverCallsPerSolve (h : FractionAIHandler.t) : nat :=
  match FractionAIHandler.captchaSolver h with
  | Some solver =>
      Z.to_nat
        (CaptchaSolver.Options.maxRetries (CaptchaSolver.options solver) + 1)
  | None => 0
  end.

(** A captcha service that times out twice and then answers. *)
Definition slowSolver : CaptchaSolver.Env :=
  {| CaptchaSolver.solverFn := λ k,
       if (k <? 2)%nat then Throw (mkError "ERROR: TIMEOUT" false)
       else Ok (CaptchaSolver.mkSolution "77" "x7k2p");
     CaptchaSolver.solver_report := λ _ _, Ok tt;
     CaptchaSolver.Date_now := λ k, 1000 * Z.of_nat k |}.

Definition sampleSolver : CaptchaSolver.t :=
  {| CaptchaSolver.service := "2captcha";
     CaptchaSolver.apiKey := Some "0123456789abcdef";
     CaptchaSolver.options := CaptchaSolver.Options.mk 5000 180000 false 3 5000;
     CaptchaSolver.lastTaskId := None;
     CaptchaSolver.tasks := ∅ |}.

(** An image server that is down, in front of that service. *)
Definition imageServerDown : FractionAIHandler.Env :=
  {| FractionAIHandler.axios_request := λ _ _,
       Throw (mkError "connect ETIMEDOUT" false);
     FractionAIHandler.toBase64 := λ bytes, bytes;
     FractionAIHandler.captcha := slowSolver |}.

Definition sampleHandler : FractionAIHandler.t :=
  {| FractionAIHandler.captchaSolver := Some sampleSolver;
     FractionAIHandler.api3BaseUrl :=
       "https://dapp-backend-4x.fractionai.xyz/api3" |}.

Definition quietWorld : FractionAIHandler.World :=
  {| FractionAIHandler.requests := 0;
     FractionAIHandler.trace := [];
     FractionAIHandler.solving := CaptchaSolver.mkWorld 0 0 0 [] |}.

(** ** The sign task *)

(** A server that rejects the first two sign requests. *)
Definition busyServer (k : nat) : Result string :=
  if (k <? 2)%nat then Throw (mkError "HTTP 503" false) else Ok "signed".

(** * Part III: theorems *)

(** ** JavaScript string methods *)

Lemma startsWith_0x_prepend (key : string) :
  Js.startsWith ("0x" +:+ key) "0x" = true.
Proof.
  unfold Js.startsWith. cbn. by destruct key.
Qed.

Lemma truthy_empty : Js.truthy "" = false.
Proof. reflexivity. Qed.

Lemma toLowerCase_idempotent (s : string) :
  Js.toLowerCase (Js.toLowerCase s) = Js.toLowerCase s.
Proof.
  unfold Js.toLowerCase.
  induction s as [|a s IH]; [done|]. cbn [Js.mapChars]. f_equal; [|exact IH].
  clear. revert a.
  assert (H : ∀ n, (n < 256)%N →
    Js.lowerChar (Js.lowerChar (ascii_of_N n)) = Js.lowerChar (ascii_of_N n)).
  { intros n Hn. unfold Js.lowerChar.
    rewrite N_ascii_embedding by exact Hn.
    destruct ((65 <=? n) && (n <=? 90))%N eqn:Hc.
    - apply andb_true_iff in Hc as [H1 H2].
      apply N.leb_le in H1, H2.
      rewrite N_ascii_embedding by lia.
      destruct ((65 <=? n + 32) && (n + 32 <=? 90))%N eqn:Hd; [|done].
      apply andb_true_iff in Hd as [_ H4]. apply N.leb_le in H4. lia.
    - rewrite N_ascii_embedding by exact Hn. by rewrite Hc. }
  intros a. rewrite <- (ascii_N_embedding a). apply H, N_ascii_bounded.
Qed.

(** ** KeyManager *)

Section KeyManagerFacts.

Variable Wallet : string → option string.

Lemma normalizeKey_prefixed (key : string) :
  Js.startsWith (KeyManager.normalizeKey key) "0x" = true.
Proof.
  unfold KeyManager.normalizeKey.
  destruct (Js.startsWith key "0x") eqn:H; [exact H|].
  apply startsWith_0x_prepend.
Qed.

Lemma validate_keys (f : nat → string → Account) (lines : list string) :
  (∀ i k, privateKey (f i k) = k) →
  privateKey <$> omap (KeyManager.validate Wallet) (imap f lines)
  = KeyManager.normalizeKey
      <$> List.filter
            (λ l, bool_decide (is_Some (Wallet (KeyManager.normalizeKey l))))
            lines.
Proof.
  revert f. induction lines as [|l lines IH]; intros f Hf; [done|].
  rewrite imap_cons. cbn [omap list_omap List.filter].
  unfold KeyManager.validate at 1. rewrite Hf.
  destruct (Wallet (KeyManager.normalizeKey l)) as [addr|] eqn:HW.
  - rewrite bool_decide_eq_true_2 by eauto.
    cbn. f_equal. apply IH. intros i k. apply Hf.
  - rewrite bool_decide_eq_false_2 by (intros [? ?]; done).
    apply IH. intros i k. apply Hf.
Qed.

Lemma validate_sound (account account' : Account) :
  KeyManager.validate Wallet account = Some account' →
  Js.startsWith (privateKey account') "0x" = true
  ∧ is_Some (address account')
  ∧ address account' = Wallet (privateKey account').
Proof.
  unfold KeyManager.validate.
  destruct (Wallet (KeyManager.normalizeKey (privateKey account)))
    as [addr|] eqn:HW; [|done].
  intros [= <-]. cbn. split; [apply normalizeKey_prefixed|].
  split; [eauto|done].
Qed.

Lemma filter_filter_andb {A} (p q : A → bool) (l : list A) :
  List.filter q (List.filter p l) = List.filter (λ x, p x && q x) l.
Proof.
  induction l as [|x l IH]; [done|]. cbn.
  destruct (p x); cbn; [|exact IH].
  destruct (q x); by rewrite IH.
Qed.

(** C10, amended.  [loadAccounts] throws in two cases: when the accounts
    file does not exist, with a message that names the file, and when
    reading it fails, with the error of the read.  On every file content
    it returns the accounts of exactly the accepted lines, in order: empty
    lines, comment lines and lines whose key the wallet library rejects
    are left out without an error.  Every returned account has a private
    key starting with [0x] and the address the wallet library derives from
    that key. *)
Theorem loadAccounts_filters_and_normalizes (accountsFile : string) :
  KeyManager.loadAccounts Wallet accountsFile KeyManager.Missing
  = Throw (mkError ("账号文件 " +:+ accountsFile +:+ " 不存在") false)
  ∧ (∀ error : Error,
       KeyManager.loadAccounts Wallet accountsFile (KeyManager.Unreadable error)
       = Throw error)
  ∧ ∀ accountsData : string,
      ∃ accounts,
        KeyManager.loadAccounts Wallet accountsFile
          (KeyManager.Content accountsData)
        = Ok accounts
        ∧ privateKey <$> accounts
          = KeyManager.normalizeKey
              <$> List.filter (accepted Wallet)
                    (Js.trim <$> Js.split "010" accountsData)
        ∧ Forall (λ a, Js.startsWith (privateKey a) "0x" = true
                       ∧ is_Some (address a)
                       ∧ address a = Wallet (privateKey a)) accounts.
Proof.
  split; [reflexivity|]. split; [reflexivity|].
  intros accountsData. eexists. split; [reflexivity|]. split.
  - rewrite validate_keys by done.
    rewrite filter_filter_andb. done.
  - apply Forall_forall. intros a Ha.
    apply list_elem_of_omap in Ha as (a0 & _ & Hv).
    by apply validate_sound in Hv.
Qed.

End KeyManagerFacts.

(** C10, as stated, fails: an accounts file that exists and cannot be
    read (here a directory) makes [loadAccounts] throw as well. *)
Lemma unreadable_accounts_file_throws :
  ¬ throwsOnlyWhenMissing (λ _, None) "accounts.txt".
Proof.
  intros H.
  specialize (H (KeyManager.Unreadable
                   (mkError "EISDIR: illegal operation on a directory, read"
                      false)) _ eq_refl).
  discriminate H.
Qed.

(** ** ProxyManager *)

(** C8, as stated, fails: with the proxy feature switched off the manager
    has no dynamic proxy, and an account that came with the proxy
    10.0.0.1:8080 is handed back with an empty one. *)
Lemma explicit_proxy_overwritten_without_dynamic_proxy :
  ¬ keepsExplicitProxies (ProxyManager.constructor directConnection)
      [accountWithProxy].
Proof.
  intros H. specialize (H 0%nat accountWithProxy eq_refl eq_refl).
  cbn in H. discriminate H.
Qed.

(** A dynamic proxy that was loaded has a host and a port. *)
Lemma loadProxyConfig_complete (cfg : ProxyManager.NetworkConfig) (p : Proxy) :
  ProxyManager.loadProxyConfig cfg = Some p →
  Js.truthyField (host p) = true ∧ Js.truthyField (port p) = true.
Proof.
  unfold ProxyManager.loadProxyConfig.
  destruct (ProxyManager.useProxy cfg); cbn [negb]; [|done].
  destruct (ProxyManager.useDynamicProxy cfg); [|done].
  cbn [host port].
  destruct (Js.truthyField (Js.or _ _)) eqn:Hh; cbn [negb orb]; [|done].
  destruct (Js.truthyField (Js.or (ProxyManager.proxyPort cfg) _)) eqn:Hp;
    cbn [negb]; [|done].
  intros [= <-]. cbn [host port]. by rewrite Hh, Hp.
Qed.

(** C8, amended.  The assignment keeps the length and the order of the
    list and never touches a field other than [proxy].  When the manager
    has a dynamic proxy, an account that already has a proxy host is
    returned as it is and every other account gets the dynamic proxy; when
    it has none (proxies disabled or not configured), every account gets
    the empty proxy with host and port null. *)
Theorem assignProxies_frame (pm : ProxyManager.t) (accounts : list Account) :
  Forall2 (assigned pm) accounts
    (ProxyManager.assignProxiesToAccounts pm accounts).
Proof.
  unfold ProxyManager.assignProxiesToAccounts, assigned.
  destruct (ProxyManager.getDynamicProxy pm) as [dynamic|].
  - induction accounts as [|a accounts IH]; [constructor|].
    cbn [map]. constructor; [|exact IH].
    destruct (ProxyManager.hasProxy a); cbn; by repeat split.
  - induction accounts as [|a accounts IH]; [constructor|].
    cbn [map]. constructor; [|exact IH]. cbn; by repeat split.
Qed.

(** ** TaskManager *)

Section TaskManagerFacts.

Variable Wallet : string → option string.

Lemma spawn_loop (tm : TaskManager.t) (n : nat) :
  TaskManager.workers tm = [] →
  (n ≤ length (TaskManager.accounts tm))%nat →
  foldl TaskManager.spawnOne (Ok tm) (seqZ 0 (Z.of_nat n)) = Ok (spawnAll tm n).
Proof.
  intros Hw. induction n as [|n IH]; intros Hn.
  - rewrite seqZ_nil by done. unfold spawnAll. rewrite take_0.
    destruct tm; cbn in *. subst. do 2 f_equal. lia.
  - rewrite seqZ_S, foldl_snoc, IH by lia.
    unfold TaskManager.spawnOne.
    destruct (lookup_lt_is_Some_2 (TaskManager.accounts tm) n) as [a Ha]; [lia|].
    cbn [spawnAll TaskManager.accounts]. rewrite Z.add_0_l, Nat2Z.id, Ha.
    unfold spawnAll. cbn. f_equal. f_equal; [|lia].
    rewrite (take_S_r _ _ a) by exact Ha.
    rewrite imap_app, <- app_assoc. f_equal. f_equal.
    cbn. rewrite length_take, Nat.add_0_r.
    by replace (n `min` length (TaskManager.accounts tm))%nat with n by lia.
Qed.

(** C7. With a positive worker ceiling, a fresh task manager starts
    exactly min(maxWorkers, number of accounts) worker threads; thread
    number i+1 is bound to the i-th account of the list, so the threads
    take distinct accounts in list order, and nothing is started for the
    accounts after them. *)
Theorem start_spawns_min (maxWorkers : Z) (privateKeyFile : string)
    (network : ProxyManager.NetworkConfig) (file : KeyManager.File) :
  0 < maxWorkers →
  let tm := TaskManager.constructor privateKeyFile network in
  let accounts := loadedAccounts Wallet tm file in
  let started := spawned (TaskManager.start Wallet maxWorkers tm file) in
  let ceiling := Z.to_nat (Z.min maxWorkers (Z.of_nat (length accounts))) in
  Z.of_nat (length started) = Z.min maxWorkers (Z.of_nat (length accounts))
  ∧ started
    = imap (λ i a, TaskManager.mkSpawned (Z.of_nat i + 1) a)
        (take ceiling accounts)
  ∧ ∀ i : nat, (ceiling ≤ i)%nat → started !! i = None.
Proof.
  intros Hmax tm accounts started ceiling.
  assert (Hstarted : started
    = imap (λ i a, TaskManager.mkSpawned (Z.of_nat i + 1) a)
        (take ceiling accounts)).
  { subst started accounts ceiling tm.
    unfold loadedAccounts, TaskManager.start, TaskManager.loadAccounts.
    cbn [TaskManager.constructor TaskManager.setRunning
         TaskManager.accountsFile TaskManager.proxyManager
         TaskManager.isRunning TaskManager.workers
         TaskManager.activeThreads].
    destruct (KeyManager.loadAccounts Wallet privateKeyFile file)
      as [loaded|e]; [|by rewrite take_nil].
    destruct (Z.of_nat (length loaded) =? 0) eqn:H0.
    { apply Z.eqb_eq in H0. destruct loaded; [|cbn in H0; lia].
      unfold ProxyManager.assignProxiesToAccounts.
      destruct (ProxyManager.getDynamicProxy _); cbn [map];
        by rewrite take_nil. }
    set (assignedAccounts := ProxyManager.assignProxiesToAccounts _ loaded).
    assert (Hlen : length assignedAccounts = length loaded).
    { subst assignedAccounts. unfold ProxyManager.assignProxiesToAccounts.
      destruct (ProxyManager.getDynamicProxy _); by rewrite length_map. }
    cbn [TaskManager.accounts]. rewrite Hlen, H0.
    unfold Js.orNumber. replace (maxWorkers =? 0) with false by lia.
    apply Z.eqb_neq in H0.
    rewrite <- (Z2Nat.id (Z.min maxWorkers _)) by lia.
    rewrite spawn_loop; [|done|cbn; lia].
    cbn. by rewrite Nat2Z.id. }
  split; [|split].
  - rewrite Hstarted, length_imap, length_take. subst ceiling. lia.
  - exact Hstarted.
  - intros i Hi. rewrite Hstarted. apply lookup_ge_None_2.
    rewrite length_imap, length_take. lia.
Qed.

End TaskManagerFacts.

Lemma start_spawns_min_witness :
  0 < 2
  ∧ spawned
      (TaskManager.start (λ key, Some ("addr:" +:+ key)) 2
         (TaskManager.constructor "keys.txt" directConnection)
         (KeyManager.Content sampleKeyFile))
    = [ TaskManager.mkSpawned 1
          (mkAccount "0xaa" "Account 1" (Some "addr:0xaa")
             (Some ProxyManager.noProxy) []);
        TaskManager.mkSpawned 2
          (mkAccount "0xbb" "Account 2" (Some "addr:0xbb")
             (Some ProxyManager.noProxy) []) ].
Proof.
  split; [lia|].
  pose proof (start_spawns_min (λ key, Some ("addr:" +:+ key)) 2 "keys.txt"
    directConnection (KeyManager.Content sampleKeyFile) ltac:(lia)) as (_ & H & _).
  rewrite H. vm_compute. reflexivity.
Defined.

(** ** EthSigner *)

Section EthSignerFacts.

Variable Wallet_address : string → option string.
Variable Wallet_signMessage : string → string → string.
Variable verifyMessage : string → string → option string.

Lemma constructor_address (key : option string) (signer : EthSigner.t) :
  EthSigner.constructor Wallet_address key = Ok signer →
  Wallet_address (EthSigner.wallet signer) = Some (EthSigner.address signer).
Proof.
  unfold EthSigner.constructor. destruct key as [k|]; [|done].
  destruct (negb (Js.truthy k) || negb (Js.startsWith k "0x")); [done|].
  destruct (Wallet_address k) as [a|] eqn:Ha; [|done].
  by intros [= <-].
Qed.

(** C9. For a signer built by the constructor and every message,
    verifying the message with the signature the signer itself produced
    for it returns true, because the recovered address and the signer's
    own address agree once both are lower-cased. *)
Theorem verify_own_signature (key : option string) (signer : EthSigner.t)
    (message : string) :
  recoversSigner Wallet_address Wallet_signMessage verifyMessage →
  EthSigner.constructor Wallet_address key = Ok signer →
  EthSigner.verifySignature verifyMessage signer message
    (EthSigner.signMessage Wallet_signMessage signer message)
  = Ok true.
Proof.
  intros Hlib Hsigner. apply constructor_address in Hsigner.
  destruct (Hlib _ _ message Hsigner) as (recovered & Hrec & Hcase).
  unfold EthSigner.verifySignature, EthSigner.signMessage.
  rewrite Hrec, Hcase. by rewrite String.eqb_refl.
Qed.

End EthSignerFacts.

Lemma toLowerCase_toUpperCase (s : string) :
  Js.toLowerCase (Js.toUpperCase s) = Js.toLowerCase s.
Proof.
  unfold Js.toLowerCase, Js.toUpperCase.
  induction s as [|a s IH]; [done|]. cbn [Js.mapChars]. f_equal; [|exact IH].
  clear. rewrite <- (ascii_N_embedding a).
  pose proof (N_ascii_bounded a) as Hn. revert Hn.
  generalize (N_of_ascii a). intros n Hn.
  unfold Js.upperChar, Js.lowerChar. rewrite N_ascii_embedding by exact Hn.
  destruct ((97 <=? n) && (n <=? 122))%N eqn:Hu.
  - apply andb_true_iff in Hu as [H1 H2]. apply N.leb_le in H1, H2.
    rewrite N_ascii_embedding by lia.
    replace ((65 <=? n - 32) && (n - 32 <=? 90))%N with true
      by (symmetry; apply andb_true_iff; split; apply N.leb_le; lia).
    replace ((65 <=? n) && (n <=? 90))%N with false
      by (symmetry; apply andb_false_iff; right; apply N.leb_gt; lia).
    f_equal. lia.
  - by rewrite N_ascii_embedding by exact Hn.
Qed.

Lemma verify_own_signature_witness :
  EthSigner.verifySignature toyRecover (EthSigner.mk "0xabc" "0XABC") "hello"
    (EthSigner.signMessage toySign (EthSigner.mk "0xabc" "0XABC") "hello")
  = Ok true.
Proof.
  apply (verify_own_signature toyAddress toySign toyRecover (Some "0xabc")).
  - intros key addr message Hk. unfold toyAddress in Hk.
    destruct (Js.startsWith key "0x"); [|done]. injection Hk as <-.
    exists (Js.toLowerCase key). split; [reflexivity|].
    by rewrite toLowerCase_idempotent, toLowerCase_toUpperCase.
  - reflexivity.
Defined.

(** ** HttpClient: the rate limiter *)

Lemma filter_length_le {A} (p : A → bool) (l : list A) :
  (length (List.filter p l) ≤ length l)%nat.
Proof.
  induction l as [|x l IH]; [done|]. cbn. destruct (p x); cbn; lia.
Qed.

(** If fewer elements pass [p] than pass [q], one passes [q] only. *)
Lemma filter_shrinks_witness {A} (p q : A → bool) (l : list A) :
  (length (List.filter p l) < length (List.filter q l))%nat →
  ∃ x, x ∈ l ∧ q x = true ∧ p x = false.
Proof.
  induction l as [|x l IH]; cbn; [lia|].
  destruct (q x) eqn:Hq, (p x) eqn:Hp; cbn; intros Hlt.
  - destruct IH as (y & Hy & ?); [lia|]. exists y. split; [by right|done].
  - exists x. split; [by left|done].
  - pose proof (filter_length_le q l).
    destruct (decide (length (List.filter p l) < length (List.filter q l))%nat)
      as [Hd|Hd].
    + destruct (IH Hd) as (y & Hy & ?). exists y. split; [by right|done].
    + lia.
  - destruct IH as (y & Hy & ?); [lia|]. exists y. split; [by right|done].
Qed.

(** Timestamps that left the window stay out of it as the clock advances. *)
Lemma window_filter_advance (now1 now2 : Z) (ts : list Z) :
  now1 ≤ now2 →
  List.filter (HttpClient.inWindow now2) (List.filter (HttpClient.inWindow now1) ts)
  = List.filter (HttpClient.inWindow now2) ts.
Proof.
  intros Hle. induction ts as [|t ts IH]; [done|]. cbn [List.filter].
  destruct (HttpClient.inWindow now1 t) eqn:H1.
  - cbn [List.filter]. by rewrite IH.
  - replace (HttpClient.inWindow now2 t) with false; [exact IH|].
    unfold HttpClient.inWindow in *. symmetry.
    apply Z.ltb_ge. apply Z.ltb_ge in H1. lia.
Qed.

(** Once the clock has passed the expiry of the first kept timestamp, the
    window holds fewer of the kept timestamps. *)
Lemma window_head_expires (now1 now2 t : Z) (ts : list Z) :
  t + 60000 ≤ now2 →
  (length (List.filter (HttpClient.inWindow now2) (t :: ts)) ≤ length ts)%nat.
Proof.
  intros Hexp. cbn [List.filter].
  replace (HttpClient.inWindow now2 t) with false.
  - apply filter_length_le.
  - unfold HttpClient.inWindow. symmetry. apply Z.ltb_ge. lia.
Qed.

Section RateLimitFacts.

Variable E : HttpClient.Env.

(** What every return of [checkRateLimit] on a limited client looks like:
    the window was evaluated at the clock value of the return, it had
    room, and the call added its own timestamp to it. *)
Lemma checkRateLimit_returns_from_a_check (fuel : nat) :
  clockMonotone E →
  ∀ c w c' w',
    HttpClient.Options.rateLimit (HttpClient.options c) ≠ 0 →
    HttpClient.checkRateLimit E fuel c w = Some (c', w') →
    HttpClient.now w ≤ HttpClient.now w'
    ∧ (HttpClient.sleeps w ≤ HttpClient.sleeps w')%nat
    ∧ HttpClient.requestTimestamps c'
      = List.filter (HttpClient.inWindow (HttpClient.now w'))
          (HttpClient.requestTimestamps c) ++ [HttpClient.now w']
    ∧ Z.of_nat
        (length (List.filter (HttpClient.inWindow (HttpClient.now w'))
                   (HttpClient.requestTimestamps c)))
      < HttpClient.Options.rateLimit (HttpClient.options c)
    ∧ (HttpClient.Options.rateLimit (HttpClient.options c)
       ≤ Z.of_nat
           (length (List.filter (HttpClient.inWindow (HttpClient.now w))
                      (HttpClient.requestTimestamps c))) →
       (HttpClient.sleeps w < HttpClient.sleeps w')%nat).
Proof.
  intros Hmono. induction fuel as [|fuel IH]; intros c w c' w' HR; [done|].
  cbn [HttpClient.checkRateLimit].
  apply Z.eqb_neq in HR as HR'. rewrite HR'.
  cbn [HttpClient.setTimestamps HttpClient.options].
  destruct (_ <=? _) eqn:Hfull.
  - intros Hrec. apply IH in Hrec; [|exact HR].
    cbn [HttpClient.delay HttpClient.now HttpClient.sleeps
         HttpClient.setTimestamps HttpClient.requestTimestamps
         HttpClient.options] in Hrec.
    destruct Hrec as (Hnow & Hsl & Hts & Hroom & _).
    pose proof (Hmono (HttpClient.sleeps w)
      match head (List.filter (HttpClient.inWindow (HttpClient.now w))
                    (HttpClient.requestTimestamps c)) with
      | Some oldestRequest =>
          Some (1 `max` (oldestRequest + 60000 - HttpClient.now w))
      | None => None
      end) as Hstep.
    rewrite window_filter_advance in Hts, Hroom by lia.
    split; [lia|]. split; [lia|]. split; [exact Hts|]. split; [exact Hroom|lia].
  - intros [= <- <-]. cbn. apply Z.leb_gt in Hfull.
    split; [lia|]. split; [lia|]. split; [done|]. split; lia.
Qed.

(** With honest timers every wait lets the first kept timestamp expire, so
    the recursion is at most as deep as the number of timestamps in the
    window, plus one. *)
Lemma checkRateLimit_terminates :
  timersHonest E →
  ∀ (fuel : nat) c w,
    0 < HttpClient.Options.rateLimit (HttpClient.options c) →
    (length (List.filter (HttpClient.inWindow (HttpClient.now w))
               (HttpClient.requestTimestamps c)) < fuel)%nat →
    is_Some (HttpClient.checkRateLimit E fuel c w).
Proof.
  intros Hhonest. induction fuel as [|fuel IH]; intros c w HR Hfuel; [lia|].
  cbn [HttpClient.checkRateLimit].
  replace (_ =? 0) with false by lia.
  cbn [HttpClient.setTimestamps HttpClient.options].
  destruct (_ <=? _) eqn:Hfull; [|eauto].
  apply Z.leb_le in Hfull.
  apply IH; [exact HR|].
  cbn [HttpClient.setTimestamps HttpClient.requestTimestamps HttpClient.delay
       HttpClient.now].
  destruct (List.filter (HttpClient.inWindow (HttpClient.now w))
              (HttpClient.requestTimestamps c)) as [|t kept] eqn:Hkept.
  { cbn in Hfull. lia. }
  cbn [head].
  pose proof (Hhonest (HttpClient.sleeps w)
                (1 `max` (t + 60000 - HttpClient.now w))) as Hwait.
  pose proof (window_head_expires (HttpClient.now w)
    (HttpClient.now w
     + HttpClient.timer E (HttpClient.sleeps w)
         (Some (1 `max` (t + 60000 - HttpClient.now w)))) t kept) as Hexp.
  cbn [length] in Hfuel. lia.
Qed.

(** C5, amended.  On a client limited to R ≥ 1 requests whose window
    already holds R timestamps, with timers that are honest and a clock
    that does not run backwards: the rate-limit check returns; it sleeps at
    least once before it does; when it returns, one of the timestamps that
    were in the window at the call is at least 60 seconds old (an age of
    exactly 60000 ms counts as expired); and the return comes from a fresh
    evaluation of the window at the time of the return, which drops every
    timestamp aged 60000 ms or more, finds fewer than R left and adds the
    new timestamp. *)
Theorem checkRateLimit_blocks_until_aged_out (c : HttpClient.t)
    (w : HttpClient.World) :
  let R := HttpClient.Options.rateLimit (HttpClient.options c) in
  let ts := HttpClient.requestTimestamps c in
  0 < R →
  clockMonotone E →
  timersHonest E →
  R ≤ Z.of_nat (length (List.filter (HttpClient.inWindow (HttpClient.now w)) ts)) →
  is_Some (HttpClient.checkRateLimit E (S (length ts)) c w)
  ∧ ∀ fuel c' w',
      HttpClient.checkRateLimit E fuel c w = Some (c', w') →
      (HttpClient.sleeps w < HttpClient.sleeps w')%nat
      ∧ (∃ t, t ∈ ts ∧ HttpClient.now w - t < 60000
              ∧ 60000 ≤ HttpClient.now w' - t)
      ∧ HttpClient.requestTimestamps c'
        = List.filter (HttpClient.inWindow (HttpClient.now w')) ts
          ++ [HttpClient.now w']
      ∧ Z.of_nat
          (length (List.filter (HttpClient.inWindow (HttpClient.now w')) ts))
        < R.
Proof.
  intros R ts HR Hmono Hhonest Hfull. split.
  - apply checkRateLimit_terminates; [done|done|].
    pose proof (filter_length_le (HttpClient.inWindow (HttpClient.now w)) ts).
    fold ts. lia.
  - intros fuel c' w' Hret.
    apply checkRateLimit_returns_from_a_check in Hret; [|done|fold R; lia].
    destruct Hret as (_ & _ & Hts & Hroom & Hslept).
    fold ts R in Hts, Hroom, Hslept.
    split; [by apply Hslept|]. split; [|by split].
    destruct (filter_shrinks_witness
                (HttpClient.inWindow (HttpClient.now w'))
                (HttpClient.inWindow (HttpClient.now w)) ts)
      as (t & Ht & Hin & Hout); [lia|].
    exists t. unfold HttpClient.inWindow in Hin, Hout.
    apply Z.ltb_lt in Hin. apply Z.ltb_ge in Hout. by repeat split.
Qed.

End RateLimitFacts.

(** C5, as stated, fails at the boundary: with a limit of one request and
    one request made at time 0, a check at time 1000 sleeps 59000 ms and
    returns at time 60000, when the earlier timestamp is exactly, not more
    than, 60 seconds old. *)
Lemma checkRateLimit_returns_at_exactly_60s :
  ¬ returnsAfterMoreThan60s exactTimers (clientWith 3 1 [0]) (worldAt 1000).
Proof.
  intros H. destruct (H 2%nat _ _ eq_refl) as (t & Ht & Hlt).
  cbn in Ht. apply list_elem_of_singleton in Ht. subst t.
  vm_compute in Hlt. discriminate Hlt.
Qed.

Lemma checkRateLimit_blocks_until_aged_out_witness :
  is_Some (HttpClient.checkRateLimit exactTimers 2 (clientWith 3 1 [0])
             (worldAt 1000)).
Proof.
  refine (proj1 (checkRateLimit_blocks_until_aged_out exactTimers
                   (clientWith 3 1 [0]) (worldAt 1000) _ _ _ _)).
  - cbn. lia.
  - intros k ms. etrans; [|apply Z.le_max_l]. lia.
  - intros k ms. apply Z.le_max_r.
  - vm_compute. discriminate.
Defined.

(** ** HttpClient: retries *)

Section RequestFacts.

Variable P : HttpClient.Platform.
Variable E : HttpClient.Env.
Variable ja3Fingerprints : list string.

(** Error handling never adds a retry budget to the options of a call. *)
Lemma handleRequestError_maxRetries (c : HttpClient.t) (error : Error)
    (options : HttpClient.RequestOptions.t) :
  HttpClient.RequestOptions.maxRetries
    (HttpClient.handleRequestError P c error options).2
  = HttpClient.RequestOptions.maxRetries options.
Proof.
  unfold HttpClient.handleRequestError.
  by destruct (HttpClient.isHeadersFormatError error).
Qed.

Lemma prepareRequestOptions_maxRetries (c : HttpClient.t)
    (options : HttpClient.RequestOptions.t) :
  HttpClient.RequestOptions.maxRetries
    (HttpClient.prepareRequestOptions P c options)
  = HttpClient.RequestOptions.maxRetries options.
Proof. reflexivity. Qed.

(** The retry budget of [request] is the [maxRetries] property of the
    options of the call; [this.options.maxRetries] is not consulted.  A
    call that passes no options therefore sends once: whatever the client
    was configured with, a failing transport makes it throw after the
    first attempt, without a wait and without a new fingerprint. *)
Lemma request_without_call_options_sends_once (fuel : nat)
    (method url : string) (data : option (list (string * string)))
    (headers : list (string * string)) (c c1 : HttpClient.t)
    (w w1 : HttpClient.World) (error : Error) :
  (∀ k u config m, HttpClient.cycleTLS E k u config m = Throw error) →
  HttpClient.checkRateLimit E (S fuel) c w = Some (c1, w1) →
  ∃ c' w' sent,
    HttpClient.request P E ja3Fingerprints (S fuel) method url data headers
      HttpClient.RequestOptions.empty c w
    = Some (Throw error, c', w')
    ∧ HttpClient.events w' = HttpClient.events w1 ++ [sent]
    ∧ HttpClient.sends w' = S (HttpClient.sends w1)
    ∧ HttpClient.sleeps w' = HttpClient.sleeps w1
    ∧ HttpClient.draws w' = HttpClient.draws w1.
Proof.
  intros Hfail Hcheck. unfold HttpClient.request. rewrite Hcheck.
  cbn [HttpClient.requestLoop].
  destruct (HttpClient.buildRequest _ _ _ _ _ _ _ _ _) as [url' config].
  unfold HttpClient.send. rewrite Hfail.
  pose proof (handleRequestError_maxRetries c1 error
    (HttpClient.prepareRequestOptions P c HttpClient.RequestOptions.empty))
    as Hmax.
  destruct (HttpClient.handleRequestError _ _ _ _) as [c2 fixedOptions].
  cbn [snd] in Hmax. rewrite Hmax. cbn [HttpClient.mayRetry
    HttpClient.prepareRequestOptions HttpClient.RequestOptions.maxRetries
    HttpClient.RequestOptions.empty].
  eexists _, _, _. split; [reflexivity|]. by cbn.
Qed.

End RequestFacts.

(** C1 on the code: a client built with [maxRetries: 3], as the worker
    builds it, asked for a URL through a transport that refuses every
    connection.  The request is sent once and the error is thrown at once:
    no wait, no new fingerprint, no second attempt. *)
Theorem request_with_client_maxRetries_3_sends_once :
  let built :=
    HttpClient.constructor exactTimers [] None (Some 3) (Some 2000) (Some 20)
      (Some 30000) (worldAt 0) in
  let r :=
    HttpClient.request plainPlatform exactTimers [] 8 "GET"
      "https://api.example.com/agents" None [] HttpClient.RequestOptions.empty
      built.1 built.2 in
  HttpClient.Options.maxRetries (HttpClient.options built.1) = 3
  ∧ outcomeOf r = Some (Throw (mkError "connect ECONNREFUSED" false))
  ∧ HttpClient.sends (worldOf r) = 1%nat
  ∧ sleptFor (HttpClient.events (worldOf r)) = []
  ∧ HttpClient.draws (worldOf r) = HttpClient.draws built.2.
Proof. vm_compute. repeat split. Qed.

(** With the budget passed in the options of the call the loop does what
    the design describes: [maxRetries: 3] there gives four attempts, with
    waits of 2000, 4000 and 8000 ms and a fingerprint drawn before each
    retry. *)
Lemma request_with_call_maxRetries_3_sends_four_times :
  let r :=
    HttpClient.request plainPlatform exactTimers [] 8 "GET"
      "https://api.example.com/agents" None []
      (HttpClient.RequestOptions.mk None None None None None (Some 3) (Some 2000))
      (clientWith 3 20 []) (worldAt 0) in
  outcomeOf r = Some (Throw (mkError "connect ECONNREFUSED" false))
  ∧ HttpClient.sends (worldOf r) = 4%nat
  ∧ sleptFor (HttpClient.events (worldOf r))
    = [Some 2000; Some 4000; Some 8000]
  ∧ HttpClient.draws (worldOf r) = 3%nat.
Proof. vm_compute. repeat split. Qed.

(** ** HttpClient: the header encoding memory *)

Lemma unmarshalError_is_format_error :
  HttpClient.isHeadersFormatError unmarshalError = true.
Proof. reflexivity. Qed.

(** The loop sends every attempt of one request in the encoding chosen
    before the loop: the options returned by [handleRequestError] are used
    for the retry budget and the wait only. *)
Lemma requestLoop_keeps_format (P : HttpClient.Platform) (E : HttpClient.Env)
    (ja3Fingerprints : list string) (fuel : nat) (method : string)
    (data : option (list (string * string))) (headers : list (string * string))
    (options requestOptions : HttpClient.RequestOptions.t)
    (headersFormat : Js.Value) :
  ∀ retryCount url c w r c' w',
    HttpClient.requestLoop P E ja3Fingerprints fuel method data headers options
      requestOptions headersFormat retryCount url c w = Some (r, c', w') →
    ∃ sent,
      sentFormats (HttpClient.events w')
      = sentFormats (HttpClient.events w) ++ sent
      ∧ Forall (λ f, f = if Js.strictEquals headersFormat "object"
                         then "object" else "string") sent.
Proof.
  induction fuel as [|fuel IH]; intros retryCount url c w r c' w'; [done|].
  cbn [HttpClient.requestLoop].
  destruct (HttpClient.buildRequest _ _ _ _ _ _ _ _ _) as [url' config] eqn:Hb.
  assert (Hfmt : sentFormats [HttpClient.Sent url' config (Js.toUpperCase method)]
                 = [if Js.strictEquals headersFormat "object"
                    then "object" else "string"]).
  { unfold HttpClient.buildRequest in Hb.
    destruct data as [fields|].
    - destruct (String.eqb (Js.toUpperCase method) "GET").
      + injection Hb as <- <-. cbn. by destruct (Js.strictEquals headersFormat _).
      + destruct (_ && _).
        * injection Hb as <- <-. cbn. by destruct (Js.strictEquals headersFormat _).
        * injection Hb as <- <-. cbn.
          destruct (Js.truthyField _); by destruct (Js.strictEquals headersFormat _).
    - injection Hb as <- <-. cbn. by destruct (Js.strictEquals headersFormat _). }
  unfold HttpClient.send.
  destruct (HttpClient.cycleTLS E _ _ _ _) as [response|error].
  - intros [= <- <- <-]. cbn [HttpClient.events].
    eexists. unfold sentFormats at 1. rewrite omap_app. split; [reflexivity|].
    fold (sentFormats [HttpClient.Sent url' config (Js.toUpperCase method)]).
    rewrite Hfmt. by constructor.
  - destruct (HttpClient.handleRequestError _ _ _ _) as [c2 fixedOptions].
    destruct (HttpClient.mayRetry _ _).
    + intros Hrec. apply IH in Hrec as (sent & Hsent & Hall).
      exists (sentFormats [HttpClient.Sent url' config (Js.toUpperCase method)]
              ++ sent).
      split; [|rewrite Hfmt; by constructor].
      rewrite Hsent. clear.
      destruct (HttpClient.cycleTLSClient _);
        cbn [HttpClient.getRandomJa3Fingerprint HttpClient.log
             HttpClient.setClient HttpClient.delay HttpClient.events fst snd];
        unfold sentFormats; rewrite !omap_app; cbn [omap list_omap];
        rewrite ?app_nil_r, <- ?app_assoc; reflexivity.
    + intros [= <- <- <-]. cbn [HttpClient.events].
      eexists. unfold sentFormats at 1. rewrite omap_app. split; [reflexivity|].
      fold (sentFormats [HttpClient.Sent url' config (Js.toUpperCase method)]).
      rewrite Hfmt. by constructor.
Qed.

(** C2 on the code.  The endpoint rejects structured headers and accepts
    flattened ones.  Called the way the handlers call it (no [url] and no
    [maxRetries] in the options), the first request is sent once, in the
    structured encoding, and throws; the flipped mode is stored under the
    key [default], not under the endpoint, so a second request is sent
    structured again and throws as well.  When the options of the call do
    carry [url], [maxRetries: 3] and [retryDelay: 1000], the first request
    is sent four times, each time structured, with the three backoff waits
    in between, and throws; only the memory entry written on the way lets
    the second request succeed. *)
Theorem encoding_flip_is_stored_but_not_retried :
  let fresh := clientWith 3 20 [] in
  let first :=
    HttpClient.request plainPlatform stringHeadersOnly [] 8 "GET" balancesUrl
      None [] HttpClient.RequestOptions.empty fresh (worldAt 0) in
  let second :=
    HttpClient.request plainPlatform stringHeadersOnly [] 8 "GET" balancesUrl
      None [] HttpClient.RequestOptions.empty (clientOf first) (worldOf first) in
  let withUrl :=
    HttpClient.RequestOptions.mk (Some balancesUrl) None None None None
      (Some 3) (Some 1000) in
  let first' :=
    HttpClient.request plainPlatform stringHeadersOnly [] 8 "GET" balancesUrl
      None [] withUrl fresh (worldAt 0) in
  let second' :=
    HttpClient.request plainPlatform stringHeadersOnly [] 8 "GET" balancesUrl
      None [] withUrl (clientOf first') (worldAt 100000) in
  (outcomeOf first = Some (Throw unmarshalError)
   ∧ sentFormats (HttpClient.events (worldOf first)) = ["object"]
   ∧ HttpClient.endpointHeadersFormat (clientOf first) !! "default"
     = Some "string"
   ∧ HttpClient.endpointHeadersFormat (clientOf first) !! "balances" = None
   ∧ outcomeOf second = Some (Throw unmarshalError)
   ∧ sentFormats (HttpClient.events (worldOf second)) = ["object"; "object"])
  ∧ (outcomeOf first' = Some (Throw unmarshalError)
     ∧ sentFormats (HttpClient.events (worldOf first'))
       = ["object"; "object"; "object"; "object"]
     ∧ sleptFor (HttpClient.events (worldOf first'))
       = [Some 1000; Some 2000; Some 4000]
     ∧ HttpClient.endpointHeadersFormat (clientOf first') !! "balances"
       = Some "string"
     ∧ sentFormats (HttpClient.events (worldOf second')) = ["string"]
     ∧ ∃ reply, outcomeOf second' = Some (Ok reply)).
Proof.
  vm_compute. repeat split. eexists. reflexivity.
Qed.

(** ** Worker: what a run records *)

Lemma attempted_app (l k : list Worker.Event) :
  attempted (l ++ k) = attempted l ++ attempted k.
Proof. apply omap_app. Qed.

Lemma recorded_app (l k : list Worker.Event) :
  recorded (l ++ k) = recorded l ++ recorded k.
Proof. apply omap_app. Qed.

Lemma quiet_app (l k : list Worker.Event) : quiet l → quiet k → quiet (l ++ k).
Proof.
  intros [Hl1 Hl2] [Hk1 Hk2]. split.
  - by rewrite attempted_app, Hl1, Hk1.
  - by rewrite recorded_app, Hl2, Hk2.
Qed.

Section WorkerFacts.

Variable config : Worker.Config.
Variable E : Worker.Env.

Lemma after_trans w1 w2 w3 l k : after w1 l w2 → after w2 k w3 → after w1 (l ++ k) w3.
Proof. unfold after. intros H1 H2. by rewrite H2, H1, app_assoc. Qed.

Lemma withErrorHandling_quiet (task taskName : string) (w : Worker.t) :
  ∃ events,
    after w events (Worker.withErrorHandling config E task taskName w).2
    ∧ quiet events.
Proof.
  unfold Worker.withErrorHandling, after.
  destruct (Worker.taskFn E _ task) as [result|error]; cbn.
  - eexists. split; [reflexivity|done].
  - destruct (_ <=? _); cbn.
    + eexists. split; [by rewrite <- !app_assoc|done].
    + eexists. split; [reflexivity|done].
Qed.

Lemma handleFractionAITask_silent (method : string) (w : Worker.t) :
  Worker.trace (Worker.handleFractionAITask E method w).2 = Worker.trace w
  ∧ Worker.consecutiveErrors (Worker.handleFractionAITask E method w).2
    = Worker.consecutiveErrors w.
Proof.
  unfold Worker.handleFractionAITask.
  destruct (bool_decide _); [|done].
  destruct (Worker.handler E _ method) as [result|error]; [done|].
  by destruct (isCaptchaFatalError error).
Qed.

Lemma dispatch_quiet (taskType : string) (w : Worker.t) :
  ∃ events,
    after w events (Worker.dispatch config E taskType w).2 ∧ quiet events.
Proof.
  unfold Worker.dispatch.
  destruct (String.eqb taskType "sign").
  { destruct (withErrorHandling_quiet "sign" "签名授权" w) as (ev & H1 & H2).
    unfold Worker.sign. destruct (Worker.withErrorHandling _ _ _ _ _); eauto. }
  destruct (String.eqb taskType "createEvent").
  { destruct (withErrorHandling_quiet "createEvent" "创建事件" w) as (ev & H1 & H2).
    unfold Worker.createEvent.
    destruct (Worker.withErrorHandling _ _ _ _ _); eauto. }
  destruct (Js.getProp _ taskType) as [method|].
  - pose proof (handleFractionAITask_silent method w) as [Ht _].
    destruct (Worker.handleFractionAITask _ _ _). cbn in *.
    exists []. split; [|done]. unfold after. by rewrite app_nil_r.
  - exists []. split; [|done]. unfold after. by rewrite app_nil_r.
Qed.

(** One call of [executeTask] begins its task once with retry count 0 when
    it is the first attempt, and records nothing. *)
Lemma executeTask_events (fuel : nat) :
  ∀ taskType retryCount retryDelay w result w',
    0 ≤ retryCount →
    Worker.executeTask config E fuel taskType retryCount retryDelay w
    = Some (result, w') →
    ∃ events,
      after w events w'
      ∧ attempted events = (if retryCount =? 0 then [taskType] else [])
      ∧ recorded events = [].
Proof.
  induction fuel as [|fuel IH];
    intros taskType retryCount retryDelay w result w' Hrc; [done|].
  cbn [Worker.executeTask].
  set (w0 := if (0 <? retryCount) && (0 <? retryDelay)
             then Worker.delay retryDelay w else w).
  assert (H0 : ∃ ev0, after w ev0 w0 ∧ quiet ev0).
  { subst w0. destruct (_ && _).
    - eexists. split; [reflexivity|done].
    - exists []. split; [|done]. unfold after. by rewrite app_nil_r. }
  destruct H0 as (ev0 & Hev0 & Hq0 & Hq0').
  set (w1 := Worker.emit (Worker.Began taskType retryCount) w0).
  assert (H1 : after w0 [Worker.Began taskType retryCount] w1) by done.
  destruct (dispatch_quiet taskType w1) as (evd & Hevd & Hqd & Hqd').
  assert (Hb : attempted [Worker.Began taskType retryCount]
               = if retryCount =? 0 then [taskType] else []).
  { destruct retryCount; done. }
  destruct (Worker.dispatch config E taskType w1) as [[r|error] w2] eqn:Hd;
    cbn [snd] in Hevd.
  - intros [= <- <-].
    exists (ev0 ++ [Worker.Began taskType retryCount] ++ evd). split.
    + eapply after_trans; [done|]. eapply after_trans; done.
    + rewrite !attempted_app, !recorded_app, Hq0, Hq0', Hqd, Hqd', Hb.
      by rewrite app_nil_r.
  - destruct (isCaptchaFatalError error).
    { intros [= <- <-].
      exists (ev0 ++ [Worker.Began taskType retryCount] ++ evd). split.
      + eapply after_trans; [done|]. eapply after_trans; [done|]. exact Hevd.
      + rewrite !attempted_app, !recorded_app, Hq0, Hq0', Hqd, Hqd', Hb.
        by rewrite app_nil_r. }
    set (w3 := Worker.setConsecutiveErrors _ w2).
    set (w4 := if Worker.maxConsecutiveErrors config
                  <=? Worker.consecutiveErrors w3
               then Worker.setConsecutiveErrors 0
                      (Worker.delay (Worker.cooldownPeriod config) w3)
               else w3).
    assert (H4 : ∃ ev4, after w2 ev4 w4 ∧ quiet ev4).
    { subst w4 w3. destruct (_ <=? _).
      - eexists. split; [unfold after; cbn; by rewrite <- !app_assoc|done].
      - eexists. split; [reflexivity|done]. }
    destruct H4 as (ev4 & Hev4 & Hq4 & Hq4').
    destruct (retryCount <? _).
    + intros Hrec. apply IH in Hrec as (evr & Hevr & Hqr & Hqr'); [|lia].
      replace (retryCount + 1 =? 0) with false in Hqr by lia.
      exists (ev0 ++ [Worker.Began taskType retryCount] ++ evd ++ ev4 ++ evr).
      split.
      * eapply after_trans; [done|]. eapply after_trans; [done|].
        eapply after_trans; [done|]. eapply after_trans; done.
      * rewrite !attempted_app, !recorded_app, Hq0, Hq0', Hqd, Hqd', Hq4, Hq4',
          Hqr, Hqr', Hb. by rewrite app_nil_r.
    + intros [= <- <-].
      exists (ev0 ++ [Worker.Began taskType retryCount] ++ evd ++ ev4).
      split.
      * eapply after_trans; [done|]. eapply after_trans; [done|].
        eapply after_trans; done.
      * rewrite !attempted_app, !recorded_app, Hq0, Hq0', Hqd, Hqd', Hq4, Hq4',
          Hb. by rewrite app_nil_r.
Qed.

(** [executeTask] returns once the fuel covers the retry budget. *)
Lemma executeTask_total (fuel : nat) :
  ∀ taskType retryCount retryDelay w,
    (Z.to_nat (Js.orNumber (Worker.maxRetries config) 3 - retryCount) < fuel)%nat →
    is_Some (Worker.executeTask config E fuel taskType retryCount retryDelay w).
Proof.
  induction fuel as [|fuel IH]; intros taskType retryCount retryDelay w Hfuel;
    [lia|].
  cbn [Worker.executeTask].
  destruct (Worker.dispatch _ _ _ _) as [[r|error] w2]; [eauto|].
  destruct (isCaptchaFatalError error); [eauto|].
  destruct (retryCount <? _) eqn:Hlt; [|eauto].
  apply Z.ltb_lt in Hlt. apply IH. lia.
Qed.

End WorkerFacts.


Lemma entryNames_app (l k : list string) :
  entryNames (l ++ k) = entryNames l ++ entryNames k.
Proof. unfold entryNames. induction l as [|x l IH]; [done|]. cbn.
  destruct (negb _); cbn; by rewrite IH. Qed.




Lemma dom_assign {A} (o : gmap string A) (k : string) (v : A) :
  dom (Js.assign o k v) = dom o ∪ list_to_set (entryNames [k]).
Proof.
  unfold Js.assign, entryNames. cbn [List.filter].
  destruct (String.eqb k "__proto__"); cbn [negb].
  - set_solver.
  - rewrite dom_insert_L. set_solver.
Qed.

Section RunFacts.

Variable config : Worker.Config.
Variable E : Worker.Env.

Lemma pace_quiet (tasksToExecute : list string) (taskType : string)
    (w : Worker.t) :
  ∃ events,
    after w events (Worker.pace config E tasksToExecute taskType w)
    ∧ quiet events.
Proof.
  unfold Worker.pace, after.
  destruct (Worker.delayBetweenTasks config) as [| |ms].
  - exists []. by rewrite app_nil_r.
  - destruct (_ <? _); [eexists; split; [reflexivity|done]|].
    exists []. by rewrite app_nil_r.
  - destruct (_ && _); [eexists; split; [reflexivity|done]|].
    exists []. by rewrite app_nil_r.
Qed.

(** The loop works through a prefix of the tasks it is given: each task of
    the prefix is begun once and recorded once, in order, and the result
    map gains exactly the names of the prefix under which an object takes
    an entry.  When the loop was not left early, the prefix is the whole
    list. *)
Lemma runTasks_prefix (fuel : nat) (tasksToExecute : list string) :
  ∀ rest taskResults w taskResults' allTasksSuccessful w',
    Worker.runTasks config E fuel tasksToExecute rest taskResults w
    = Some (taskResults', allTasksSuccessful, w') →
    ∃ done events,
      done `prefix_of` rest
      ∧ after w events w'
      ∧ attempted events = done
      ∧ recorded events = done
      ∧ dom taskResults' = dom taskResults ∪ list_to_set (entryNames done)
      ∧ (allTasksSuccessful = true → done = rest).
Proof.
  induction rest as [|taskType rest IH];
    intros taskResults w taskResults' ok w'; cbn [Worker.runTasks].
  { intros [= <- <- <-]. exists [], []. repeat split; try done.
    - unfold after. by rewrite app_nil_r.
    - set_solver. }
  destruct (Worker.executeTask _ _ _ _ _ _ _) as [[result w1]|] eqn:Hexec;
    [|done].
  apply executeTask_events in Hexec as (ev1 & Hev1 & Hatt1 & Hrec1); [|done].
  cbn in Hatt1.
  set (w2 := Worker.emit (Worker.Recorded taskType result) w1).
  assert (Hstop : ∃ events,
    [taskType] `prefix_of` taskType :: rest
    ∧ after w events w2
    ∧ attempted events = [taskType]
    ∧ recorded events = [taskType]
    ∧ dom (Js.assign taskResults taskType result)
      = dom taskResults ∪ list_to_set (entryNames [taskType])).
  { exists (ev1 ++ [Worker.Recorded taskType result]). repeat split.
    - by apply prefix_cons, prefix_nil.
    - eapply after_trans; [exact Hev1|done].
    - by rewrite attempted_app, Hatt1.
    - by rewrite recorded_app, Hrec1.
    - apply dom_assign. }
  destruct Hstop as (evs & Hp & Hafter & Hatt & Hrec & Hdom).
  destruct (Worker.fatalError result).
  { intros [= <- <- <-]. exists [taskType], evs. by repeat split. }
  destruct (_ && _).
  { intros [= <- <- <-]. exists [taskType], evs. by repeat split. }
  destruct (pace_quiet tasksToExecute taskType w2) as (evp & Hevp & Hqp & Hqp').
  intros Hloop.
  apply IH in Hloop as (done & evl & Hpl & Hafterl & Hattl & Hrecl & Hdoml & Hall).
  exists (taskType :: done), (evs ++ evp ++ evl). repeat split.
  - by apply prefix_cons.
  - eapply after_trans; [exact Hafter|]. eapply after_trans; done.
  - by rewrite !attempted_app, Hatt, Hqp, Hattl.
  - by rewrite !recorded_app, Hrec, Hqp', Hrecl.
  - rewrite Hdoml, dom_assign.
    change (taskType :: done) with ([taskType] ++ done).
    rewrite entryNames_app, list_to_set_app_L. set_solver.
  - intros Hok. by rewrite Hall.
Qed.

Lemma runTasks_total (fuel : nat) (tasksToExecute : list string) :
  (Z.to_nat (Js.orNumber (Worker.maxRetries config) 3) < fuel)%nat →
  ∀ rest taskResults w,
    is_Some (Worker.runTasks config E fuel tasksToExecute rest taskResults w).
Proof.
  intros Hfuel. induction rest as [|taskType rest IH]; intros taskResults w;
    cbn [Worker.runTasks]; [eauto|].
  destruct (executeTask_total config E fuel taskType 0 0 w) as [[r w1] ->].
  { by rewrite Z.sub_0_r. }
  destruct (Worker.fatalError r); [eauto|].
  destruct (_ && _); [eauto|]. apply IH.
Qed.


End RunFacts.



(** A task named [__proto__] is attempted like any task [executeTask]
    has no case for, and its result is assigned under that name, which
    adds no entry to the result map: two tasks attempted, one entry. *)
Example task_named_proto_leaves_no_entry :
  ∃ summary w',
    Worker.executeAllTasks (configWith 5 false ["__proto__"; "sign"])
      allSucceed 5 (Worker.constructor 1000) = Some (summary, w')
    ∧ attempted (Worker.trace w') = ["__proto__"; "sign"]
    ∧ size (Worker.tasks summary) = 1%nat
    ∧ Worker.tasks summary !! "__proto__" = None
    ∧ Worker.tasks summary !! "sign" = Some (Worker.completed "done").
Proof.
  destruct (Worker.executeAllTasks _ _ _ _) as [[summary w']|] eqn:Hrun;
    vm_compute in Hrun; [|discriminate Hrun].
  exists summary, w'. split; [done|].
  injection Hrun as <- <-. by vm_compute.
Qed.

(** ** Worker: fatal errors *)

Section FatalFacts.

Variable config : Worker.Config.
Variable E : Worker.Env.

(** Running the loop over [l1 ++ l2] is running it over [l1] and, unless
    that left the loop early, over [l2] next. *)
Lemma runTasks_app (fuel : nat) (tasksToExecute : list string) :
  ∀ l1 l2 taskResults w,
    Worker.runTasks config E fuel tasksToExecute (l1 ++ l2) taskResults w
    = match Worker.runTasks config E fuel tasksToExecute l1 taskResults w with
      | Some (taskResults', true, w') =>
          Worker.runTasks config E fuel tasksToExecute l2 taskResults' w'
      | other => other
      end.
Proof.
  induction l1 as [|taskType l1 IH]; intros l2 taskResults w; [done|].
  cbn [app Worker.runTasks].
  destruct (Worker.executeTask _ _ _ _ _ _ _) as [[result w1]|]; [|done].
  destruct (Worker.fatalError result); [done|].
  destruct (_ && _); [done|]. apply IH.
Qed.

Lemma fractionAITask_not_builtin (taskType method : string) :
  Js.getProp Worker.fractionAITasks taskType = Some method →
  String.eqb taskType "sign" = false
  ∧ String.eqb taskType "createEvent" = false.
Proof.
  intros H. split.
  - destruct (String.eqb_spec taskType "sign") as [->|]; [|done].
    vm_compute in H. discriminate H.
  - destruct (String.eqb_spec taskType "createEvent") as [->|]; [|done].
    vm_compute in H. discriminate H.
Qed.

Lemma fractionAITask_not_proto (taskType method : string) :
  Js.getProp Worker.fractionAITasks taskType = Some method →
  String.eqb taskType "__proto__" = false.
Proof.
  intros H. destruct (String.eqb_spec taskType "__proto__") as [->|]; [|done].
  vm_compute in H. discriminate H.
Qed.

(** A handler method that throws an error carrying the fatal marker makes
    [executeTask] return the fatal result after a single attempt. *)
Lemma executeTask_fatal (fuel : nat) (taskType method : string)
    (w : Worker.t) (error : Error) :
  Js.getProp Worker.fractionAITasks taskType = Some method →
  method ∈ Worker.handlerMethods →
  Worker.handler E (Worker.calls w) method = Throw error →
  isCaptchaFatalError error = true →
  Worker.executeTask config E (S fuel) taskType 0 0 w
  = Some (Worker.fatal (message error),
          Worker.markFailed
            (Worker.called (Worker.emit (Worker.Began taskType 0) w))).
Proof.
  intros Hmethod Hknown Hthrow Hfatal.
  destruct (fractionAITask_not_builtin _ _ Hmethod) as [Hs Hc].
  cbn [Worker.executeTask]. cbn [Z.ltb Z.compare andb].
  unfold Worker.dispatch. rewrite Hs, Hc, Hmethod.
  unfold Worker.handleFractionAITask.
  rewrite bool_decide_eq_true_2 by done.
  cbn [Worker.emit Worker.calls]. by rewrite Hthrow, Hfatal.
Qed.

(** C6. Let task k of the sequence go to a FractionAI handler method that
    throws an error carrying the captcha fatal marker, the tasks before it
    having run without ending the loop.  Then, whatever [stopOnFailure]
    is, the run stops there: the summary reports [success = false], the
    entry of task k is the result with [fatalError = true], the trace ends
    with the single attempt of task k, its recording and the closing of the
    client, so no later task is attempted, and a later task whose name did
    not occur up to k has no entry. *)
Theorem fatal_captcha_error_halts_run (fuel : nat) (w : Worker.t)
    (before later : list string) (taskType method : string)
    (taskResults : gmap string Worker.TaskResult) (w1 : Worker.t)
    (error : Error) :
  Worker.sequence config = Some (before ++ taskType :: later) →
  Worker.runTasks config E (S fuel) (before ++ taskType :: later) before ∅
    (Worker.delay (Worker.initialDelay w) w)
  = Some (taskResults, true, w1) →
  Js.getProp Worker.fractionAITasks taskType = Some method →
  method ∈ Worker.handlerMethods →
  Worker.handler E (Worker.calls w1) method = Throw error →
  isCaptchaFatalError error = true →
  ∃ summary w',
    Worker.executeAllTasks config E (S fuel) w = Some (summary, w')
    ∧ Worker.summary_success summary = false
    ∧ Worker.tasks summary !! taskType = Some (Worker.fatal (message error))
    ∧ Worker.fatalError (Worker.fatal (message error)) = true
    ∧ Worker.trace w'
      = Worker.trace w1
        ++ [ Worker.Began taskType 0;
             Worker.Recorded taskType (Worker.fatal (message error));
             Worker.Closed ]
    ∧ (∀ t, t ∈ later → t ∉ before → t ≠ taskType →
            Worker.tasks summary !! t = None).
Proof.
  intros Hseq Hbefore Hmethod Hknown Hthrow Hfatal.
  unfold Worker.executeAllTasks. rewrite Hseq. cbn [default from_option id].
  rewrite runTasks_app, Hbefore. cbn [Worker.runTasks].
  rewrite (executeTask_fatal fuel taskType method w1 error) by done.
  cbn [Worker.fatal Worker.fatalError].
  eexists _, _. split; [reflexivity|].
  cbn [Worker.summary_success Worker.tasks].
  unfold Js.assign. rewrite (fractionAITask_not_proto _ _ Hmethod).
  split; [done|]. split; [by rewrite lookup_insert_eq|]. split; [done|].
  split. { cbn. by rewrite <- !app_assoc. }
  intros t _ Hnotbefore Hne. rewrite lookup_insert_ne by done.
  apply runTasks_prefix in Hbefore
    as (done & evs & Hp & _ & _ & _ & Hdom & Hall).
  rewrite Hall in Hdom by done.
  apply (not_elem_of_dom (D := gset string)). rewrite Hdom.
  rewrite dom_empty_L. intros Hin. apply Hnotbefore.
  apply elem_of_union in Hin as [Hin|Hin]; [set_solver|].
  apply elem_of_list_to_set in Hin. unfold entryNames in Hin.
  apply list_elem_of_In, filter_In in Hin as [Hin _].
  by apply list_elem_of_In.
Qed.

End FatalFacts.

Lemma fatal_captcha_error_halts_run_witness :
  ∃ summary w',
    Worker.executeAllTasks
      (configWith 5 false ["sign"; "fractionAI:createMatch"; "createEvent"])
      captchaGivesUp 4 (Worker.constructor 1000) = Some (summary, w')
    ∧ Worker.summary_success summary = false
    ∧ Worker.tasks summary !! "fractionAI:createMatch"
      = Some (Worker.fatal (message captchaFatalError))
    ∧ Worker.tasks summary !! "createEvent" = None.
Proof.
  destruct (fatal_captcha_error_halts_run
              (configWith 5 false
                 ["sign"; "fractionAI:createMatch"; "createEvent"])
              captchaGivesUp 3 (Worker.constructor 1000)
              ["sign"] ["createEvent"] "fractionAI:createMatch" "createMatch"
              _ _ captchaFatalError eq_refl eq_refl eq_refl
              ltac:(unfold Worker.handlerMethods; set_solver) eq_refl eq_refl)
    as (summary & w' & Hrun & Hsucc & Hentry & _ & _ & Hnone).
  exists summary, w'. split; [exact Hrun|]. split; [exact Hsucc|].
  split; [exact Hentry|].
  apply Hnone; [set_solver|set_solver|done].
Defined.

(** ** Worker: the circuit breaker *)

Section BreakerFacts.

Variable config : Worker.Config.
Variable E : Worker.Env.

Local Abbreviation max := (Worker.maxConsecutiveErrors config).
Local Abbreviation cooldown := (Worker.cooldownPeriod config).

Lemma guarded_countFailure (d : Z) (w : Worker.t) :
  cooldown ≤ d → guarded config true w → guarded config false (countFailure config d w).
Proof.
  intros Hd [Hw Hc]. unfold countFailure, guarded, watch in *.
  cbn [Worker.setConsecutiveErrors Worker.emit Worker.consecutiveErrors
       Worker.trace].
  destruct (max <=? Worker.consecutiveErrors w + 1) eqn:Htrip.
  - cbn [Worker.setConsecutiveErrors Worker.emit Worker.delay
         Worker.consecutiveErrors Worker.trace].
    rewrite !foldl_snoc, Hw. cbn [breaker andb].
    rewrite Z.eqb_refl, orb_true_r, Htrip. cbn [breaker].
    replace (cooldown <=? d) with true by lia. cbn. split; [done|lia].
  - cbn [Worker.setConsecutiveErrors Worker.emit Worker.consecutiveErrors
         Worker.trace].
    rewrite foldl_snoc, Hw. cbn [breaker andb].
    rewrite Z.eqb_refl, orb_true_r, Htrip. split; [done|lia].
Qed.

Lemma guarded_reset (w : Worker.t) :
  guarded config true w → guarded config false (Worker.setConsecutiveErrors 0 w).
Proof.
  intros [Hw Hc]. unfold guarded, watch in *. cbn.
  rewrite foldl_snoc, Hw. cbn [breaker andb orb Z.eqb].
  replace (max <=? 0) with false by lia. split; [done|lia].
Qed.

Lemma guarded_quiet_event (e : Worker.Event) (fresh : bool) (w : Worker.t) :
  match e with
  | Worker.Began _ _ | Worker.Counted _ => False
  | _ => True
  end →
  guarded config fresh w → guarded config fresh (Worker.emit e w).
Proof.
  intros He [Hw Hc]. unfold guarded, watch in *. cbn.
  rewrite foldl_snoc, Hw. by destruct e.
Qed.

Lemma guarded_began (taskType : string) (retryCount : Z) (fresh : bool)
    (w : Worker.t) :
  guarded config fresh w → guarded config true (Worker.emit (Worker.Began taskType retryCount) w).
Proof.
  intros [Hw Hc]. unfold guarded, watch in *. cbn.
  rewrite foldl_snoc, Hw. cbn. by replace (_ <? _) with true by lia.
Qed.

Lemma orNumber_cooldown : cooldown ≤ Js.orNumber cooldown 300000.
Proof. unfold Js.orNumber. destruct (Z.eqb_spec cooldown 0); lia. Qed.

(** [withErrorHandling] resets the counter when the closure returns and
    counts one failure when it throws. *)
Lemma withErrorHandling_counts (task taskName : string) (w : Worker.t) :
  let '(result, w') := Worker.withErrorHandling config E task taskName w in
  Worker.trace w'
  = Worker.trace
      (if Worker.success result then Worker.setConsecutiveErrors 0 w
       else countFailure config (Js.orNumber cooldown 300000) w)
  ∧ Worker.consecutiveErrors w'
    = Worker.consecutiveErrors
        (if Worker.success result then Worker.setConsecutiveErrors 0 w
         else countFailure config (Js.orNumber cooldown 300000) w)
  ∧ Worker.success result
    = match Worker.taskFn E (Worker.calls w) task with
      | Ok _ => true
      | Throw _ => false
      end.
Proof.
  unfold Worker.withErrorHandling, countFailure.
  cbn [Worker.setMetrics Worker.calls].
  destruct (Worker.taskFn E (Worker.calls w) task) as [d|error]; [done|].
  cbn [Worker.failed Worker.success Worker.setConsecutiveErrors Worker.emit
       Worker.called Worker.setMetrics Worker.store Worker.consecutiveErrors].
  by destruct (max <=? Worker.consecutiveErrors w + 1).
Qed.

Lemma guarded_ext (fresh : bool) (w w' : Worker.t) :
  Worker.trace w' = Worker.trace w →
  Worker.consecutiveErrors w' = Worker.consecutiveErrors w →
  guarded config fresh w → guarded config fresh w'.
Proof. unfold guarded. by intros -> ->. Qed.

Lemma dispatch_guarded (taskType : string) (w : Worker.t) :
  guarded config true w →
  ∃ fresh, guarded config fresh (Worker.dispatch config E taskType w).2.
Proof.
  intros Hw. unfold Worker.dispatch.
  assert (Hweh : ∀ task taskName,
    guarded config false (Worker.withErrorHandling config E task taskName w).2).
  { intros task taskName.
    pose proof (withErrorHandling_counts task taskName w) as H.
    destruct (Worker.withErrorHandling _ _ _ _ _) as [r w'].
    destruct H as (Ht & Hc & _). cbn [snd].
    eapply guarded_ext; [exact Ht|exact Hc|].
    destruct (Worker.success r).
    - by apply guarded_reset.
    - apply guarded_countFailure; [apply orNumber_cooldown|done]. }
  destruct (String.eqb taskType "sign").
  { exists false. specialize (Hweh "sign" "签名授权"). unfold Worker.sign.
    by destruct (Worker.withErrorHandling _ _ _ _ _). }
  destruct (String.eqb taskType "createEvent").
  { exists false. specialize (Hweh "createEvent" "创建事件").
    unfold Worker.createEvent.
    by destruct (Worker.withErrorHandling _ _ _ _ _). }
  exists true. destruct (Js.getProp _ taskType) as [method|]; [|done].
  pose proof (handleFractionAITask_silent E method w) as [Ht Hc].
  destruct (Worker.handleFractionAITask _ _ _). cbn [snd] in *.
  by eapply guarded_ext.
Qed.

Lemma dispatch_throw_unchanged (taskType : string) (w : Worker.t)
    (error : Error) (w' : Worker.t) :
  Worker.dispatch config E taskType w = (Throw error, w') → w' = w.
Proof.
  unfold Worker.dispatch.
  destruct (String.eqb taskType "sign").
  { unfold Worker.sign. by destruct (Worker.withErrorHandling _ _ _ _ _). }
  destruct (String.eqb taskType "createEvent").
  { unfold Worker.createEvent.
    by destruct (Worker.withErrorHandling _ _ _ _ _). }
  destruct (Js.getProp _ taskType) as [method|].
  - by destruct (Worker.handleFractionAITask _ _ _).
  - by intros [= _ <-].
Qed.

Lemma executeTask_guarded (fuel : nat) :
  ∀ taskType retryCount retryDelay w result w' fresh,
    guarded config fresh w →
    Worker.executeTask config E fuel taskType retryCount retryDelay w
    = Some (result, w') →
    ∃ fresh', guarded config fresh' w'.
Proof.
  induction fuel as [|fuel IH];
    intros taskType retryCount retryDelay w result w' fresh Hw; [done|].
  cbn [Worker.executeTask].
  set (w0 := if (0 <? retryCount) && (0 <? retryDelay)
             then Worker.delay retryDelay w else w).
  assert (H0 : guarded config fresh w0).
  { subst w0. destruct (_ && _); [|done]. by apply guarded_quiet_event. }
  pose proof (guarded_began taskType retryCount fresh w0 H0) as H1.
  destruct (dispatch_guarded taskType _ H1) as (fresh2 & H2).
  destruct (Worker.dispatch _ _ _ _) as [[r|error] w2] eqn:Hd; cbn [snd] in H2.
  { intros [= <- <-]. eauto. }
  apply dispatch_throw_unchanged in Hd. subst w2.
  destruct (isCaptchaFatalError error).
  { intros [= <- <-]. exists true. by eapply guarded_ext. }
  pose proof (guarded_countFailure cooldown _ ltac:(lia) H1) as H3.
  unfold countFailure in H3.
  destruct (retryCount <? _).
  - intros Hrec. by eapply IH.
  - intros [= <- <-]. eauto.
Qed.

Lemma pace_guarded (tasksToExecute : list string) (taskType : string)
    (fresh : bool) (w : Worker.t) :
  guarded config fresh w →
  guarded config fresh (Worker.pace config E tasksToExecute taskType w).
Proof.
  intros Hw. unfold Worker.pace.
  destruct (Worker.delayBetweenTasks config) as [| |ms]; [done| |].
  - destruct (_ <? _); [|done].
    apply guarded_quiet_event; [done|]. by eapply guarded_ext.
  - destruct (_ && _); [|done]. by apply guarded_quiet_event.
Qed.

Lemma runTasks_guarded (fuel : nat) (tasksToExecute : list string) :
  ∀ rest taskResults w taskResults' allTasksSuccessful w' fresh,
    guarded config fresh w →
    Worker.runTasks config E fuel tasksToExecute rest taskResults w
    = Some (taskResults', allTasksSuccessful, w') →
    ∃ fresh', guarded config fresh' w'.
Proof.
  induction rest as [|taskType rest IH];
    intros taskResults w taskResults' ok w' fresh Hw; cbn [Worker.runTasks].
  { intros [= <- <- <-]. eauto. }
  destruct (Worker.executeTask _ _ _ _ _ _ _) as [[result w1]|] eqn:Hexec;
    [|done].
  eapply executeTask_guarded in Hexec as (fresh1 & H1); [|exact Hw].
  pose proof (guarded_quiet_event (Worker.Recorded taskType result) fresh1 w1 I H1)
    as H2.
  destruct (Worker.fatalError result); [intros [= <- <- <-]; eauto|].
  destruct (_ && _); [intros [= <- <- <-]; eauto|].
  intros Hloop. eapply IH; [|exact Hloop]. by apply pace_guarded.
Qed.

(** A [sign] or [createEvent] task is attempted once; its success resets
    the counter and its failure counts once. *)
Lemma executeTask_builtin (fuel : nat) (taskType : string) (w : Worker.t) :
  taskType = "sign" ∨ taskType = "createEvent" →
  ∃ result w',
    Worker.executeTask config E (S fuel) taskType 0 0 w = Some (result, w')
    ∧ Worker.trace w'
      = Worker.trace w
        ++ Worker.Began taskType 0
           :: (if Worker.success result then [Worker.Counted 0]
               else Worker.Counted (Worker.consecutiveErrors w + 1)
                    :: (if max <=? Worker.consecutiveErrors w + 1
                        then [Worker.Slept (Js.orNumber cooldown 300000);
                              Worker.Counted 0]
                        else []))
    ∧ Worker.consecutiveErrors w'
      = (if Worker.success result then 0
         else if max <=? Worker.consecutiveErrors w + 1 then 0
              else Worker.consecutiveErrors w + 1).
Proof.
  intros Htask. cbn [Worker.executeTask]. cbn [Z.ltb Z.compare andb].
  set (w1 := Worker.emit (Worker.Began taskType 0) w).
  assert (Hd : ∃ task taskName,
    Worker.dispatch config E taskType w1
    = (Ok (Worker.withErrorHandling config E task taskName w1).1,
       (Worker.withErrorHandling config E task taskName w1).2)).
  { unfold Worker.dispatch, Worker.sign, Worker.createEvent.
    destruct Htask as [-> | ->]; cbn [String.eqb Ascii.eqb Bool.eqb].
    - exists "sign", "签名授权". by destruct (Worker.withErrorHandling _ _ _ _ _).
    - exists "createEvent", "创建事件".
      by destruct (Worker.withErrorHandling _ _ _ _ _). }
  destruct Hd as (task & taskName & ->).
  pose proof (withErrorHandling_counts task taskName w1) as H.
  destruct (Worker.withErrorHandling _ _ _ _ _) as [r w2].
  destruct H as (Ht & Hc & _). cbn [fst snd].
  exists r, w2. split; [done|]. rewrite Ht, Hc. unfold countFailure.
  cbn [w1 Worker.setConsecutiveErrors Worker.emit Worker.consecutiveErrors
       Worker.trace].
  destruct (Worker.success r).
  - cbn. by rewrite <- app_assoc.
  - destruct (max <=? Worker.consecutiveErrors w + 1); cbn;
      by rewrite <- !app_assoc.
Qed.

(** A task that goes to the FractionAI handler is attempted once, and
    neither its failure nor its success touches the counter. *)
Lemma executeTask_handler (fuel : nat) (taskType : string) (w : Worker.t) :
  handlerTask taskType = true →
  ∃ result w',
    Worker.executeTask config E (S fuel) taskType 0 0 w = Some (result, w')
    ∧ Worker.trace w' = Worker.trace w ++ [Worker.Began taskType 0]
    ∧ Worker.consecutiveErrors w' = Worker.consecutiveErrors w
    ∧ ((∀ k method, ∃ error,
          Worker.handler E k method = Throw error
          ∧ isCaptchaFatalError error = false) →
       Worker.success result = false ∧ Worker.fatalError result = false).
Proof.
  intros Hm. apply bool_decide_eq_true in Hm as [method Hm].
  destruct (fractionAITask_not_builtin _ _ Hm) as [Hs Hc].
  cbn [Worker.executeTask]. cbn [Z.ltb Z.compare andb].
  unfold Worker.dispatch. rewrite Hs, Hc, Hm.
  unfold Worker.handleFractionAITask.
  destruct (bool_decide (method ∈ Worker.handlerMethods)).
  - cbn [Worker.emit Worker.called Worker.calls].
    destruct (Worker.handler E (Worker.calls w) method) as [result|error] eqn:Hh.
    + eexists _, _. split; [reflexivity|]. split; [done|]. split; [done|].
      intros Hfail. destruct (Hfail (Worker.calls w) method)
        as (error & He & _). rewrite He in Hh. discriminate Hh.
    + destruct (isCaptchaFatalError error) eqn:Hf;
        (eexists _, _; split; [reflexivity|]; split; [done|]; split; [done|]).
      * intros Hfail. destruct (Hfail (Worker.calls w) method)
          as (error' & He & Hnf). rewrite He in Hh.
        injection Hh as ->. by rewrite Hnf in Hf.
      * done.
  - eexists _, _. split; [reflexivity|]. by cbn.
Qed.

Lemma pace_pause (tasksToExecute : list string) (taskType : string)
    (w : Worker.t) :
  ∃ pause : option Z,
    Worker.trace (Worker.pace config E tasksToExecute taskType w)
    = Worker.trace w ++ match pause with
                        | Some ms => [Worker.Slept ms]
                        | None => []
                        end
    ∧ Worker.consecutiveErrors (Worker.pace config E tasksToExecute taskType w)
      = Worker.consecutiveErrors w.
Proof.
  unfold Worker.pace.
  destruct (Worker.delayBetweenTasks config) as [| |ms].
  - exists None. by rewrite app_nil_r.
  - destruct (_ <? _); [by eexists (Some _)|].
    exists None. by rewrite app_nil_r.
  - destruct (_ && _); [by exists (Some ms)|].
    exists None. by rewrite app_nil_r.
Qed.

Lemma runTasks_handler (fuel : nat) (tasksToExecute : list string) :
  ∀ rest taskResults w,
    Forall (λ taskType, handlerTask taskType = true) rest →
    ∃ taskResults' allTasksSuccessful w'
      (rounds : list (string * Worker.TaskResult * option Z)),
      Worker.runTasks config E (S fuel) tasksToExecute rest taskResults w
      = Some (taskResults', allTasksSuccessful, w')
      ∧ (λ round, round.1.1) <$> rounds `prefix_of` rest
      ∧ Worker.trace w' = Worker.trace w ++ concat (roundEvents <$> rounds)
      ∧ Worker.consecutiveErrors w' = Worker.consecutiveErrors w
      ∧ ((∀ k method, ∃ error,
            Worker.handler E k method = Throw error
            ∧ isCaptchaFatalError error = false) →
         Worker.stopOnFailure config = false →
         (λ round, round.1.1) <$> rounds = rest
         ∧ Forall (λ round, Worker.success round.1.2 = false) rounds).
Proof.
  induction rest as [|taskType rest IH]; intros taskResults w Hall.
  { exists taskResults, true, w, []. cbn. by rewrite app_nil_r. }
  apply Forall_cons in Hall as [Ht Hall]. cbn [Worker.runTasks].
  destruct (executeTask_handler fuel taskType w Ht)
    as (result & w1 & -> & Htr1 & Hc1 & Hfail1).
  set (w2 := Worker.emit (Worker.Recorded taskType result) w1).
  assert (Hstop : ∀ taskResults' ok,
    Worker.fatalError result
    || negb (Worker.success result) && Worker.stopOnFailure config = true →
    ∃ (taskResults'' : gmap string Worker.TaskResult) (ok' : bool) w'
      (rounds : list (string * Worker.TaskResult * option Z)),
      Some (taskResults', ok, w2) = Some (taskResults'', ok', w')
      ∧ (λ round, round.1.1) <$> rounds `prefix_of` taskType :: rest
      ∧ Worker.trace w' = Worker.trace w ++ concat (roundEvents <$> rounds)
      ∧ Worker.consecutiveErrors w' = Worker.consecutiveErrors w
      ∧ ((∀ k method, ∃ error,
            Worker.handler E k method = Throw error
            ∧ isCaptchaFatalError error = false) →
         Worker.stopOnFailure config = false →
         (λ round, round.1.1) <$> rounds = taskType :: rest
         ∧ Forall (λ round, Worker.success round.1.2 = false) rounds)).
  { intros taskResults' ok Hhalt.
    exists taskResults', ok, w2, [(taskType, result, None)].
    split; [done|]. split; [by apply prefix_cons, prefix_nil|].
    split. { cbn. rewrite Htr1, <- app_assoc. done. }
    split; [done|]. intros Hfail Hstay.
    destruct (Hfail1 Hfail) as [_ Hnf].
    by rewrite Hnf, Hstay, andb_false_r in Hhalt. }
  destruct (Worker.fatalError result) eqn:Hf; [by apply Hstop|].
  destruct (negb (Worker.success result) && Worker.stopOnFailure config)
    eqn:Hs; [by apply Hstop|]. clear Hstop.
  destruct (pace_pause tasksToExecute taskType w2) as (pause & Htrp & Hcp).
  destruct (IH (Js.assign taskResults taskType result)
              (Worker.pace config E tasksToExecute taskType w2) Hall)
    as (taskResults' & ok & w' & rounds & -> & Hp & Htr & Hc & Hfail).
  exists taskResults', ok, w', ((taskType, result, pause) :: rounds).
  split; [done|]. split; [by apply prefix_cons|].
  split. { rewrite Htr, Htrp. cbn [w2 Worker.emit Worker.trace].
           rewrite Htr1. cbn. by rewrite <- !app_assoc. }
  split; [by rewrite Hc, Hcp|].
  intros Hall' Hstay. destruct (Hfail Hall' Hstay) as [Hrounds Hfailed].
  split; [cbn; by rewrite Hrounds|].
  constructor; [|done]. by destruct (Hfail1 Hall').
Qed.

(** C3 on the code.  A task that goes to the FractionAI handler never
    reaches the circuit breaker.  On a task sequence made of such tasks
    the whole run is: the initial delay, then for each task one attempt,
    the recording of its result and at most one pause before the next
    task, then the closing of the client; the consecutive-failure counter
    is never written, and no sleep other than those pauses happens,
    whatever the outcomes are.  When every call of the handler throws an
    ordinary error and [stopOnFailure] is off, every task of the sequence
    is attempted and fails: however many consecutive task failures that
    makes, the counter stays where it was and the runner never cools
    down. *)
Theorem handler_failures_never_reach_the_breaker (fuel : nat)
    (tasksToExecute : list string) (w : Worker.t) :
  Worker.sequence config = Some tasksToExecute →
  Forall (λ taskType, handlerTask taskType = true) tasksToExecute →
  ∃ summary w' (rounds : list (string * Worker.TaskResult * option Z)),
    Worker.executeAllTasks config E (S fuel) w = Some (summary, w')
    ∧ (λ round, round.1.1) <$> rounds `prefix_of` tasksToExecute
    ∧ Worker.trace w'
      = Worker.trace w
        ++ Worker.Slept (Worker.initialDelay w)
           :: concat (roundEvents <$> rounds) ++ [Worker.Closed]
    ∧ Worker.consecutiveErrors w' = Worker.consecutiveErrors w
    ∧ ((∀ k method, ∃ error,
          Worker.handler E k method = Throw error
          ∧ isCaptchaFatalError error = false) →
       Worker.stopOnFailure config = false →
       (λ round, round.1.1) <$> rounds = tasksToExecute
       ∧ Forall (λ round, Worker.success round.1.2 = false) rounds).
Proof.
  intros Hseq Hall. unfold Worker.executeAllTasks. rewrite Hseq.
  cbn [default from_option id].
  destruct (runTasks_handler fuel tasksToExecute tasksToExecute ∅
              (Worker.delay (Worker.initialDelay w) w) Hall)
    as (taskResults' & ok & w1 & rounds & -> & Hp & Htr & Hc & Hfail).
  eexists _, _, rounds. split; [reflexivity|]. split; [exact Hp|].
  split. { cbn [Worker.emit Worker.trace]. rewrite Htr. cbn.
           by rewrite <- !app_assoc. }
  split; [exact Hc|exact Hfail].
Qed.

(** X28. With a threshold of at least 1, a run given enough fuel for the
    retries ends, and the breaker monitor accepts its whole trace and ends
    on the counter of the worker: no attempt, first or retry, begins
    while the counter is at or above [maxConsecutiveErrors]; the counter
    changes at most once per attempt, by one step up or back to 0; each
    time a step up reaches [maxConsecutiveErrors] the next thing the
    runner does is sleep at least [cooldownPeriod], and right after that
    sleep the counter is set to 0.  For the tasks [sign] and
    [createEvent], which run under [withErrorHandling], the counter counts
    failed tasks: a failed task, attempted once, steps it up once (sleeping
    [cooldownPeriod], or 300000 ms when that is 0, on reaching the
    threshold) and a successful task resets it to 0. *)
Theorem circuit_breaker_guards_every_attempt (fuel : nat) (initialDelay : Z) :
  1 ≤ max →
  (Z.to_nat (Js.orNumber (Worker.maxRetries config) 3) < fuel)%nat →
  (∃ summary w' fresh,
     Worker.executeAllTasks config E fuel (Worker.constructor initialDelay)
     = Some (summary, w')
     ∧ watch max cooldown (Worker.trace w')
       = Counting (Worker.consecutiveErrors w') fresh
     ∧ Worker.consecutiveErrors w' < max)
  ∧ (∀ taskType w,
      taskType = "sign" ∨ taskType = "createEvent" →
      ∃ result w',
        Worker.executeTask config E fuel taskType 0 0 w = Some (result, w')
        ∧ Worker.trace w'
          = Worker.trace w
            ++ Worker.Began taskType 0
               :: (if Worker.success result then [Worker.Counted 0]
                   else Worker.Counted (Worker.consecutiveErrors w + 1)
                        :: (if max <=? Worker.consecutiveErrors w + 1
                            then [Worker.Slept (Js.orNumber cooldown 300000);
                                  Worker.Counted 0]
                            else []))
        ∧ Worker.consecutiveErrors w'
          = (if Worker.success result then 0
             else if max <=? Worker.consecutiveErrors w + 1 then 0
                  else Worker.consecutiveErrors w + 1)).
Proof.
  intros Hmax Hfuel. split.
  - unfold Worker.executeAllTasks.
    set (w0 := Worker.delay _ _).
    assert (H0 : guarded config false w0).
    { subst w0. split; [done|]. cbn. lia. }
    destruct (runTasks_total config E fuel
                (default ["sign"; "createEvent"] (Worker.sequence config)) Hfuel
                (default ["sign"; "createEvent"] (Worker.sequence config)) ∅ w0)
      as [[[m ok] w1] Hrun].
    rewrite Hrun. apply runTasks_guarded with (fresh := false) in Hrun
      as (fresh & H1); [|exact H0].
    apply (guarded_quiet_event Worker.Closed) in H1 as [Hw Hc]; [|done].
    eexists _, _, fresh. split; [reflexivity|]. split; [exact Hw|lia].
  - intros taskType w Htask. destruct fuel as [|fuel]; [lia|].
    by apply executeTask_builtin.
Qed.

End BreakerFacts.

Lemma handler_failures_never_reach_the_breaker_witness :
  ∃ summary w',
    Worker.executeAllTasks (configWith 5 false shippedSequence) handlerFails 1
      (Worker.constructor 1000) = Some (summary, w')
    ∧ Worker.trace w'
      = [ Worker.Slept 1000;
          Worker.Began "fractionAI:verify" 0;
          Worker.Recorded "fractionAI:verify" (Worker.failure "HTTP 500");
          Worker.Slept 2000;
          Worker.Began "fractionAI:getUserAgents" 0;
          Worker.Recorded "fractionAI:getUserAgents"
            (Worker.failure "HTTP 500");
          Worker.Slept 2000;
          Worker.Began "fractionAI:createAgent" 0;
          Worker.Recorded "fractionAI:createAgent" (Worker.failure "HTTP 500");
          Worker.Slept 2000;
          Worker.Began "fractionAI:disableAutomatedMatchmaking" 0;
          Worker.Recorded "fractionAI:disableAutomatedMatchmaking"
            (Worker.failure "HTTP 500");
          Worker.Slept 2000;
          Worker.Began "fractionAI:enableAutomatedMatchmaking" 0;
          Worker.Recorded "fractionAI:enableAutomatedMatchmaking"
            (Worker.failure "HTTP 500");
          Worker.Closed ]
    ∧ Worker.consecutiveErrors w' = 0.
Proof.
  destruct (handler_failures_never_reach_the_breaker
              (configWith 5 false shippedSequence) handlerFails 0
              shippedSequence (Worker.constructor 1000) eq_refl
              ltac:(repeat constructor))
    as (summary & w' & rounds & Hrun & _ & _ & Hc & _).
  exists summary, w'. split; [exact Hrun|]. split; [|exact Hc].
  vm_compute in Hrun. injection Hrun as <- <-. by vm_compute.
Defined.

(** The counter also counts attempts rather than tasks where it does
    count on the way through [executeTask].  With the default settings
    (threshold 5, 3 retries) the task type [fractionAI:executeTaskChain],
    which the switch of [executeTask] does not know, fails once as a task
    after four attempts, and the counter then reads 4, not 1. *)
Lemma counter_counts_attempts_not_tasks :
  ¬ countsFailedTasks (configWith 5 false ["fractionAI:executeTaskChain"])
      allSucceed 5 (Worker.constructor 1000) "fractionAI:executeTaskChain".
Proof.
  unfold countsFailedTasks.
  destruct (Worker.executeTask _ _ _ _ _ _ _) as [[result w']|] eqn:Hrun;
    vm_compute in Hrun; [|discriminate Hrun].
  injection Hrun as <- <-. intros H. specialize (H _ _ eq_refl eq_refl).
  vm_compute in H. discriminate H.
Qed.

Lemma circuit_breaker_guards_every_attempt_witness :
  1 ≤ 2
  ∧ ∃ summary w' fresh,
      Worker.executeAllTasks (configWith 2 false ["sign"; "sign"; "createEvent"])
        signFails 4 (Worker.constructor 1000) = Some (summary, w')
      ∧ watch 2 300000 (Worker.trace w')
        = Counting (Worker.consecutiveErrors w') fresh.
Proof.
  split; [lia|].
  destruct (circuit_breaker_guards_every_attempt
              (configWith 2 false ["sign"; "sign"; "createEvent"]) signFails
              4 1000 ltac:(cbn; lia) ltac:(cbn; lia))
    as [(summary & w' & fresh & Hrun & Hwatch & _) _].
  exists summary, w', fresh. by split.
Defined.

(** The run of the witness, event by event: the second failure of [sign]
    brings the counter to the threshold 2, the runner sleeps 300000 ms and
    sets the counter to 0 before the result is recorded and the next task
    begins. *)
Example two_failed_signs_trip_the_breaker :
  (λ r, Worker.trace r.2)
    <$> Worker.executeAllTasks
          (configWith 2 false ["sign"; "sign"; "createEvent"]) signFails 4
          (Worker.constructor 1000)
  = Some
      [ Worker.Slept 1000;
        Worker.Began "sign" 0; Worker.Counted 1;
        Worker.Recorded "sign" (Worker.failed "socket hang up");
        Worker.Slept 2000;
        Worker.Began "sign" 0; Worker.Counted 2;
        Worker.Slept 300000; Worker.Counted 0;
        Worker.Recorded "sign" (Worker.failed "socket hang up");
        Worker.Slept 2000;
        Worker.Began "createEvent" 0; Worker.Counted 0;
        Worker.Recorded "createEvent" (Worker.completed "done");
        Worker.Closed ].
Proof. vm_compute. reflexivity. Qed.

(** A success of a handler task does not reset the counter either: a
    failed [sign], a successful [fractionAI:getProfile] and another failed
    [sign] trip a breaker with threshold 2, although no two failures were
    consecutive. *)
Example handler_success_does_not_reset_the_counter :
  (λ r, Worker.trace r.2)
    <$> Worker.executeAllTasks
          (configWith 2 false ["sign"; "fractionAI:getProfile"; "sign"])
          signFails 4 (Worker.constructor 1000)
  = Some
      [ Worker.Slept 1000;
        Worker.Began "sign" 0; Worker.Counted 1;
        Worker.Recorded "sign" (Worker.failed "socket hang up");
        Worker.Slept 2000;
        Worker.Began "fractionAI:getProfile" 0;
        Worker.Recorded "fractionAI:getProfile"
          (Worker.mkTaskResult true (Some "done") None None false);
        Worker.Slept 2000;
        Worker.Began "sign" 0; Worker.Counted 2;
        Worker.Slept 300000; Worker.Counted 0;
        Worker.Recorded "sign" (Worker.failed "socket hang up");
        Worker.Slept 2000;
        Worker.Closed ].
Proof. vm_compute. reflexivity. Qed.

(** A handler method that throws an ordinary error: the task fails, and
    the counter is left where it was. *)
Example failed_handler_task_leaves_counter :
  let failing :=
    {| Worker.taskFn := λ _ _, Ok "done";
       Worker.handler := λ _ _, Throw (mkError "HTTP 500" false);
       Worker.random := λ _, 500 |} in
  (λ r, (Worker.success r.1, Worker.consecutiveErrors r.2, Worker.trace r.2))
    <$> Worker.executeTask (configWith 1 false ["fractionAI:getProfile"])
          failing 4 "fractionAI:getProfile" 0 0 (Worker.constructor 1000)
  = Some (false, 0, [Worker.Began "fractionAI:getProfile" 0]).
Proof. vm_compute. reflexivity. Qed.

(** * Part IV: further properties of the code *)

(** ** KeyManager: the keys and aliases of the loaded accounts *)

Section LoadedKeyFacts.

Variable Wallet : string → option string.

Lemma validate_alias_sublist (accounts : list Account) :
  alias <$> omap (KeyManager.validate Wallet) accounts
  `sublist_of` alias <$> accounts.
Proof.
  induction accounts as [|a accounts IH]; [done|].
  cbn [omap list_omap]. unfold KeyManager.validate at 1.
  destruct (Wallet _); cbn.
  - by apply sublist_skip.
  - by apply sublist_cons.
Qed.

Lemma mkEntry_aliases (lines : list string) :
  alias <$> imap KeyManager.mkEntry lines
  = (λ i, "Account " +:+ pretty (i + 1)%nat) <$> seq 0 (length lines).
Proof.
  rewrite fmap_imap. unfold compose. cbn [KeyManager.mkEntry alias].
  apply (imap_seq_0 lines (λ i, "Account " +:+ pretty (i + 1)%nat)).
Qed.

Lemma validate_of_line (lines : list string) (a : Account) :
  a ∈ omap (KeyManager.validate Wallet) (imap KeyManager.mkEntry lines) →
  ∃ (i : nat) (line addr : string),
    lines !! i = Some line
    ∧ Wallet (KeyManager.normalizeKey line) = Some addr
    ∧ a = {| privateKey := KeyManager.normalizeKey line;
             alias := "Account " +:+ pretty (i + 1)%nat;
             address := Some addr;
             proxy := None;
             others := [] |}.
Proof.
  intros Ha. apply list_elem_of_omap in Ha as (a0 & Hin & Hv).
  apply list_elem_of_lookup in Hin as [i Hi].
  rewrite list_lookup_imap in Hi.
  destruct (lines !! i) as [line|] eqn:Hline; [|done].
  cbn in Hi. injection Hi as <-.
  unfold KeyManager.validate in Hv. cbn [KeyManager.mkEntry privateKey] in Hv.
  destruct (Wallet (KeyManager.normalizeKey line)) as [addr|] eqn:HW; [|done].
  injection Hv as <-. by exists i, line, addr.
Qed.

(** X1. The validator and the resolver of KeyManager agree on every key:
    [isValidPrivateKey] accepts a key exactly when
    [getAddressFromPrivateKey] returns an address for it.  Every account
    [loadAccounts] returns has a key that both accept: the resolver returns
    the address stored in the account, and the constructor of the signer
    accepts the key as it is and gets the same address. *)
Theorem loaded_keys_resolve (accountsFile accountsData : string) :
  (∀ key, KeyManager.isValidPrivateKey Wallet key = true
          ↔ ∃ addr, KeyManager.getAddressFromPrivateKey Wallet key = Ok addr)
  ∧ ∃ accounts,
      KeyManager.loadAccounts Wallet accountsFile
        (KeyManager.Content accountsData)
      = Ok accounts
      ∧ Forall
          (λ a, KeyManager.isValidPrivateKey Wallet (privateKey a) = true
                ∧ (∃ addr,
                     address a = Some addr
                     ∧ KeyManager.getAddressFromPrivateKey Wallet (privateKey a)
                       = Ok addr
                     ∧ EthSigner.constructor Wallet (Some (privateKey a))
                       = Ok (EthSigner.mk (privateKey a) addr)))
          accounts.
Proof.
  split.
  - intros key. unfold KeyManager.isValidPrivateKey,
      KeyManager.getAddressFromPrivateKey.
    destruct (Wallet _) as [addr|].
    + rewrite bool_decide_eq_true_2 by eauto. split; eauto.
    + rewrite bool_decide_eq_false_2 by (intros [? ?]; done).
      split; [done|]. by intros [? ?].
  - eexists. split; [reflexivity|].
    apply Forall_forall. intros a Ha.
    apply validate_of_line in Ha as (i & line & addr & _ & HW & ->).
    cbn [privateKey address].
    pose proof (normalizeKey_prefixed line) as Hp.
    assert (Ht : Js.truthy (KeyManager.normalizeKey line) = true).
    { destruct (KeyManager.normalizeKey line); [done|done]. }
    unfold KeyManager.isValidPrivateKey, KeyManager.getAddressFromPrivateKey,
      EthSigner.constructor.
    rewrite Ht, Hp. cbn [negb andb orb]. rewrite HW.
    split; [by rewrite bool_decide_eq_true_2 by eauto|].
    by exists addr.
Qed.

(** X2. The aliases of the loaded accounts are pairwise distinct, and each
    account carries the number of its line among the non-empty,
    non-comment lines of the file and the normalized key of that line.  A
    line whose key is rejected uses up its number, so the numbers of the
    accounts can have gaps. *)
Theorem loaded_aliases_number_the_lines (accountsFile accountsData : string) :
  let lines :=
    List.filter KeyManager.keepLine (Js.trim <$> Js.split "010" accountsData) in
  ∃ accounts,
    KeyManager.loadAccounts Wallet accountsFile
        (KeyManager.Content accountsData)
    = Ok accounts
    ∧ NoDup (alias <$> accounts)
    ∧ Forall
        (λ a, ∃ (i : nat) (line : string),
                lines !! i = Some line
                ∧ alias a = "Account " +:+ pretty (i + 1)%nat
                ∧ privateKey a = KeyManager.normalizeKey line)
        accounts.
Proof.
  intros lines. eexists. split; [reflexivity|]. split.
  - eapply sublist_NoDup; [|apply validate_alias_sublist].
    rewrite mkEntry_aliases. apply NoDup_fmap_2; [|apply NoDup_seq].
    intros i j Hij. apply (inj (String.app "Account ")) in Hij.
    apply (inj pretty) in Hij. lia.
  - apply Forall_forall. intros a Ha.
    apply validate_of_line in Ha as (i & line & addr & Hl & _ & ->).
    by exists i, line.
Qed.

End LoadedKeyFacts.

(** ** ProxyManager: what an assignment leaves behind *)

(** X3. Assigning proxies to a list that went through the assignment
    already changes nothing. *)
Theorem assignProxies_idempotent (pm : ProxyManager.t)
    (accounts : list Account) :
  ProxyManager.assignProxiesToAccounts pm
    (ProxyManager.assignProxiesToAccounts pm accounts)
  = ProxyManager.assignProxiesToAccounts pm accounts.
Proof.
  unfold ProxyManager.assignProxiesToAccounts.
  destruct (ProxyManager.getDynamicProxy pm) as [p|].
  - rewrite map_map. apply map_ext. intros a.
    destruct (ProxyManager.hasProxy a) eqn:Ha; [by rewrite Ha|].
    by destruct (ProxyManager.hasProxy (ProxyManager.withProxy a p)).
  - rewrite map_map. by apply map_ext.
Qed.

(** X4. For a manager built from a configuration, [getDynamicProxy] is
    what [loadProxyConfig] loaded, and a loaded proxy has a host and a
    port.  An assignment never leaves a mixed list: with a dynamic proxy
    every account ends with a proxy host, without one every account ends
    with the empty proxy. *)
Theorem assignProxies_all_or_none (cfg : ProxyManager.NetworkConfig)
    (accounts : list Account) :
  let pm := ProxyManager.constructor cfg in
  let assignedAccounts := ProxyManager.assignProxiesToAccounts pm accounts in
  ProxyManager.getDynamicProxy pm = ProxyManager.loadProxyConfig cfg
  ∧ match ProxyManager.loadProxyConfig cfg with
    | Some p =>
        Js.truthyField (host p) = true ∧ Js.truthyField (port p) = true
        ∧ Forall (λ a, ProxyManager.hasProxy a = true) assignedAccounts
    | None =>
        Forall (λ a, proxy a = Some ProxyManager.noProxy) assignedAccounts
    end.
Proof.
  intros pm assignedAccounts.
  assert (Hd : ProxyManager.getDynamicProxy pm = ProxyManager.loadProxyConfig cfg).
  { subst pm. unfold ProxyManager.getDynamicProxy, ProxyManager.constructor.
    cbn [ProxyManager.config ProxyManager.dynamicProxy].
    unfold ProxyManager.loadProxyConfig.
    by destruct (ProxyManager.useProxy cfg). }
  split; [exact Hd|].
  subst assignedAccounts. unfold ProxyManager.assignProxiesToAccounts.
  rewrite Hd.
  destruct (ProxyManager.loadProxyConfig cfg) as [p|] eqn:Hp.
  - destruct (loadProxyConfig_complete _ _ Hp) as [Hh Hport].
    split; [exact Hh|]. split; [exact Hport|].
    apply Forall_forall. intros a Ha.
    apply list_elem_of_fmap in Ha as (a0 & -> & _).
    destruct (ProxyManager.hasProxy a0) eqn:H0; [exact H0|].
    unfold ProxyManager.hasProxy, ProxyManager.withProxy. cbn. exact Hh.
  - apply Forall_forall. intros a Ha.
    by apply list_elem_of_fmap in Ha as (a0 & -> & _).
Qed.

(** ** TaskManager: how a start ends and what the handlers count *)

Section StartFacts.

Variable Wallet : string → option string.

Lemma assignProxies_length (pm : ProxyManager.t) (accounts : list Account) :
  length (ProxyManager.assignProxiesToAccounts pm accounts) = length accounts.
Proof.
  unfold ProxyManager.assignProxiesToAccounts.
  destruct (ProxyManager.getDynamicProxy pm); by rewrite length_map.
Qed.

Lemma start_outcome (maxWorkers : Z) (privateKeyFile : string)
    (network : ProxyManager.NetworkConfig) (file : KeyManager.File) :
  let tm := TaskManager.constructor privateKeyFile network in
  let accounts := loadedAccounts Wallet tm file in
  let threadCount :=
    Z.to_nat (Z.min (Js.orNumber maxWorkers 5) (Z.of_nat (length accounts))) in
  match TaskManager.start Wallet maxWorkers tm file with
  | Throw e =>
      accounts = []
      ∧ e = match file with
            | KeyManager.Missing =>
                mkError ("账号文件 " +:+ privateKeyFile +:+ " 不存在") false
            | KeyManager.Unreadable error => error
            | KeyManager.Content _ => mkError "未找到有效账号" false
            end
  | Ok tm' =>
      accounts ≠ []
      ∧ tm' = spawnAll
                (TaskManager.mk privateKeyFile
                   (ProxyManager.constructor network) accounts [] true
                   (Z.of_nat (length accounts)) 0)
                threadCount
  end.
Proof.
  intros tm accounts threadCount. subst tm accounts threadCount.
  unfold loadedAccounts, TaskManager.start, TaskManager.loadAccounts.
  cbn [TaskManager.constructor TaskManager.setRunning
       TaskManager.accountsFile TaskManager.proxyManager
       TaskManager.isRunning TaskManager.workers
       TaskManager.activeThreads].
  destruct file as [|error|accountsData]; cbn [KeyManager.loadAccounts];
    [done|done|].
  set (loaded := omap _ _).
  destruct (Z.of_nat (length loaded) =? 0) eqn:H0.
  { apply Z.eqb_eq in H0. destruct loaded; [|cbn in H0; lia].
    split; [|done].
    unfold ProxyManager.assignProxiesToAccounts.
    by destruct (ProxyManager.getDynamicProxy _). }
  set (assignedAccounts := ProxyManager.assignProxiesToAccounts _ loaded).
  assert (Hlen : length assignedAccounts = length loaded)
    by apply assignProxies_length.
  cbn [TaskManager.accounts]. rewrite Hlen, H0.
  apply Z.eqb_neq in H0.
  set (t := Z.min _ _).
  assert (Hseq : seqZ 0 t = seqZ 0 (Z.of_nat (Z.to_nat t))).
  { destruct (decide (0 ≤ t)) as [Ht|Ht]; [by rewrite Z2Nat.id|].
    rewrite !seqZ_nil; [done|lia|lia]. }
  rewrite Hseq, spawn_loop; [|done|cbn; lia].
  split; [|done].
  intros Hnil. rewrite Hnil in Hlen. cbn in Hlen. lia.
Qed.

(** X5. [start] on a fresh manager throws exactly when no account could
    be loaded, whatever the worker ceiling is, and the error tells why: a
    message that names the missing file, the error of the read for a file
    that exists and cannot be read, and a message of its own for a file
    without a valid key. *)
Theorem start_fails_only_without_accounts (maxWorkers : Z)
    (privateKeyFile : string) (network : ProxyManager.NetworkConfig)
    (file : KeyManager.File) :
  let tm := TaskManager.constructor privateKeyFile network in
  ((∃ e, TaskManager.start Wallet maxWorkers tm file = Throw e)
   ↔ loadedAccounts Wallet tm file = [])
  ∧ ∀ e, TaskManager.start Wallet maxWorkers tm file = Throw e ↔
         loadedAccounts Wallet tm file = []
         ∧ e = match file with
               | KeyManager.Missing =>
                   mkError ("账号文件 " +:+ privateKeyFile +:+ " 不存在") false
               | KeyManager.Unreadable error => error
               | KeyManager.Content _ => mkError "未找到有效账号" false
               end.
Proof.
  intros tm. pose proof (start_outcome maxWorkers privateKeyFile network file)
    as H. cbv zeta in H. fold tm in H.
  destruct (TaskManager.start Wallet maxWorkers tm file) as [tm'|e].
  - destruct H as [Hne _]. split; [split; [by intros [? ?]|done]|].
    intros e. split; [done|]. by intros [? _].
  - destruct H as [Hnil Hmsg]. split; [split; eauto|].
    intros e'. split; [by intros [= <-]|]. intros [_ ->]. by rewrite Hmsg.
Qed.

Lemma handle_running (events : list TaskManager.WorkerEvent)
    (c : TaskManager.Collector) :
  TaskManager.running (foldl TaskManager.handle c events)
  = TaskManager.running c - errorEvents events - exitEvents events.
Proof.
  revert c. induction events as [|e events IH]; intros c.
  - unfold errorEvents, exitEvents. cbn. lia.
  - cbn [foldl]. rewrite IH. unfold errorEvents, exitEvents.
    destruct e; cbn [TaskManager.handle TaskManager.running List.filter length];
      lia.
Qed.

(** X6. A [start] of a fresh manager that gets its threads going.  When
    the loop that creates the threads ends and [start] begins to wait for
    them, the manager is marked running and holds the loaded accounts,
    [totalAccounts] is their number, [activeThreads] is the number of
    threads created, that number is the smaller of the ceiling
    ([maxWorkers], or 5 when it is 0) and the number of accounts (no
    thread for a negative ceiling), and the thread ids are 1, 2, ... in
    the order of creation.  When [start] has handled the events of its
    threads and stops waiting, the manager is no longer marked running,
    its accounts and threads are the same, and [activeThreads] is the
    number of threads created less the exit events and the error events
    handled: a thread that reports an error and then exits is taken off
    twice. *)
Theorem start_bookkeeping (maxWorkers : Z) (privateKeyFile : string)
    (network : ProxyManager.NetworkConfig) (file : KeyManager.File)
    (tm' : TaskManager.t) :
  let tm := TaskManager.constructor privateKeyFile network in
  TaskManager.start Wallet maxWorkers tm file = Ok tm' →
  (TaskManager.isRunning tm' = true
   ∧ TaskManager.accounts tm' = loadedAccounts Wallet tm file
   ∧ TaskManager.totalAccounts tm' = Z.of_nat (length (TaskManager.accounts tm'))
   ∧ TaskManager.activeThreads tm' = Z.of_nat (length (TaskManager.workers tm'))
   ∧ Z.of_nat (length (TaskManager.workers tm'))
     = Z.max 0 (Z.min (Js.orNumber maxWorkers 5)
                  (Z.of_nat (length (TaskManager.accounts tm'))))
   ∧ TaskManager.workerId <$> TaskManager.workers tm'
     = seqZ 1 (Z.of_nat (length (TaskManager.workers tm'))))
  ∧ ∀ events : list TaskManager.WorkerEvent,
      let finished := (TaskManager.awaitWorkers events tm').1 in
      TaskManager.isRunning finished = false
      ∧ TaskManager.accounts finished = TaskManager.accounts tm'
      ∧ TaskManager.workers finished = TaskManager.workers tm'
      ∧ TaskManager.totalAccounts finished = TaskManager.totalAccounts tm'
      ∧ TaskManager.activeThreads finished
        = Z.of_nat (length (TaskManager.workers tm'))
          - exitEvents events - errorEvents events.
Proof.
  intros tm Hstart.
  pose proof (start_outcome maxWorkers privateKeyFile network file) as H.
  cbv zeta in H. fold tm in H. rewrite Hstart in H. destruct H as [_ ->].
  split.
  2:{ intros events finished. subst finished.
      unfold TaskManager.awaitWorkers, spawnAll.
      cbn [fst TaskManager.isRunning TaskManager.accounts TaskManager.workers
           TaskManager.totalAccounts TaskManager.activeThreads app].
      rewrite handle_running. cbn [TaskManager.running].
      rewrite length_imap, length_take. repeat split; lia. }
  unfold spawnAll.
  cbn [TaskManager.isRunning TaskManager.accounts TaskManager.totalAccounts
       TaskManager.activeThreads TaskManager.workers app].
  rewrite length_imap, length_take.
  repeat split; try lia.
  rewrite fmap_imap. unfold compose. cbn [TaskManager.workerId].
  set (l := take _ _).
  rewrite (imap_seq_0 l (λ i, Z.of_nat i + 1)).
  subst l. rewrite length_take. generalize (Z.to_nat
    (Js.orNumber maxWorkers 5
     `min` Z.of_nat (length (loadedAccounts Wallet tm file)))
   `min` length (loadedAccounts Wallet tm file))%nat. intros n.
  apply list_eq. intros i. rewrite list_lookup_fmap.
  destruct (decide (i < n)%nat) as [Hi|Hi].
  - rewrite lookup_seq_lt by done. cbn.
    rewrite lookup_seqZ_lt by lia. f_equal. lia.
  - rewrite lookup_seq_ge by lia. cbn. symmetry.
    apply lookup_seqZ_ge. lia.
Qed.

End StartFacts.

Lemma start_bookkeeping_witness :
  TaskManager.start (λ key, Some ("addr:" +:+ key)) 0
    (TaskManager.constructor "keys.txt" directConnection)
    (KeyManager.Content sampleKeyFile)
  = Ok (spawnAll
          (TaskManager.mk "keys.txt" (ProxyManager.constructor directConnection)
             (loadedAccounts (λ key, Some ("addr:" +:+ key))
                (TaskManager.constructor "keys.txt" directConnection)
                (KeyManager.Content sampleKeyFile))
             [] true 3 0) 3)
  ∧ TaskManager.workerId
      <$> TaskManager.workers
            (spawnAll
               (TaskManager.mk "keys.txt"
                  (ProxyManager.constructor directConnection)
                  (loadedAccounts (λ key, Some ("addr:" +:+ key))
                     (TaskManager.constructor "keys.txt" directConnection)
                     (KeyManager.Content sampleKeyFile))
                  [] true 3 0) 3)
    = [1; 2; 3]
  ∧ TaskManager.activeThreads
      (TaskManager.awaitWorkers
         [ TaskManager.OnExit 0 0; TaskManager.OnError 1;
           TaskManager.OnExit 1 1; TaskManager.OnExit 2 0 ]
         (spawnAll
            (TaskManager.mk "keys.txt"
               (ProxyManager.constructor directConnection)
               (loadedAccounts (λ key, Some ("addr:" +:+ key))
                  (TaskManager.constructor "keys.txt" directConnection)
                  (KeyManager.Content sampleKeyFile))
               [] true 3 0) 3)).1
    = -1.
Proof.
  assert (H : TaskManager.start (λ key, Some ("addr:" +:+ key)) 0
    (TaskManager.constructor "keys.txt" directConnection)
    (KeyManager.Content sampleKeyFile)
  = Ok (spawnAll
          (TaskManager.mk "keys.txt" (ProxyManager.constructor directConnection)
             (loadedAccounts (λ key, Some ("addr:" +:+ key))
                (TaskManager.constructor "keys.txt" directConnection)
                (KeyManager.Content sampleKeyFile))
             [] true 3 0) 3)) by (vm_compute; reflexivity).
  split; [exact H|].
  destruct (start_bookkeeping (λ key, Some ("addr:" +:+ key)) 0 "keys.txt"
    directConnection (KeyManager.Content sampleKeyFile) _ H)
    as ((_ & _ & _ & _ & _ & Hids) & Hend).
  split; [rewrite Hids; vm_compute; reflexivity|].
  destruct (Hend [ TaskManager.OnExit 0 0; TaskManager.OnError 1;
                   TaskManager.OnExit 1 1; TaskManager.OnExit 2 0 ])
    as (_ & _ & _ & _ & Hactive).
  rewrite Hactive. vm_compute. reflexivity.
Defined.

Lemma successCount_cons (r : TaskManager.Collected.t)
    (l : list TaskManager.Collected.t) :
  TaskManager.successCount (r :: l)
  = (if TaskManager.Message.success (TaskManager.Collected.message r)
     then 1 else 0) + TaskManager.successCount l.
Proof.
  unfold TaskManager.successCount. cbn [List.filter].
  destruct (TaskManager.Message.success _); cbn [length]; lia.
Qed.

Lemma failCount_cons (r : TaskManager.Collected.t)
    (l : list TaskManager.Collected.t) :
  TaskManager.failCount (r :: l)
  = (if TaskManager.Message.success (TaskManager.Collected.message r)
     then 0 else 1) + TaskManager.failCount l.
Proof.
  unfold TaskManager.failCount. cbn [List.filter].
  destruct (TaskManager.Message.success _); cbn [negb length]; lia.
Qed.

(** X7. The bookkeeping of the event handlers of [start], over any
    sequence of worker events.  Each message adds one entry to the
    results, with the id of its thread, in the order of arrival;
    [completedTasks] counts the messages that report success;
    [failedTasks] counts the other messages and the error events; the
    number of running threads drops by one for each error event and for
    each exit event (by two for a thread that raises an error and then
    exits); and the success and failure counts of [printResults] add up to
    the number of results. *)
Theorem handlers_account_for_every_event (c : TaskManager.Collector)
    (events : list TaskManager.WorkerEvent) :
  let c' := foldl TaskManager.handle c events in
  TaskManager.results c' = TaskManager.results c ++ collected events
  ∧ TaskManager.completedTasks c'
    = TaskManager.completedTasks c
      + TaskManager.successCount (collected events)
  ∧ TaskManager.failedTasks c'
    = TaskManager.failedTasks c + TaskManager.failCount (collected events)
      + errorEvents events
  ∧ TaskManager.running c'
    = TaskManager.running c - errorEvents events - exitEvents events
  ∧ TaskManager.successCount (collected events)
    + TaskManager.failCount (collected events)
    = Z.of_nat (length (collected events)).
Proof.
  revert c. induction events as [|e events IH]; intros c.
  - cbn. rewrite app_nil_r. unfold errorEvents, exitEvents,
      TaskManager.successCount, TaskManager.failCount. cbn.
    split; [done|lia].
  - cbn [foldl]. destruct (IH (TaskManager.handle c e))
      as (Hr & Hc & Hf & Hrun & Hsum).
    cbv zeta. rewrite Hr, Hc, Hf, Hrun. clear IH Hr Hc Hf Hrun.
    destruct e as [i m|i|i code];
      cbn [TaskManager.handle TaskManager.results TaskManager.completedTasks
           TaskManager.failedTasks TaskManager.running collected omap
           list_omap]; fold (collected events).
    + rewrite successCount_cons, failCount_cons, <- app_assoc.
      cbn [TaskManager.Collected.message length app].
      unfold errorEvents, exitEvents. cbn [List.filter].
      destruct (TaskManager.Message.success m); (split; [done|lia]).
    + unfold errorEvents, exitEvents in *. cbn [List.filter length].
      split; [done|lia].
    + unfold errorEvents, exitEvents in *. cbn [List.filter length].
      split; [done|lia].
Qed.

(** ** HttpClient: the attempts of one request *)

Section AttemptFacts.

Variable P : HttpClient.Platform.
Variable E : HttpClient.Env.
Variable ja3Fingerprints : list string.

Lemma handleRequestError_retryDelay (c : HttpClient.t) (error : Error)
    (options : HttpClient.RequestOptions.t) :
  HttpClient.RequestOptions.retryDelay
    (HttpClient.handleRequestError P c error options).2
  = HttpClient.RequestOptions.retryDelay options.
Proof.
  unfold HttpClient.handleRequestError.
  by destruct (HttpClient.isHeadersFormatError error).
Qed.

Lemma buildRequest_url (c : HttpClient.t) (method url : string)
    (data : option (list (string * string))) (headers : list (string * string))
    (options requestOptions : HttpClient.RequestOptions.t)
    (headersFormat : Js.Value) :
  (HttpClient.buildRequest P c method url data headers options requestOptions
     headersFormat).1
  = requestedUrl P method data url.
Proof.
  unfold HttpClient.buildRequest, requestedUrl.
  destruct data as [fields|]; [|done].
  destruct (String.eqb (Js.toUpperCase method) "GET"); [done|].
  by destruct (_ && _).
Qed.

Lemma backoffs_cons (retryDelay : option Z) (from : Z) (k : nat) :
  backoffs retryDelay from (S k)
  = HttpClient.backoff retryDelay (from + 1) :: backoffs retryDelay (from + 1) k.
Proof.
  unfold backoffs. cbn [seq fmap list_fmap]. f_equal.
  - f_equal. lia.
  - rewrite <- fmap_S_seq, <- list_fmap_compose. apply list_fmap_ext.
    intros _ j _. cbn. f_equal. lia.
Qed.

Lemma iterated_urls_cons (step : string → string) (url : string) (k : nat) :
  (λ j, Nat.iter (S j) step url) <$> seq 0 (S k)
  = step url :: ((λ j, Nat.iter (S j) step (step url)) <$> seq 0 k).
Proof.
  cbn [seq fmap list_fmap]. f_equal.
  rewrite <- fmap_S_seq, <- list_fmap_compose. apply list_fmap_ext.
  intros _ j _. cbn [compose]. by rewrite (Nat.iter_succ_r (S j)).
Qed.

(** One run of the loop of [request], whatever the transport does: the
    attempts go on until one succeeds or the budget of the call is used
    up. *)
Lemma requestLoop_run (method : string)
    (data : option (list (string * string))) (headers : list (string * string))
    (options requestOptions : HttpClient.RequestOptions.t)
    (headersFormat : Js.Value) :
  let m := default 0 (HttpClient.RequestOptions.maxRetries requestOptions) in
  let d := HttpClient.RequestOptions.retryDelay requestOptions in
  ∀ (fuel : nat) retryCount url c w,
    0 ≤ retryCount →
    (Z.to_nat (m - retryCount) < fuel)%nat →
    ∃ (k : nat) r c' w',
      HttpClient.requestLoop P E ja3Fingerprints fuel method data headers
        options requestOptions headersFormat retryCount url c w
      = Some (r, c', w')
      ∧ (k ≤ Z.to_nat (m - retryCount))%nat
      ∧ HttpClient.sends w' = (HttpClient.sends w + k + 1)%nat
      ∧ HttpClient.draws w' = (HttpClient.draws w + k)%nat
      ∧ sleptFor (HttpClient.events w')
        = sleptFor (HttpClient.events w) ++ backoffs d retryCount k
      ∧ sentUrls (HttpClient.events w')
        = sentUrls (HttpClient.events w)
          ++ ((λ j, Nat.iter (S j) (requestedUrl P method data) url)
                <$> seq 0 (S k))
      ∧ HttpClient.cycleTLSClient w'
        = match k with
          | O => HttpClient.cycleTLSClient w
          | S _ => false
          end
      ∧ match r with
        | Ok reply =>
            ∃ u config response,
              HttpClient.cycleTLS E (HttpClient.sends w + k) u config
                (Js.toUpperCase method) = Ok response
              ∧ reply = HttpClient.processResponse P options response
        | Throw error =>
            k = Z.to_nat (m - retryCount)
            ∧ ∃ u config,
                HttpClient.cycleTLS E (HttpClient.sends w + k) u config
                  (Js.toUpperCase method) = Throw error
        end.
Proof.
  intros m d. induction fuel as [|fuel IH]; intros retryCount url c w Hrc Hfuel;
    [lia|].
  cbn [HttpClient.requestLoop].
  pose proof (buildRequest_url c method url data headers options requestOptions
    headersFormat) as Hurl.
  destruct (HttpClient.buildRequest _ _ _ _ _ _ _ _ _) as [url' config].
  cbn [fst] in Hurl. subst url'.
  unfold HttpClient.send.
  destruct (HttpClient.cycleTLS E (HttpClient.sends w) _ config _)
    as [response|error] eqn:Hsend.
  - exists 0%nat. eexists _, _, _. split; [reflexivity|].
    cbn [HttpClient.sends HttpClient.draws HttpClient.events
         HttpClient.cycleTLSClient].
    unfold sleptFor, sentUrls, backoffs. rewrite !omap_app.
    cbn [omap list_omap seq fmap list_fmap Nat.iter nat_rect].
    rewrite !app_nil_r, Nat.add_0_r.
    repeat split; try lia. eauto.
  - pose proof (handleRequestError_maxRetries P c error requestOptions) as Hmax.
    pose proof (handleRequestError_retryDelay c error requestOptions) as Hdel.
    destruct (HttpClient.handleRequestError P c error requestOptions)
      as [c2 fixedOptions].
    cbn [snd] in Hmax, Hdel. rewrite Hmax, Hdel.
    assert (Hmay : HttpClient.mayRetry retryCount
                     (HttpClient.RequestOptions.maxRetries requestOptions)
                   = (retryCount <? m)).
    { subst m. unfold HttpClient.mayRetry.
      destruct (HttpClient.RequestOptions.maxRetries requestOptions); [done|].
      cbn. symmetry. apply Z.ltb_ge. lia. }
    rewrite Hmay. destruct (retryCount <? m) eqn:Hlt.
    + apply Z.ltb_lt in Hlt.
      set (w1 := HttpClient.delay E _ _).
      set (w2 := if HttpClient.cycleTLSClient w1 then _ else w1).
      destruct (HttpClient.getRandomJa3Fingerprint E ja3Fingerprints w2)
        as [fingerprint w3] eqn:Hdraw.
      assert (Hw2 : HttpClient.cycleTLSClient w2 = false
                    ∧ HttpClient.sends w2 = S (HttpClient.sends w)
                    ∧ HttpClient.draws w2 = HttpClient.draws w
                    ∧ sleptFor (HttpClient.events w2)
                      = sleptFor (HttpClient.events w)
                        ++ [HttpClient.backoff d (retryCount + 1)]
                    ∧ sentUrls (HttpClient.events w2)
                      = sentUrls (HttpClient.events w)
                        ++ [requestedUrl P method data url]).
      { subst w2 w1. unfold sleptFor, sentUrls.
        destruct (HttpClient.cycleTLSClient _) eqn:Hc;
          cbn [HttpClient.delay HttpClient.setClient HttpClient.log
               HttpClient.cycleTLSClient HttpClient.sends HttpClient.draws
               HttpClient.events] in *;
          rewrite !omap_app; cbn [omap list_omap];
          rewrite ?app_nil_r, <- ?app_assoc; by repeat split. }
      destruct Hw2 as (Hcl & Hs2 & Hd2 & Hsl2 & Hu2).
      unfold HttpClient.getRandomJa3Fingerprint in Hdraw.
      injection Hdraw as Hfp <-.
      destruct (IH (retryCount + 1) (requestedUrl P method data url)
                  (HttpClient.setFingerprint fingerprint c2)
                  (HttpClient.log (HttpClient.Rotated fingerprint)
                     {| HttpClient.now := HttpClient.now w2;
                        HttpClient.cycleTLSClient := HttpClient.cycleTLSClient w2;
                        HttpClient.sleeps := HttpClient.sleeps w2;
                        HttpClient.draws := S (HttpClient.draws w2);
                        HttpClient.sends := HttpClient.sends w2;
                        HttpClient.events := HttpClient.events w2 |}))
        as (k & r & c' & w' & Hrun & Hk & Hsends & Hdraws & Hslept & Hurls
            & Hclient & Hr); [lia|lia|].
      cbn [HttpClient.log HttpClient.sends HttpClient.draws HttpClient.events
           HttpClient.cycleTLSClient] in Hsends, Hdraws, Hslept, Hurls, Hr,
        Hclient.
      exists (S k), r, c', w'. split; [exact Hrun|].
      split; [lia|]. split; [lia|]. split; [lia|].
      split.
      { rewrite Hslept. unfold sleptFor at 1. rewrite omap_app.
        cbn [omap list_omap]. rewrite app_nil_r.
        fold (sleptFor (HttpClient.events w2)).
        rewrite Hsl2, backoffs_cons, <- app_assoc. done. }
      split.
      { rewrite Hurls. unfold sentUrls at 1. rewrite omap_app.
        cbn [omap list_omap]. rewrite app_nil_r.
        fold (sentUrls (HttpClient.events w2)).
        rewrite Hu2, (iterated_urls_cons _ url (S k)), <- app_assoc. done. }
      split.
      { rewrite Hclient. by destruct k. }
      rewrite Hs2 in Hr.
      replace (HttpClient.sends w + S k)%nat
        with (S (HttpClient.sends w) + k)%nat by lia.
      destruct r as [reply|e]; [exact Hr|].
      destruct Hr as [-> Hr]. split; [lia|exact Hr].
    + apply Z.ltb_ge in Hlt.
      exists 0%nat. eexists _, _, _. split; [reflexivity|].
      cbn [HttpClient.sends HttpClient.draws HttpClient.events
           HttpClient.cycleTLSClient].
      unfold sleptFor, sentUrls, backoffs. rewrite !omap_app.
      cbn [omap list_omap seq fmap list_fmap Nat.iter nat_rect].
      rewrite !app_nil_r, Nat.add_0_r.
      repeat split; try lia. eauto.
Qed.

End AttemptFacts.

Section RequestRunFacts.

Variable P : HttpClient.Platform.
Variable E : HttpClient.Env.
Variable ja3Fingerprints : list string.

(** X8. A request whose rate-limit check passes returns, given fuel above
    the retry budget of the call (the [maxRetries] of the options of the
    call, nothing when absent).  It sends 1 + k times for some k within
    the budget, waits [retryDelay * 2^(j-1)] before retry j and draws one
    fingerprint per retry.  It returns the processed response of its last
    send or, only when the budget is used up, rethrows the error of its
    last send. *)
Theorem request_stops_at_success_or_budget (fuel : nat) (method url : string)
    (data : option (list (string * string))) (headers : list (string * string))
    (options : HttpClient.RequestOptions.t) (c c1 : HttpClient.t)
    (w w1 : HttpClient.World) :
  HttpClient.checkRateLimit E fuel c w = Some (c1, w1) →
  (retryBudget options < fuel)%nat →
  ∃ (k : nat) r c' w',
    HttpClient.request P E ja3Fingerprints fuel method url data headers
      options c w = Some (r, c', w')
    ∧ (k ≤ retryBudget options)%nat
    ∧ HttpClient.sends w' = (HttpClient.sends w1 + k + 1)%nat
    ∧ HttpClient.draws w' = (HttpClient.draws w1 + k)%nat
    ∧ sleptFor (HttpClient.events w')
      = sleptFor (HttpClient.events w1)
        ++ backoffs (HttpClient.RequestOptions.retryDelay options) 0 k
    ∧ match r with
      | Ok reply =>
          ∃ u config response,
            HttpClient.cycleTLS E (HttpClient.sends w1 + k) u config
              (Js.toUpperCase method) = Ok response
            ∧ reply = HttpClient.processResponse P options response
      | Throw error =>
          k = retryBudget options
          ∧ ∃ u config,
              HttpClient.cycleTLS E (HttpClient.sends w1 + k) u config
                (Js.toUpperCase method) = Throw error
      end.
Proof.
  intros Hcheck Hfuel. unfold HttpClient.request. rewrite Hcheck.
  destruct (requestLoop_run P E ja3Fingerprints method data headers options
              (HttpClient.prepareRequestOptions P c options)
              (HttpClient.getHeadersFormatForEndpoint P c1 url)
              fuel 0 url c1 (HttpClient.setClient true w1))
    as (k & r & c' & w' & Hrun & Hk & Hsends & Hdraws & Hslept & _ & _ & Hr).
  { lia. }
  { cbn [HttpClient.prepareRequestOptions HttpClient.RequestOptions.maxRetries].
    unfold retryBudget in Hfuel. by rewrite Z.sub_0_r. }
  cbn [HttpClient.prepareRequestOptions HttpClient.RequestOptions.maxRetries
       HttpClient.RequestOptions.retryDelay HttpClient.setClient
       HttpClient.sends HttpClient.draws HttpClient.events]
    in Hk, Hsends, Hdraws, Hslept, Hr.
  rewrite Z.sub_0_r in Hk, Hr.
  exists k, r, c', w'. by repeat split.
Qed.

(** X9. Each attempt of a request builds its URL from the URL of the
    attempt before it: attempt j asks for [requestedUrl] applied j times to
    the URL of the call.  A retried GET request with data therefore
    carries its query string once more on every retry. *)
Theorem retried_request_rebuilds_url_from_last_attempt (fuel : nat)
    (method url : string) (data : option (list (string * string)))
    (headers : list (string * string)) (options : HttpClient.RequestOptions.t)
    (c c1 : HttpClient.t) (w w1 : HttpClient.World) :
  HttpClient.checkRateLimit E fuel c w = Some (c1, w1) →
  (retryBudget options < fuel)%nat →
  ∃ (k : nat) r c' w',
    HttpClient.request P E ja3Fingerprints fuel method url data headers
      options c w = Some (r, c', w')
    ∧ HttpClient.sends w' = (HttpClient.sends w1 + k + 1)%nat
    ∧ sentUrls (HttpClient.events w')
      = sentUrls (HttpClient.events w1)
        ++ ((λ j, Nat.iter (S j) (requestedUrl P method data) url)
              <$> seq 0 (S k)).
Proof.
  intros Hcheck Hfuel. unfold HttpClient.request. rewrite Hcheck.
  destruct (requestLoop_run P E ja3Fingerprints method data headers options
              (HttpClient.prepareRequestOptions P c options)
              (HttpClient.getHeadersFormatForEndpoint P c1 url)
              fuel 0 url c1 (HttpClient.setClient true w1))
    as (k & r & c' & w' & Hrun & _ & Hsends & _ & _ & Hurls & _).
  { lia. }
  { cbn [HttpClient.prepareRequestOptions HttpClient.RequestOptions.maxRetries].
    unfold retryBudget in Hfuel. by rewrite Z.sub_0_r. }
  exists k, r, c', w'. by repeat split.
Qed.

End RequestRunFacts.

Lemma request_stops_at_success_or_budget_witness :
  ∃ (k : nat) r c' w',
    HttpClient.request plainPlatform exactTimers [] 8 "GET"
      "https://api.example.com/agents" None []
      (HttpClient.RequestOptions.mk None None None None None (Some 3)
         (Some 2000))
      (clientWith 3 20 []) (worldAt 0) = Some (r, c', w')
    ∧ (k ≤ 3)%nat
    ∧ HttpClient.sends w' = (0 + k + 1)%nat
    ∧ HttpClient.draws w' = (0 + k)%nat
    ∧ sleptFor (HttpClient.events w') = [] ++ backoffs (Some 2000) 0 k
    ∧ match r with
      | Ok reply =>
          ∃ u config response,
            HttpClient.cycleTLS exactTimers (0 + k) u config "GET" = Ok response
            ∧ reply
              = HttpClient.processResponse plainPlatform
                  (HttpClient.RequestOptions.mk None None None None None
                     (Some 3) (Some 2000)) response
      | Throw error =>
          k = 3%nat
          ∧ ∃ u config,
              HttpClient.cycleTLS exactTimers (0 + k) u config "GET"
              = Throw error
      end.
Proof.
  exact (request_stops_at_success_or_budget plainPlatform exactTimers [] 8
           "GET" "https://api.example.com/agents" None []
           (HttpClient.RequestOptions.mk None None None None None (Some 3)
              (Some 2000))
           (clientWith 3 20 []) _ (worldAt 0) _ eq_refl ltac:(vm_compute; lia)).
Defined.

Lemma retried_request_rebuilds_url_from_last_attempt_witness :
  ∃ (k : nat) r c' w',
    HttpClient.request plainPlatform exactTimers [] 8 "GET"
      "https://api.example.com/agents" (Some [("page", "2")]) []
      (HttpClient.RequestOptions.mk None None None None None (Some 1)
         (Some 2000))
      (clientWith 3 20 []) (worldAt 0) = Some (r, c', w')
    ∧ HttpClient.sends w' = (0 + k + 1)%nat
    ∧ sentUrls (HttpClient.events w')
      = [] ++ ((λ j, Nat.iter (S j)
                       (requestedUrl plainPlatform "GET" (Some [("page", "2")]))
                       "https://api.example.com/agents")
                 <$> seq 0 (S k)).
Proof.
  exact (retried_request_rebuilds_url_from_last_attempt plainPlatform
           exactTimers [] 8 "GET" "https://api.example.com/agents"
           (Some [("page", "2")]) []
           (HttpClient.RequestOptions.mk None None None None None (Some 1)
              (Some 2000))
           (clientWith 3 20 []) _ (worldAt 0) _ eq_refl ltac:(vm_compute; lia)).
Defined.

(** The run of the witness above, spelled out: the second attempt asks
    for the URL of the first with the query added once more. *)
Example retried_GET_repeats_its_query :
  sentUrls
    (HttpClient.events
       (worldOf
          (HttpClient.request plainPlatform exactTimers [] 8 "GET"
             "https://api.example.com/agents" (Some [("page", "2")]) []
             (HttpClient.RequestOptions.mk None None None None None (Some 1)
                (Some 2000))
             (clientWith 3 20 []) (worldAt 0))))
  = [ "https://api.example.com/agents?page=2";
      "https://api.example.com/agents?page=2&page=2" ].
Proof. vm_compute. reflexivity. Qed.

(** ** HttpClient: the memory of header encodings *)

Section MemoryFacts.

Variable P : HttpClient.Platform.
Variable E : HttpClient.Env.
Variable ja3Fingerprints : list string.

Lemma assign_assign (o : gmap string string) (k v : string) :
  Js.assign (Js.assign o k v) k v = Js.assign o k v.
Proof.
  unfold Js.assign. destruct (String.eqb k "__proto__"); [done|].
  apply insert_insert_eq.
Qed.

Lemma assign_other (o : gmap string string) (k v other : string) :
  other ≠ k → Js.assign o k v !! other = o !! other.
Proof.
  intros Hne. unfold Js.assign. destruct (String.eqb k "__proto__"); [done|].
  by rewrite lookup_insert_ne.
Qed.

Lemma get_assign_other (o : gmap string string) (k v other : string) :
  other ≠ k → Js.get (Js.assign o k v) other = Js.get o other.
Proof. intros Hne. unfold Js.get. by rewrite assign_other. Qed.

Lemma get_assign (o : gmap string string) (k v : string) :
  Js.get (Js.assign o k v) k
  = if String.eqb k "__proto__" then Some (Js.VInherited k)
    else Some (Js.VString v).
Proof.
  unfold Js.get, Js.assign. destruct (String.eqb k "__proto__"); [done|].
  by rewrite lookup_insert_eq.
Qed.

(** What [handleRequestError] leaves in the endpoint memory for the
    request options [requestOptions]. *)
Lemma handleRequestError_memory (c : HttpClient.t) (error : Error)
    (requestOptions : HttpClient.RequestOptions.t) :
  let key :=
    HttpClient.endpointKeyOf (HttpClient.RequestOptions.url requestOptions) in
  let flipped :=
    if bool_decide (HttpClient.RequestOptions.headersFormat requestOptions
                    = Some (Js.VString "string"))
    then "object" else "string" in
  HttpClient.endpointHeadersFormat
    (HttpClient.handleRequestError P c error requestOptions).1
  = (if HttpClient.isHeadersFormatError error
     then Js.assign (HttpClient.endpointHeadersFormat c) key flipped
     else HttpClient.endpointHeadersFormat c)
  ∧ HttpClient.defaultHeadersFormat
      (HttpClient.handleRequestError P c error requestOptions).1
    = HttpClient.defaultHeadersFormat c.
Proof.
  unfold HttpClient.handleRequestError.
  by destruct (HttpClient.isHeadersFormatError error).
Qed.

Lemma requestLoop_memory (fuel : nat) (method : string)
    (data : option (list (string * string))) (headers : list (string * string))
    (options requestOptions : HttpClient.RequestOptions.t)
    (headersFormat : Js.Value) (memory : gmap string string) :
  let key :=
    HttpClient.endpointKeyOf (HttpClient.RequestOptions.url requestOptions) in
  let flipped :=
    if bool_decide (HttpClient.RequestOptions.headersFormat requestOptions
                    = Some (Js.VString "string"))
    then "object" else "string" in
  ∀ retryCount url c w r c' w',
    HttpClient.requestLoop P E ja3Fingerprints fuel method data headers options
      requestOptions headersFormat retryCount url c w = Some (r, c', w') →
    HttpClient.endpointHeadersFormat c = memory
    ∨ HttpClient.endpointHeadersFormat c = Js.assign memory key flipped →
    (HttpClient.endpointHeadersFormat c' = memory
     ∨ HttpClient.endpointHeadersFormat c' = Js.assign memory key flipped)
    ∧ HttpClient.defaultHeadersFormat c' = HttpClient.defaultHeadersFormat c
    ∧ match r with
      | Ok _ => True
      | Throw error =>
          HttpClient.isHeadersFormatError error = true →
          HttpClient.endpointHeadersFormat c' = Js.assign memory key flipped
      end.
Proof.
  intros key flipped.
  induction fuel as [|fuel IH]; intros retryCount url c w r c' w'; [done|].
  cbn [HttpClient.requestLoop].
  destruct (HttpClient.buildRequest _ _ _ _ _ _ _ _ _) as [url' config].
  unfold HttpClient.send.
  destruct (HttpClient.cycleTLS E _ _ _ _) as [response|error].
  { intros [= <- <- <-] Hc. by repeat split. }
  pose proof (handleRequestError_memory c error requestOptions) as [Hm Hd].
  cbv zeta in Hm. fold key flipped in Hm.
  destruct (HttpClient.handleRequestError _ _ _ _) as [c2 fixedOptions].
  cbn [fst] in Hm, Hd.
  assert (Hc2 : ∀ Hc : HttpClient.endpointHeadersFormat c = memory
                       ∨ HttpClient.endpointHeadersFormat c
                         = Js.assign memory key flipped,
    (HttpClient.endpointHeadersFormat c2 = memory
     ∨ HttpClient.endpointHeadersFormat c2 = Js.assign memory key flipped)
    ∧ (HttpClient.isHeadersFormatError error = true →
       HttpClient.endpointHeadersFormat c2 = Js.assign memory key flipped)).
  { intros Hc. rewrite Hm.
    destruct (HttpClient.isHeadersFormatError error).
    - destruct Hc as [-> | ->]; rewrite ?assign_assign; by split; [right|].
    - by split. }
  destruct (HttpClient.mayRetry _ _).
  - intros Hrec Hc. destruct (Hc2 Hc) as [Hc2' _].
    apply IH in Hrec as (H1 & H2 & H3); [|exact Hc2'].
    split; [exact H1|]. split; [|exact H3].
    rewrite H2. cbn [HttpClient.setFingerprint HttpClient.defaultHeadersFormat].
    exact Hd.
  - intros [= <- <- <-] Hc. destruct (Hc2 Hc) as [H1 H2]. by repeat split.
Qed.

Lemma checkRateLimit_memory (fuel : nat) :
  ∀ c w c1 w1,
    HttpClient.checkRateLimit E fuel c w = Some (c1, w1) →
    HttpClient.endpointHeadersFormat c1 = HttpClient.endpointHeadersFormat c
    ∧ HttpClient.defaultHeadersFormat c1 = HttpClient.defaultHeadersFormat c.
Proof.
  induction fuel as [|fuel IH]; intros c w c1 w1; [done|].
  cbn [HttpClient.checkRateLimit].
  destruct (_ =? 0); [by intros [= <- <-]|].
  cbn [HttpClient.setTimestamps HttpClient.options].
  destruct (_ <=? _).
  - intros Hrec. by apply IH in Hrec as [H1 H2].
  - by intros [= <- <-].
Qed.

(** X10. A request writes at most one entry of the endpoint memory,
    however many attempts it makes: the entry under the last segment of
    [options.url] ([default] when the options carry no URL), set to the
    encoding opposite to the one of the prepared options ([object] when
    they say [string], [string] otherwise).  The retries do not flip the
    entry back and forth, a request that ends on a header-encoding error
    has written it, and nothing is written when that segment is
    [__proto__].  Every other entry and the default encoding are left as
    they were. *)
Theorem request_writes_at_most_one_entry (fuel : nat) (method url : string)
    (data : option (list (string * string))) (headers : list (string * string))
    (options : HttpClient.RequestOptions.t) (c c' : HttpClient.t)
    (w w' : HttpClient.World) (r : Result HttpClient.Reply) :
  let key := HttpClient.endpointKeyOf (HttpClient.RequestOptions.url options) in
  let flipped :=
    if bool_decide
         (HttpClient.RequestOptions.headersFormat
            (HttpClient.prepareRequestOptions P c options)
          = Some (Js.VString "string"))
    then "object" else "string" in
  HttpClient.request P E ja3Fingerprints fuel method url data headers options
    c w = Some (r, c', w') →
  (HttpClient.endpointHeadersFormat c' = HttpClient.endpointHeadersFormat c
   ∨ HttpClient.endpointHeadersFormat c'
     = <[key := flipped]> (HttpClient.endpointHeadersFormat c)
       ∧ key ≠ "__proto__")
  ∧ match r with
    | Ok _ => True
    | Throw error =>
        HttpClient.isHeadersFormatError error = true →
        HttpClient.endpointHeadersFormat c'
        = if String.eqb key "__proto__"
          then HttpClient.endpointHeadersFormat c
          else <[key := flipped]> (HttpClient.endpointHeadersFormat c)
    end
  ∧ (∀ other, other ≠ key →
       HttpClient.endpointHeadersFormat c' !! other
       = HttpClient.endpointHeadersFormat c !! other)
  ∧ HttpClient.defaultHeadersFormat c' = HttpClient.defaultHeadersFormat c.
Proof.
  intros key flipped. unfold HttpClient.request.
  destruct (HttpClient.checkRateLimit E fuel c w) as [[c1 w1]|] eqn:Hcheck;
    [|done].
  apply checkRateLimit_memory in Hcheck as [Hmem Hdef].
  intros Hrun.
  apply (requestLoop_memory _ _ _ _ _ _ _ (HttpClient.endpointHeadersFormat c))
    in Hrun as (Hm & Hd & Hr); [|by left].
  cbn [HttpClient.RequestOptions.url HttpClient.prepareRequestOptions] in Hm, Hr.
  fold key flipped in Hm, Hr.
  assert (Hassign : Js.assign (HttpClient.endpointHeadersFormat c) key flipped
    = if String.eqb key "__proto__" then HttpClient.endpointHeadersFormat c
      else <[key := flipped]> (HttpClient.endpointHeadersFormat c)) by done.
  rewrite Hassign in Hm, Hr.
  split; [|split; [|split]].
  - destruct Hm as [Hm|Hm]; [by left|].
    destruct (String.eqb_spec key "__proto__"); [by left|by right].
  - destruct r as [reply|error]; [done|exact Hr].
  - intros other Hne. destruct Hm as [-> | ->]; [done|].
    destruct (String.eqb key "__proto__"); [done|].
    by rewrite lookup_insert_ne.
  - by rewrite Hd.
Qed.

(** X11. [getHeadersFormatForEndpoint] after
    [updateHeadersFormatForEndpoint] on the same URL gives the registered
    format (the default when the registered format is the empty string),
    unless the endpoint key of the URL is [__proto__]: then nothing is
    stored and the lookup yields the prototype object.  For a URL without
    endpoint key nothing is registered either.  A URL whose endpoint key
    names a member of [Object.prototype] and has no entry of its own gets
    that member, not the default.  The formats of URLs with another
    endpoint key, the client options and the timestamps are not
    affected. *)
Theorem updateHeadersFormat_round_trip (c : HttpClient.t)
    (url format : string) :
  let key := HttpClient.getEndpointKey P url in
  let c' := HttpClient.updateHeadersFormatForEndpoint P c url format in
  (if Js.truthy key
   then HttpClient.getHeadersFormatForEndpoint P c' url
        = (if String.eqb key "__proto__" then Js.VInherited "__proto__"
           else if Js.truthy format then Js.VString format
           else Js.VString (HttpClient.defaultHeadersFormat c))
   else c' = c)
  ∧ (key = "__proto__" → c' = c)
  ∧ (∀ url',
       HttpClient.getEndpointKey P url' ≠ key →
       HttpClient.getHeadersFormatForEndpoint P c' url'
       = HttpClient.getHeadersFormatForEndpoint P c url')
  ∧ (∀ url',
       HttpClient.getEndpointKey P url' ∈ Js.objectPrototype →
       HttpClient.endpointHeadersFormat c !! HttpClient.getEndpointKey P url'
       = None →
       HttpClient.getHeadersFormatForEndpoint P c url'
       = Js.VInherited (HttpClient.getEndpointKey P url'))
  ∧ HttpClient.options c' = HttpClient.options c
  ∧ HttpClient.requestTimestamps c' = HttpClient.requestTimestamps c.
Proof.
  intros key c'. subst c'.
  unfold HttpClient.updateHeadersFormatForEndpoint,
    HttpClient.getHeadersFormatForEndpoint. fold key.
  split; [|split; [|split; [|split]]].
  - destruct (Js.truthy key) eqn:Hkey; [|done].
    cbn [HttpClient.endpointHeadersFormat HttpClient.defaultHeadersFormat].
    rewrite get_assign.
    destruct (String.eqb key "__proto__") eqn:Hp.
    + apply String.eqb_eq in Hp. by rewrite Hp.
    + cbn [Js.truthyValue andb]. by destruct (Js.truthy format).
  - intros ->. cbn [Js.truthy String.eqb Ascii.eqb Bool.eqb negb].
    unfold Js.assign. cbn [String.eqb Ascii.eqb Bool.eqb]. by destruct c.
  - intros url' Hne. destruct (Js.truthy key); [|done].
    cbn [HttpClient.endpointHeadersFormat HttpClient.defaultHeadersFormat].
    by rewrite get_assign_other.
  - intros url' Hin Hnone. unfold Js.get. rewrite Hnone.
    rewrite bool_decide_eq_true_2 by exact Hin.
    destruct (String.eqb (HttpClient.getEndpointKey P url') "__proto__");
      cbn [Js.truthyValue].
    + rewrite andb_true_r.
      destruct (Js.truthy _) eqn:Ht; [done|].
      apply negb_false_iff, String.eqb_eq in Ht. rewrite Ht in Hin.
      unfold Js.objectPrototype in Hin. set_solver.
    + rewrite andb_true_r.
      destruct (Js.truthy _) eqn:Ht; [done|].
      apply negb_false_iff, String.eqb_eq in Ht. rewrite Ht in Hin.
      unfold Js.objectPrototype in Hin. set_solver.
  - by destruct (Js.truthy key).
Qed.

Lemma checkRateLimit_frame (fuel : nat) :
  ∀ c w c1 w1,
    HttpClient.checkRateLimit E fuel c w = Some (c1, w1) →
    HttpClient.endpointHeadersFormat c1 = HttpClient.endpointHeadersFormat c
    ∧ HttpClient.defaultHeadersFormat c1 = HttpClient.defaultHeadersFormat c
    ∧ HttpClient.options c1 = HttpClient.options c
    ∧ sentFormats (HttpClient.events w1) = sentFormats (HttpClient.events w)
    ∧ HttpClient.sends w1 = HttpClient.sends w
    ∧ HttpClient.draws w1 = HttpClient.draws w.
Proof.
  induction fuel as [|fuel IH]; intros c w c1 w1; [done|].
  cbn [HttpClient.checkRateLimit].
  destruct (_ =? 0); [by intros [= <- <-]|].
  cbn [HttpClient.setTimestamps HttpClient.options].
  destruct (_ <=? _).
  - intros Hrec. apply IH in Hrec as (H1 & H2 & H3 & H4 & H5 & H6).
    cbn [HttpClient.setTimestamps HttpClient.endpointHeadersFormat
         HttpClient.defaultHeadersFormat HttpClient.options HttpClient.delay
         HttpClient.events HttpClient.sends HttpClient.draws] in *.
    repeat split; try done.
    rewrite H4. unfold sentFormats. rewrite omap_app. cbn. by rewrite app_nil_r.
  - by intros [= <- <-].
Qed.

(** X12. A format registered for a URL with
    [updateHeadersFormatForEndpoint] is the format of every attempt of the
    next request to that URL, provided the endpoint key of the URL is not
    [__proto__] (under which nothing can be registered): each send carries
    structured headers when the format is [object] and flattened ones
    otherwise. *)
Theorem registered_format_is_sent (fuel : nat) (method url format : string)
    (data : option (list (string * string))) (headers : list (string * string))
    (options : HttpClient.RequestOptions.t) (c c' : HttpClient.t)
    (w w' : HttpClient.World) (r : Result HttpClient.Reply) :
  Js.truthy (HttpClient.getEndpointKey P url) = true →
  HttpClient.getEndpointKey P url ≠ "__proto__" →
  Js.truthy format = true →
  HttpClient.request P E ja3Fingerprints fuel method url data headers options
    (HttpClient.updateHeadersFormatForEndpoint P c url format) w
  = Some (r, c', w') →
  ∃ sent,
    sentFormats (HttpClient.events w')
    = sentFormats (HttpClient.events w) ++ sent
    ∧ Forall (λ f, f = if String.eqb format "object"
                       then "object" else "string") sent.
Proof.
  intros Hkey Hproto Hformat. unfold HttpClient.request.
  destruct (HttpClient.checkRateLimit E fuel _ w) as [[c1 w1]|] eqn:Hcheck;
    [|done].
  apply checkRateLimit_frame in Hcheck as (Hmem & Hdef & _ & Hsent & _).
  intros Hrun. apply requestLoop_keeps_format in Hrun as (sent & Hs & Hall).
  cbn [HttpClient.setClient HttpClient.events] in Hs.
  exists sent. split; [by rewrite Hs, Hsent|].
  assert (Hget : HttpClient.getHeadersFormatForEndpoint P c1 url
                 = Js.VString format).
  { unfold HttpClient.getHeadersFormatForEndpoint. rewrite Hmem.
    unfold HttpClient.updateHeadersFormatForEndpoint. rewrite Hkey.
    cbn [HttpClient.endpointHeadersFormat]. rewrite get_assign.
    apply String.eqb_neq in Hproto. rewrite Hproto.
    cbn [Js.truthyValue andb]. by rewrite ?Hkey, Hformat. }
  by rewrite Hget in Hall.
Qed.

End MemoryFacts.

Lemma request_writes_at_most_one_entry_witness :
  ∃ error c' w',
    HttpClient.request plainPlatform stringHeadersOnly [] 8 "GET" balancesUrl
      None []
      (HttpClient.RequestOptions.mk (Some balancesUrl) None None None None
         (Some 3) (Some 1000))
      (clientWith 3 20 []) (worldAt 0) = Some (Throw error, c', w')
    ∧ HttpClient.sends w' = 4%nat
    ∧ HttpClient.endpointHeadersFormat c' = {[ "balances" := "string" ]}.
Proof.
  destruct (HttpClient.request plainPlatform stringHeadersOnly [] 8 "GET"
              balancesUrl None []
              (HttpClient.RequestOptions.mk (Some balancesUrl) None None None
                 None (Some 3) (Some 1000))
              (clientWith 3 20 []) (worldAt 0))
    as [[[[reply|error] c'] w']|] eqn:Hrun;
    [vm_compute in Hrun; discriminate Hrun| |vm_compute in Hrun; discriminate Hrun].
  destruct (request_writes_at_most_one_entry plainPlatform stringHeadersOnly
              [] 8 "GET" balancesUrl None []
              (HttpClient.RequestOptions.mk (Some balancesUrl) None None None
                 None (Some 3) (Some 1000))
              (clientWith 3 20 []) c' (worldAt 0) w' (Throw error) Hrun)
    as (_ & Hwritten & _).
  exists error, c', w'. split; [reflexivity|].
  assert (Herr : HttpClient.isHeadersFormatError error = true
                 ∧ HttpClient.sends w' = 4%nat).
  { vm_compute in Hrun. injection Hrun as <- _ <-. by vm_compute. }
  destruct Herr as [Herr Hsends]. split; [exact Hsends|].
  rewrite (Hwritten Herr). reflexivity.
Defined.

Lemma registered_format_is_sent_witness :
  Js.truthy (HttpClient.getEndpointKey plainPlatform balancesUrl) = true
  ∧ HttpClient.getEndpointKey plainPlatform balancesUrl ≠ "__proto__"
  ∧ Js.truthy "string" = true
  ∧ outcomeOf
      (HttpClient.request plainPlatform stringHeadersOnly [] 4 "GET"
         balancesUrl None [] HttpClient.RequestOptions.empty
         (HttpClient.updateHeadersFormatForEndpoint plainPlatform
            (clientWith 3 20 []) balancesUrl "string") (worldAt 0))
    = Some (Ok (HttpClient.mkReply 200 "OK" [] (HttpClient.DText "ok")))
  ∧ ∃ sent,
      sentFormats
        (HttpClient.events
           (worldOf
              (HttpClient.request plainPlatform stringHeadersOnly [] 4 "GET"
                 balancesUrl None [] HttpClient.RequestOptions.empty
                 (HttpClient.updateHeadersFormatForEndpoint plainPlatform
                    (clientWith 3 20 []) balancesUrl "string") (worldAt 0))))
      = sentFormats (HttpClient.events (worldAt 0)) ++ sent
      ∧ Forall (λ f, f = if String.eqb "string" "object"
                         then "object" else "string") sent.
Proof.
  split; [reflexivity|]. split; [vm_compute; discriminate|].
  split; [reflexivity|]. split; [vm_compute; reflexivity|].
  destruct (HttpClient.request plainPlatform stringHeadersOnly [] 4 "GET"
              balancesUrl None [] HttpClient.RequestOptions.empty
              (HttpClient.updateHeadersFormatForEndpoint plainPlatform
                 (clientWith 3 20 []) balancesUrl "string") (worldAt 0))
    as [[[r c'] w']|] eqn:Hrun; [|vm_compute in Hrun; discriminate Hrun].
  exact (registered_format_is_sent plainPlatform stringHeadersOnly [] 4 "GET"
           balancesUrl "string" None [] HttpClient.RequestOptions.empty
           (clientWith 3 20 []) c' (worldAt 0) w' r eq_refl
           ltac:(vm_compute; discriminate) eq_refl Hrun).
Defined.

(** ** HttpClient: the rate limiter in general *)

Section WindowFacts.

Variable E : HttpClient.Env.

(** X13. When the rate-limit check returns on a client limited to R ≥ 1
    requests, with a clock that does not run backwards: every stored
    timestamp is less than 60 s old, at most R timestamps are stored, the
    last one is the time of the return, and if the window had room at the
    call the world is as it was, so the call did not sleep. *)
Theorem checkRateLimit_keeps_window_bounded (fuel : nat) (c c' : HttpClient.t)
    (w w' : HttpClient.World) :
  clockMonotone E →
  0 < HttpClient.Options.rateLimit (HttpClient.options c) →
  HttpClient.checkRateLimit E fuel c w = Some (c', w') →
  Forall (λ t, HttpClient.now w' - t < 60000) (HttpClient.requestTimestamps c')
  ∧ Z.of_nat (length (HttpClient.requestTimestamps c'))
    ≤ HttpClient.Options.rateLimit (HttpClient.options c)
  ∧ List.last (HttpClient.requestTimestamps c') 0 = HttpClient.now w'
  ∧ (Z.of_nat
       (length (List.filter (HttpClient.inWindow (HttpClient.now w))
                  (HttpClient.requestTimestamps c)))
     < HttpClient.Options.rateLimit (HttpClient.options c) →
     w' = w).
Proof.
  intros Hmono HR Hret.
  pose proof Hret as Hret'.
  apply checkRateLimit_returns_from_a_check in Hret'; [|done|lia].
  destruct Hret' as (_ & _ & Hts & Hroom & _).
  split; [|split; [|split]].
  - rewrite Hts. apply Forall_app. split.
    + apply Forall_forall. intros t Ht.
      apply list_elem_of_In, List.filter_In in Ht as [_ Ht].
      unfold HttpClient.inWindow in Ht. by apply Z.ltb_lt in Ht.
    + repeat constructor. lia.
  - rewrite Hts, length_app. cbn [length]. lia.
  - rewrite Hts. by rewrite List.last_last.
  - intros Hfree. destruct fuel as [|fuel]; [done|].
    cbn [HttpClient.checkRateLimit] in Hret.
    replace (_ =? 0) with false in Hret by lia.
    cbn [HttpClient.setTimestamps HttpClient.options] in Hret.
    replace (_ <=? _) with false in Hret by lia.
    by injection Hret as _ <-.
Qed.

(** X14. A rate limit of 0 switches the check off: it returns at once and
    changes nothing.  A negative rate limit blocks for ever: the check
    returns for no amount of fuel. *)
Theorem checkRateLimit_off_or_blocked (fuel : nat) (c : HttpClient.t)
    (w : HttpClient.World) :
  let R := HttpClient.Options.rateLimit (HttpClient.options c) in
  (R = 0 → HttpClient.checkRateLimit E (S fuel) c w = Some (c, w))
  ∧ (R < 0 → HttpClient.checkRateLimit E fuel c w = None).
Proof.
  intros R. subst R. split.
  - intros H0. cbn [HttpClient.checkRateLimit]. by rewrite H0.
  - intros Hneg. revert c w Hneg.
    induction fuel as [|fuel IH]; intros c w Hneg; [done|].
    cbn [HttpClient.checkRateLimit].
    replace (_ =? 0) with false by lia.
    cbn [HttpClient.setTimestamps HttpClient.options].
    destruct (_ <=? _) eqn:Hle; [by apply IH|].
    apply Z.leb_gt in Hle. lia.
Qed.

End WindowFacts.

Lemma checkRateLimit_keeps_window_bounded_witness :
  0 < 2
  ∧ HttpClient.checkRateLimit exactTimers 3 (clientWith 3 2 [0; 500])
      (worldAt 1000)
    = Some (clientWith 3 2 [500; 60000],
            HttpClient.mkWorld 60000 false 1 0 0 [HttpClient.Slept (Some 59000)])
  ∧ Forall (λ t, 60000 - t < 60000) [500; 60000].
Proof.
  split; [lia|].
  assert (H : HttpClient.checkRateLimit exactTimers 3 (clientWith 3 2 [0; 500])
                (worldAt 1000)
              = Some (clientWith 3 2 [500; 60000],
                      HttpClient.mkWorld 60000 false 1 0 0
                        [HttpClient.Slept (Some 59000)]))
    by (vm_compute; reflexivity).
  split; [exact H|].
  refine (proj1 (checkRateLimit_keeps_window_bounded exactTimers 3 _ _ _ _
                   _ _ H)).
  - intros k ms. etrans; [|apply Z.le_max_l]. lia.
  - cbn. lia.
Defined.

(** ** HttpClient: what the rate limiter counts *)

Section TimestampFacts.

Variable P : HttpClient.Platform.
Variable E : HttpClient.Env.
Variable ja3Fingerprints : list string.

Lemma handleRequestError_timestamps (c : HttpClient.t) (error : Error)
    (options : HttpClient.RequestOptions.t) :
  HttpClient.requestTimestamps (HttpClient.handleRequestError P c error options).1
  = HttpClient.requestTimestamps c.
Proof.
  unfold HttpClient.handleRequestError.
  by destruct (HttpClient.isHeadersFormatError error).
Qed.

Lemma requestLoop_timestamps (method : string)
    (data : option (list (string * string))) (headers : list (string * string))
    (options requestOptions : HttpClient.RequestOptions.t)
    (headersFormat : Js.Value) :
  ∀ (fuel : nat) retryCount url c w r c' w',
    HttpClient.requestLoop P E ja3Fingerprints fuel method data headers options
      requestOptions headersFormat retryCount url c w = Some (r, c', w') →
    HttpClient.requestTimestamps c' = HttpClient.requestTimestamps c
    ∧ (HttpClient.sends w < HttpClient.sends w')%nat.
Proof.
  induction fuel as [|fuel IH]; intros retryCount url c w r c' w'; [done|].
  cbn [HttpClient.requestLoop].
  destruct (HttpClient.buildRequest _ _ _ _ _ _ _ _ _) as [url' config].
  unfold HttpClient.send.
  destruct (HttpClient.cycleTLS E _ _ _ _) as [response|error].
  - intros [= <- <- <-]. cbn. split; [done|lia].
  - pose proof (handleRequestError_timestamps c error requestOptions) as Hts.
    destruct (HttpClient.handleRequestError P c error requestOptions)
      as [c2 fixedOptions]. cbn [fst] in Hts.
    destruct (HttpClient.mayRetry _ _).
    + destruct (HttpClient.getRandomJa3Fingerprint E ja3Fingerprints _)
        as [fingerprint w3] eqn:Hdraw.
      intros Hrec. apply IH in Hrec as [Hc Hs].
      cbn [HttpClient.setFingerprint HttpClient.requestTimestamps] in Hc.
      split; [by rewrite Hc|].
      unfold HttpClient.getRandomJa3Fingerprint in Hdraw.
      injection Hdraw as _ <-.
      revert Hs. clear.
      destruct (HttpClient.cycleTLSClient _);
        cbn [HttpClient.log HttpClient.setClient HttpClient.delay
             HttpClient.sends]; lia.
    + intros [= <- <- <-]. cbn. split; [done|lia].
Qed.

(** X27. The rate limiter counts calls of [request], not sends.  On a
    limited client whose clock does not run backwards, a request that
    returns has sent at least once, and the stored timestamps are those of
    its rate-limit check: the timestamps still in the window at the time
    of the check, and that time; the attempts of the loop, however many,
    add none. *)
Theorem rate_limit_counts_calls_not_attempts (fuel : nat)
    (method url : string) (data : option (list (string * string)))
    (headers : list (string * string)) (options : HttpClient.RequestOptions.t)
    (c c1 c' : HttpClient.t) (w w1 w' : HttpClient.World)
    (r : Result HttpClient.Reply) :
  clockMonotone E →
  HttpClient.Options.rateLimit (HttpClient.options c) ≠ 0 →
  HttpClient.checkRateLimit E fuel c w = Some (c1, w1) →
  HttpClient.request P E ja3Fingerprints fuel method url data headers options
    c w = Some (r, c', w') →
  (HttpClient.sends w1 < HttpClient.sends w')%nat
  ∧ HttpClient.requestTimestamps c' = HttpClient.requestTimestamps c1
  ∧ HttpClient.requestTimestamps c'
    = List.filter (HttpClient.inWindow (HttpClient.now w1))
        (HttpClient.requestTimestamps c)
      ++ [HttpClient.now w1].
Proof.
  intros Hmono HR Hcheck. unfold HttpClient.request. rewrite Hcheck.
  intros Hrun. apply requestLoop_timestamps in Hrun as [Hts Hsends].
  cbn [HttpClient.setClient HttpClient.sends] in Hsends.
  split; [exact Hsends|]. split; [exact Hts|]. rewrite Hts.
  by apply checkRateLimit_returns_from_a_check in Hcheck
    as (_ & _ & Hnew & _).
Qed.

End TimestampFacts.

Lemma rate_limit_counts_calls_not_attempts_witness :
  ∃ r c' w',
    HttpClient.request plainPlatform exactTimers [] 8 "GET"
      "https://api.example.com/agents" None []
      (HttpClient.RequestOptions.mk None None None None None (Some 3)
         (Some 2000))
      (clientWith 3 20 [100]) (worldAt 1000) = Some (r, c', w')
    ∧ HttpClient.sends w' = 4%nat
    ∧ HttpClient.requestTimestamps c' = [100; 1000].
Proof.
  destruct (HttpClient.request plainPlatform exactTimers [] 8 "GET"
              "https://api.example.com/agents" None []
              (HttpClient.RequestOptions.mk None None None None None (Some 3)
                 (Some 2000))
              (clientWith 3 20 [100]) (worldAt 1000))
    as [[[r c'] w']|] eqn:Hrun; [|vm_compute in Hrun; discriminate Hrun].
  exists r, c', w'. split; [reflexivity|].
  assert (Hmono : clockMonotone exactTimers).
  { intros k ms. etrans; [|apply Z.le_max_l]. lia. }
  destruct (rate_limit_counts_calls_not_attempts plainPlatform exactTimers []
              8 "GET" "https://api.example.com/agents" None []
              (HttpClient.RequestOptions.mk None None None None None (Some 3)
                 (Some 2000))
              (clientWith 3 20 [100]) _ c' (worldAt 1000) _ w' r Hmono
              ltac:(vm_compute; discriminate) eq_refl Hrun)
    as (_ & _ & Hts).
  split; [|rewrite Hts; vm_compute; reflexivity].
  vm_compute in Hrun. by injection Hrun as _ _ <-.
Defined.

(** ** HttpClient: the headers of a request *)

Lemma getProp_setProp (o : list (string * string)) (k v k' : string) :
  Js.getProp (Js.setProp o k v) k'
  = if String.eqb k k' then Some v else Js.getProp o k'.
Proof.
  induction o as [|[k0 v0] o IH]; cbn [Js.setProp Js.getProp]; [done|].
  destruct (String.eqb k0 k) eqn:H0; cbn [Js.getProp].
  - apply String.eqb_eq in H0. subst k0.
    by destruct (String.eqb k k').
  - rewrite IH. destruct (String.eqb k0 k') eqn:H1; [|done].
    apply String.eqb_eq in H1. subst k0.
    rewrite String.eqb_sym in H0. by rewrite H0.
Qed.

Lemma getProp_app (a b : list (string * string)) (k : string) :
  Js.getProp (a ++ b) k
  = match Js.getProp a k with
    | Some v => Some v
    | None => Js.getProp b k
    end.
Proof.
  induction a as [|[k0 v0] a IH]; cbn [app Js.getProp]; [done|].
  by destruct (String.eqb k0 k).
Qed.

Lemma getProp_spread (a b : list (string * string)) (k : string) :
  Js.getProp (Js.spread a b) k
  = match Js.getProp (rev b) k with
    | Some v => Some v
    | None => Js.getProp a k
    end.
Proof.
  unfold Js.spread. revert a.
  induction b as [|[k0 v0] b IH]; intros a; cbn [fold_left rev]; [done|].
  rewrite IH, getProp_app, getProp_setProp. cbn [fst snd Js.getProp].
  destruct (Js.getProp (rev b) k); [done|].
  by destruct (String.eqb k0 k).
Qed.

(** X15. The headers of a request sent in object format: a header given
    by the caller wins over the default of the same name, the defaults
    fill in the rest, and [Content-Type] is set to [application/json]
    exactly when a body is sent and the merged headers have no
    [Content-Type]. *)
Theorem caller_headers_override_defaults (P : HttpClient.Platform)
    (c : HttpClient.t) (method url : string)
    (data : option (list (string * string))) (headers : list (string * string))
    (options requestOptions : HttpClient.RequestOptions.t) :
  let config :=
    (HttpClient.buildRequest P c method url data headers options requestOptions
       "object").2 in
  let merged (k : string) :=
    match Js.getProp (rev headers) k with
    | Some v => Some v
    | None => Js.getProp HttpClient.defaultHeaders k
    end in
  ∃ fields,
    HttpClient.rc_headers config = HttpClient.HObject fields
    ∧ (∀ k, k ≠ "Content-Type" → Js.getProp fields k = merged k)
    ∧ Js.getProp fields "Content-Type"
      = match HttpClient.rc_body config with
        | Some _ =>
            if Js.truthyField (merged "Content-Type")
            then merged "Content-Type" else Some "application/json"
        | None => merged "Content-Type"
        end.
Proof.
  intros config merged. subst config. unfold HttpClient.buildRequest.
  cbn [String.eqb Ascii.eqb Bool.eqb andb].
  assert (Hm : ∀ k, Js.getProp (Js.spread HttpClient.defaultHeaders headers) k
                    = merged k) by (intros k; apply getProp_spread).
  destruct data as [fields|].
  - destruct (String.eqb (Js.toUpperCase method) "GET").
    + cbn [snd HttpClient.rc_headers HttpClient.rc_body]. eauto.
    + rewrite Hm.
      destruct (Js.truthyField (merged "Content-Type")) eqn:Hct;
        cbn [andb].
      * destruct (Js.includes _ _);
          cbn [snd HttpClient.rc_headers HttpClient.rc_body];
          eexists; (split; [reflexivity|]); rewrite ?Hct; eauto.
      * cbn [snd HttpClient.rc_headers HttpClient.rc_body].
        eexists. split; [reflexivity|].
        split.
        -- intros k Hk. rewrite getProp_setProp, Hm.
           destruct (String.eqb "Content-Type" k) eqn:He; [|done].
           apply String.eqb_eq in He. by subst k.
        -- by rewrite getProp_setProp.
  - cbn [snd HttpClient.rc_headers HttpClient.rc_body]. eauto.
Qed.

(** ** Worker: how a run ends and what it counts *)

Lemma recordedResults_app (l k : list Worker.Event) :
  recordedResults (l ++ k) = recordedResults l ++ recordedResults k.
Proof. unfold recordedResults. apply omap_app. Qed.

Lemma recorded_nil_results (events : list Worker.Event) :
  recorded events = [] → recordedResults events = [].
Proof.
  induction events as [|e events IH]; [done|].
  destruct e; cbn; try exact IH. done.
Qed.

Section SummaryFacts.

Variable config : Worker.Config.
Variable E : Worker.Env.

Lemma runTasks_results (fuel : nat) (tasksToExecute : list string) :
  ∀ rest taskResults w taskResults' allTasksSuccessful w',
    Worker.runTasks config E fuel tasksToExecute rest taskResults w
    = Some (taskResults', allTasksSuccessful, w') →
    ∃ events,
      after w events w'
      ∧ allTasksSuccessful
        = forallb (λ r, negb (halting config r)) (recordedResults events)
      ∧ (∀ rs r, recordedResults events = rs ++ [r] →
                 forallb (λ r, negb (halting config r)) rs = true)
      ∧ (allTasksSuccessful = true → recorded events = rest).
Proof.
  induction rest as [|taskType rest IH];
    intros taskResults w taskResults' ok w'; cbn [Worker.runTasks].
  { intros [= <- <- <-]. exists []. split; [unfold after; by rewrite app_nil_r|].
    split; [done|]. split; [|done]. intros [|? ?] r; done. }
  destruct (Worker.executeTask _ _ _ _ _ _ _) as [[result w1]|] eqn:Hexec;
    [|done].
  apply executeTask_events in Hexec as (ev1 & Hev1 & _ & Hrec1); [|done].
  pose proof (recorded_nil_results _ Hrec1) as Hres1.
  set (w2 := Worker.emit (Worker.Recorded taskType result) w1).
  assert (Hafter : after w (ev1 ++ [Worker.Recorded taskType result]) w2).
  { eapply after_trans; [exact Hev1|done]. }
  assert (Hres : recordedResults (ev1 ++ [Worker.Recorded taskType result])
                 = [result]).
  { by rewrite recordedResults_app, Hres1. }
  assert (Hstop : halting config result = true →
    ∃ events,
      after w events w2
      ∧ false = forallb (λ r, negb (halting config r)) (recordedResults events)
      ∧ (∀ rs r, recordedResults events = rs ++ [r] →
                 forallb (λ r, negb (halting config r)) rs = true)
      ∧ (false = true → recorded events = taskType :: rest)).
  { intros Hh. eexists. split; [exact Hafter|]. rewrite Hres. cbn.
    rewrite Hh. split; [done|]. split; [|done].
    intros [|? [|? ?]] r; done. }
  unfold halting in Hstop.
  destruct (Worker.fatalError result) eqn:Hfatal.
  { intros [= <- <- <-]. by apply Hstop. }
  destruct (negb (Worker.success result) && Worker.stopOnFailure config)
    eqn:Hfail.
  { intros [= <- <- <-]. by apply Hstop. }
  clear Hstop.
  destruct (pace_quiet config E tasksToExecute taskType w2)
    as (evp & Hevp & _ & Hqp).
  pose proof (recorded_nil_results _ Hqp) as Hresp.
  intros Hloop.
  apply IH in Hloop as (evl & Hafterl & Hok & Hinit & Hall).
  exists ((ev1 ++ [Worker.Recorded taskType result]) ++ evp ++ evl).
  split.
  { eapply after_trans; [exact Hafter|]. eapply after_trans; done. }
  rewrite !recordedResults_app, Hres1, Hresp.
  cbn [recordedResults omap list_omap app forallb].
  fold (recordedResults evl).
  unfold halting at 1. rewrite Hfatal, Hfail. cbn [orb negb andb].
  split; [exact Hok|]. split.
  - intros rs r Heq. destruct rs as [|r0 rs].
    + done.
    + injection Heq as <- Heq. cbn [forallb]. unfold halting at 1.
      rewrite Hfatal, Hfail. by apply Hinit in Heq.
  - intros Htrue. rewrite !recorded_app, Hrec1, Hqp. cbn. f_equal.
    by apply Hall.
Qed.

(** X16. A run given enough fuel ends with a summary whose [success] flag
    tells whether the loop ran to its end: the flag is true exactly when
    no recorded result is fatal or, under [stopOnFailure], failed; every
    recorded result but the last is of that harmless kind; and when the
    flag is true a result was recorded for every task of the sequence.  A
    failed task alone does not make the flag false. *)
Theorem summary_success_means_loop_completed (fuel : nat) (w : Worker.t) :
  let tasksToExecute :=
    default ["sign"; "createEvent"] (Worker.sequence config) in
  (Z.to_nat (Js.orNumber (Worker.maxRetries config) 3) < fuel)%nat →
  ∃ summary w' events,
    Worker.executeAllTasks config E fuel w = Some (summary, w')
    ∧ Worker.trace w' = Worker.trace w ++ events
    ∧ Worker.summary_success summary
      = forallb (λ r, negb (halting config r)) (recordedResults events)
    ∧ (∀ rs r, recordedResults events = rs ++ [r] →
               forallb (λ r, negb (halting config r)) rs = true)
    ∧ (Worker.summary_success summary = true →
       recorded events = tasksToExecute).
Proof.
  intros tasksToExecute Hfuel. unfold Worker.executeAllTasks.
  fold tasksToExecute.
  destruct (runTasks_total config E fuel tasksToExecute Hfuel tasksToExecute ∅
              (Worker.delay (Worker.initialDelay w) w))
    as [[[m ok] w1] Hrun].
  rewrite Hrun.
  apply runTasks_results in Hrun as (evs & Hafter & Hok & Hinit & Hall).
  exists (Worker.mkSummary ok m (Worker.metrics w1)),
    (Worker.emit Worker.Closed w1),
    ([Worker.Slept (Worker.initialDelay w)] ++ evs ++ [Worker.Closed]).
  split; [done|]. split.
  { cbn [Worker.emit Worker.trace]. unfold after in Hafter. rewrite Hafter.
    cbn. by rewrite <- !app_assoc. }
  cbn [Worker.summary_success].
  rewrite !recordedResults_app. cbn [recordedResults omap list_omap app].
  rewrite app_nil_r. split; [exact Hok|]. split; [exact Hinit|].
  intros Htrue.
  change (recorded (evs ++ [Worker.Closed]) = tasksToExecute).
  rewrite recorded_app. cbn [recorded omap list_omap].
  rewrite app_nil_r. by apply Hall.
Qed.

End SummaryFacts.

Lemma summary_success_means_loop_completed_witness :
  ∃ summary w' events,
    Worker.executeAllTasks (configWith 5 false ["sign"; "createEvent"])
      signFails 4 (Worker.constructor 1000) = Some (summary, w')
    ∧ Worker.trace w' = Worker.trace (Worker.constructor 1000) ++ events
    ∧ Worker.summary_success summary = true
    ∧ Worker.success <$> recordedResults events = [false; true].
Proof.
  destruct (summary_success_means_loop_completed
              (configWith 5 false ["sign"; "createEvent"]) signFails 4
              (Worker.constructor 1000) ltac:(vm_compute; lia))
    as (summary & w' & events & Hrun & Htrace & _).
  exists summary, w', events. split; [exact Hrun|]. split; [exact Htrace|].
  vm_compute in Hrun. injection Hrun as <- <-.
  cbn [Worker.constructor Worker.trace app] in Htrace. subst events.
  by vm_compute.
Defined.

(** ** Worker: retries, handler tasks and pauses *)

Section AttemptCountFacts.

Variable config : Worker.Config.
Variable E : Worker.Env.

Lemma dispatch_unknown (taskType : string) (w : Worker.t) :
  String.eqb taskType "sign" = false →
  String.eqb taskType "createEvent" = false →
  Js.getProp Worker.fractionAITasks taskType = None →
  Worker.dispatch config E taskType w
  = (Throw (mkError ("未知的任务类型: " +:+ taskType) false), w).
Proof. intros H1 H2 H3. unfold Worker.dispatch. by rewrite H1, H2, H3. Qed.

Lemma executeTask_unknown_from (taskType : string) (c : Z) :
  let m := Z.max 0 (Js.orNumber (Worker.maxRetries config) 3) in
  let d := Js.orNumber (Worker.initialRetryDelay config) 2000 in
  String.eqb taskType "sign" = false →
  String.eqb taskType "createEvent" = false →
  Js.getProp Worker.fractionAITasks taskType = None →
  c + m + 1 < Worker.maxConsecutiveErrors config →
  ∀ (fuel : nat) k w,
    0 ≤ k ≤ m →
    (Z.to_nat (m - k) < fuel)%nat →
    Worker.consecutiveErrors w = c + k →
    ∃ w',
      Worker.executeTask config E fuel taskType k
        (if k =? 0 then 0 else d * 2 ^ (k - 1)) w
      = Some (Worker.failure ("未知的任务类型: " +:+ taskType), w')
      ∧ Worker.trace w'
        = Worker.trace w
          ++ concat (failedAttempt taskType c d <$> seqZ k (m + 1 - k))
      ∧ Worker.consecutiveErrors w' = c + m + 1
      ∧ Worker.calls w' = Worker.calls w
      ∧ Worker.metrics w' = Worker.metrics w
      ∧ Worker.taskResults w' = Worker.taskResults w.
Proof.
  intros m d H1 H2 H3 Hmax.
  assert (Hd : d ≠ 0).
  { subst d. unfold Js.orNumber. destruct (_ =? 0) eqn:H0; [done|].
    by apply Z.eqb_neq in H0. }
  induction fuel as [|fuel IH]; intros k w Hk Hfuel Hc; [lia|].
  cbn [Worker.executeTask].
  set (rd := if k =? 0 then 0 else d * 2 ^ (k - 1)).
  set (w0 := if (0 <? k) && (0 <? rd) then Worker.delay rd w else w).
  rewrite dispatch_unknown by done. cbn [isCaptchaFatalError message].
  set (w1 := Worker.emit (Worker.Began taskType k) w0).
  assert (Hc1 : Worker.consecutiveErrors w1 = c + k).
  { subst w1 w0. by destruct (_ && _). }
  set (w3 := Worker.setConsecutiveErrors (Worker.consecutiveErrors w1 + 1) w1).
  assert (Hc3 : Worker.consecutiveErrors w3 = c + k + 1).
  { subst w3.
    cbn [Worker.setConsecutiveErrors Worker.emit Worker.consecutiveErrors].
    lia. }
  rewrite Hc3. replace (_ <=? c + k + 1) with false by lia.
  assert (Htrace : Worker.trace w3
                   = Worker.trace w ++ failedAttempt taskType c d k).
  { subst w3 w1 w0 rd. unfold failedAttempt. rewrite Hc1.
    destruct (k =? 0) eqn:Hk0.
    - apply Z.eqb_eq in Hk0. subst k. cbn. by rewrite <- app_assoc.
    - destruct ((0 <? k) && (0 <? d * 2 ^ (k - 1))); cbn;
        by rewrite <- ?app_assoc. }
  assert (Hframe : Worker.calls w3 = Worker.calls w
                   ∧ Worker.metrics w3 = Worker.metrics w
                   ∧ Worker.taskResults w3 = Worker.taskResults w).
  { subst w3 w1 w0. by destruct (_ && _). }
  destruct Hframe as (Hcalls & Hmet & Hres).
  assert (Hlt : (k <? Js.orNumber (Worker.maxRetries config) 3) = (k <? m)).
  { subst m. destruct (k <? Js.orNumber _ _) eqn:Ha; symmetry.
    - apply Z.ltb_lt in Ha. apply Z.ltb_lt. lia.
    - apply Z.ltb_ge in Ha. apply Z.ltb_ge. lia. }
  rewrite Hlt. destruct (k <? m) eqn:Hkm.
  - apply Z.ltb_lt in Hkm.
    assert (Hnext : (if rd =? 0 then d else rd * 2)
                    = (if k + 1 =? 0 then 0 else d * 2 ^ (k + 1 - 1))).
    { subst rd. replace (k + 1 =? 0) with false by lia.
      replace (k + 1 - 1) with k by lia.
      destruct (k =? 0) eqn:Hk0.
      - apply Z.eqb_eq in Hk0. subst k. cbn. lia.
      - apply Z.eqb_neq in Hk0.
        replace (d * 2 ^ (k - 1) =? 0) with false.
        + replace k with (Z.succ (k - 1)) at 2 by lia.
          rewrite Z.pow_succ_r by lia. lia.
        + symmetry. apply Z.eqb_neq.
          pose proof (Z.pow_pos_nonneg 2 (k - 1) ltac:(lia) ltac:(lia)). nia. }
    fold d. rewrite Hnext.
    destruct (IH (k + 1) w3) as (w' & Hrun & Htr & Hcn & Hca & Hme & Hre);
      [lia|lia|lia|].
    exists w'. split; [exact Hrun|].
    split.
    { rewrite Htr, Htrace, <- app_assoc. f_equal.
      rewrite (seqZ_cons k) by lia. cbn [fmap list_fmap concat].
      replace (Z.succ k) with (k + 1) by lia.
      by replace (Z.pred (m + 1 - k)) with (m + 1 - (k + 1)) by lia. }
    split; [exact Hcn|]. split; [congruence|]. split; congruence.
  - apply Z.ltb_ge in Hkm. assert (k = m) as -> by lia.
    exists w3. split; [done|]. split.
    { rewrite Htrace. f_equal. replace (m + 1 - m) with 1 by lia.
      rewrite (seqZ_cons m 1), seqZ_nil by lia.
      cbn [fmap list_fmap concat]. by rewrite app_nil_r. }
    split; [lia|done].
Qed.

(** X17. A task type [executeTask] has no case for is attempted
    1 + max(0, [maxRetries] || 3) times, as long as the circuit breaker
    does not trip on the way.  Before retry k the runner waits
    ([initialRetryDelay] || 2000) * 2^(k-1) ms, each attempt counts one
    failure, and the result is the failure for an unknown task type; no
    handler is called, no metric changed and no result stored. *)
Theorem unknown_task_uses_the_whole_retry_budget (fuel : nat)
    (taskType : string) (w : Worker.t) :
  let m := Z.max 0 (Js.orNumber (Worker.maxRetries config) 3) in
  let d := Js.orNumber (Worker.initialRetryDelay config) 2000 in
  String.eqb taskType "sign" = false →
  String.eqb taskType "createEvent" = false →
  Js.getProp Worker.fractionAITasks taskType = None →
  Worker.consecutiveErrors w + m + 1 < Worker.maxConsecutiveErrors config →
  (Z.to_nat m < fuel)%nat →
  ∃ w',
    Worker.executeTask config E fuel taskType 0 0 w
    = Some (Worker.failure ("未知的任务类型: " +:+ taskType), w')
    ∧ Worker.trace w'
      = Worker.trace w
        ++ concat (failedAttempt taskType (Worker.consecutiveErrors w) d
                     <$> seqZ 0 (m + 1))
    ∧ Worker.consecutiveErrors w' = Worker.consecutiveErrors w + m + 1
    ∧ Worker.calls w' = Worker.calls w
    ∧ Worker.metrics w' = Worker.metrics w
    ∧ Worker.taskResults w' = Worker.taskResults w.
Proof.
  intros m d H1 H2 H3 Hmax Hfuel.
  destruct (executeTask_unknown_from taskType (Worker.consecutiveErrors w)
              H1 H2 H3 Hmax fuel 0 w) as (w' & Hrun & Htr & Hrest).
  { subst m. lia. }
  { by rewrite Z.sub_0_r. }
  { lia. }
  exists w'. cbn [Z.eqb] in Hrun. rewrite Z.sub_0_r in Htr.
  destruct Hrest as (? & ? & ? & ?). by repeat split.
Qed.

(** X18. A task type routed to the FractionAI handler is attempted exactly
    once, whatever the outcome: the trace gains one [Began], and the
    failure counter, the metrics and the stored results stay as they are.
    A method [handleFractionAITask] knows is called once and its result
    returned, an error it throws becoming a failed result, fatal when the
    error is marked so; a method it does not know fails without a call. *)
Theorem handler_task_is_attempted_once (fuel : nat) (taskType method : string)
    (w : Worker.t) :
  Js.getProp Worker.fractionAITasks taskType = Some method →
  ∃ result w',
    Worker.executeTask config E (S fuel) taskType 0 0 w = Some (result, w')
    ∧ Worker.trace w' = Worker.trace w ++ [Worker.Began taskType 0]
    ∧ Worker.consecutiveErrors w' = Worker.consecutiveErrors w
    ∧ Worker.metrics w' = Worker.metrics w
    ∧ Worker.taskResults w' = Worker.taskResults w
    ∧ if bool_decide (method ∈ Worker.handlerMethods)
      then Worker.calls w' = S (Worker.calls w)
           ∧ result
             = match Worker.handler E (Worker.calls w) method with
               | Ok result => result
               | Throw error =>
                   if isCaptchaFatalError error
                   then Worker.fatal (message error)
                   else Worker.failure (message error)
               end
      else Worker.calls w' = Worker.calls w
           ∧ result
             = Worker.failure ("未知的FractionAI任务类型: " +:+ method).
Proof.
  intros Hm. cbn [Worker.executeTask]. cbn [Z.ltb Z.compare andb].
  unfold Worker.dispatch.
  destruct (String.eqb taskType "sign") eqn:H1.
  { apply String.eqb_eq in H1. subst taskType. discriminate Hm. }
  destruct (String.eqb taskType "createEvent") eqn:H2.
  { apply String.eqb_eq in H2. subst taskType. discriminate Hm. }
  rewrite Hm. unfold Worker.handleFractionAITask.
  destruct (bool_decide (method ∈ Worker.handlerMethods)).
  - cbn [Worker.emit Worker.called Worker.calls].
    destruct (Worker.handler E (Worker.calls w) method) as [result|error].
    + eexists _, _. split; [reflexivity|]. by cbn.
    + destruct (isCaptchaFatalError error);
        (eexists _, _; split; [reflexivity|]; by cbn).
  - eexists _, _. split; [reflexivity|]. by cbn.
Qed.

End AttemptCountFacts.

Lemma unknown_task_uses_the_whole_retry_budget_witness :
  ∃ w',
    Worker.executeTask (configWith 10 false ["fractionAI:claim"]) allSucceed 4
      "fractionAI:claim" 0 0 (Worker.constructor 0)
    = Some (Worker.failure "未知的任务类型: fractionAI:claim", w')
    ∧ Worker.trace w'
      = [ Worker.Began "fractionAI:claim" 0; Worker.Counted 1;
          Worker.Slept 2000; Worker.Began "fractionAI:claim" 1;
          Worker.Counted 2;
          Worker.Slept 4000; Worker.Began "fractionAI:claim" 2;
          Worker.Counted 3;
          Worker.Slept 8000; Worker.Began "fractionAI:claim" 3;
          Worker.Counted 4 ].
Proof.
  destruct (unknown_task_uses_the_whole_retry_budget
              (configWith 10 false ["fractionAI:claim"]) allSucceed 4
              "fractionAI:claim" (Worker.constructor 0)
              eq_refl eq_refl eq_refl ltac:(vm_compute; reflexivity)
              ltac:(vm_compute; lia))
    as (w' & Hrun & Htrace & _).
  exists w'. split; [exact Hrun|]. rewrite Htrace. vm_compute. reflexivity.
Defined.

Lemma handler_task_is_attempted_once_witness :
  ∃ result w',
    Worker.executeTask (configWith 1 false ["fractionAI:verify"]) handlerFails
      1 "fractionAI:verify" 0 0 (Worker.constructor 0) = Some (result, w')
    ∧ result = Worker.failure "HTTP 500"
    ∧ Worker.trace w' = [Worker.Began "fractionAI:verify" 0]
    ∧ Worker.consecutiveErrors w' = 0.
Proof.
  destruct (handler_task_is_attempted_once
              (configWith 1 false ["fractionAI:verify"]) handlerFails 0
              "fractionAI:verify" "verify" (Worker.constructor 0) eq_refl)
    as (result & w' & Hrun & Htrace & Hc & _ & _ & Hres).
  exists result, w'. split; [exact Hrun|].
  split; [|split; [exact Htrace|exact Hc]].
  vm_compute in Hrun. by injection Hrun as <- _.
Defined.

(** ** Worker: the metrics and the pauses *)

Section MetricsFacts.

Variable config : Worker.Config.
Variable E : Worker.Env.

Lemma withErrorHandling_metrics (task taskName : string) (w : Worker.t) :
  let r := Worker.withErrorHandling config E task taskName w in
  Worker.totalRequests (Worker.metrics r.2)
  = Worker.totalRequests (Worker.metrics w) + 1
  ∧ Worker.tasksCompleted (Worker.metrics r.2)
    = Worker.tasksCompleted (Worker.metrics w)
      + (if Worker.success r.1 then 1 else 0)
  ∧ Worker.tasksFailed (Worker.metrics r.2)
    = Worker.tasksFailed (Worker.metrics w)
      + (if Worker.success r.1 then 0 else 1).
Proof.
  unfold Worker.withErrorHandling.
  destruct (Worker.taskFn E _ task) as [result|error]; cbn.
  - lia.
  - destruct (_ <=? _); cbn; lia.
Qed.

Lemma dispatch_metrics (taskType : string) (w : Worker.t) :
  let r := Worker.dispatch config E taskType w in
  match r.1 with
  | Ok result =>
      Worker.totalRequests (Worker.metrics r.2)
      = Worker.totalRequests (Worker.metrics w)
        + (if countedTask taskType then 1 else 0)
      ∧ Worker.tasksCompleted (Worker.metrics r.2)
        = Worker.tasksCompleted (Worker.metrics w)
          + (if countedTask taskType && Worker.success result then 1 else 0)
      ∧ Worker.tasksFailed (Worker.metrics r.2)
        = Worker.tasksFailed (Worker.metrics w)
          + (if countedTask taskType && negb (Worker.success result)
             then 1 else 0)
  | Throw _ => countedTask taskType = false ∧ r.2 = w
  end.
Proof.
  unfold Worker.dispatch, countedTask.
  destruct (String.eqb taskType "sign").
  { pose proof (withErrorHandling_metrics "sign" "签名授权" w) as H.
    unfold Worker.sign. destruct (Worker.withErrorHandling _ _ _ _ _) as [r w'].
    cbn in *. by destruct (Worker.success r). }
  destruct (String.eqb taskType "createEvent").
  { pose proof (withErrorHandling_metrics "createEvent" "创建事件" w) as H.
    unfold Worker.createEvent.
    destruct (Worker.withErrorHandling _ _ _ _ _) as [r w'].
    cbn in *. by destruct (Worker.success r). }
  cbn [orb andb].
  destruct (Js.getProp _ taskType) as [method|]; [|done].
  unfold Worker.handleFractionAITask.
  destruct (bool_decide _); [|cbn; lia].
  destruct (Worker.handler E _ method) as [result|error]; [cbn; lia|].
  destruct (isCaptchaFatalError error); cbn; lia.
Qed.

Lemma executeTask_metrics (fuel : nat) :
  ∀ taskType retryCount retryDelay w result w',
    Worker.executeTask config E fuel taskType retryCount retryDelay w
    = Some (result, w') →
    Worker.totalRequests (Worker.metrics w')
    = Worker.totalRequests (Worker.metrics w)
      + (if countedTask taskType then 1 else 0)
    ∧ Worker.tasksCompleted (Worker.metrics w')
      = Worker.tasksCompleted (Worker.metrics w)
        + (if countedTask taskType && Worker.success result then 1 else 0)
    ∧ Worker.tasksFailed (Worker.metrics w')
      = Worker.tasksFailed (Worker.metrics w)
        + (if countedTask taskType && negb (Worker.success result)
           then 1 else 0).
Proof.
  induction fuel as [|fuel IH];
    intros taskType retryCount retryDelay w result w'; [done|].
  cbn [Worker.executeTask].
  set (w0 := if (0 <? retryCount) && (0 <? retryDelay)
             then Worker.delay retryDelay w else w).
  assert (H0 : Worker.metrics w0 = Worker.metrics w).
  { subst w0. by destruct (_ && _). }
  set (w1 := Worker.emit (Worker.Began taskType retryCount) w0).
  assert (H1 : Worker.metrics w1 = Worker.metrics w) by (by rewrite <- H0).
  clearbody w1. clear w0 H0.
  pose proof (dispatch_metrics taskType w1) as Hd. cbv zeta in Hd.
  destruct (Worker.dispatch config E taskType w1) as [[r|error] w2];
    cbn [fst snd] in Hd.
  - intros [= <- <-]. by rewrite H1 in Hd.
  - destruct Hd as [Hc ->]. rewrite Hc. cbn [andb].
    destruct (isCaptchaFatalError error).
    { intros [= <- <-]. cbn. rewrite H1. lia. }
    set (w3 := Worker.setConsecutiveErrors _ w1).
    set (w4 := if Worker.maxConsecutiveErrors config
                  <=? Worker.consecutiveErrors w3
               then Worker.setConsecutiveErrors 0
                      (Worker.delay (Worker.cooldownPeriod config) w3)
               else w3).
    assert (H4 : Worker.metrics w4 = Worker.metrics w).
    { subst w4 w3. by destruct (_ <=? _). }
    destruct (retryCount <? _).
    + intros Hrec. apply IH in Hrec. rewrite Hc, H4 in Hrec. exact Hrec.
    + intros [= <- <-]. rewrite H4. lia.
Qed.

Lemma pace_metrics (tasksToExecute : list string) (taskType : string)
    (w : Worker.t) :
  Worker.metrics (Worker.pace config E tasksToExecute taskType w)
  = Worker.metrics w.
Proof.
  unfold Worker.pace.
  destruct (Worker.delayBetweenTasks config) as [| |ms]; [done| |].
  - by destruct (_ <? _).
  - by destruct (_ && _).
Qed.

Lemma countedAttempts_app (l k : list Worker.Event) :
  countedAttempts (l ++ k) = countedAttempts l + countedAttempts k.
Proof.
  unfold countedAttempts. rewrite attempted_app, List.filter_app, length_app.
  lia.
Qed.

Lemma runTasks_metrics (fuel : nat) (tasksToExecute : list string) :
  ∀ rest taskResults w taskResults' allTasksSuccessful w',
    Worker.runTasks config E fuel tasksToExecute rest taskResults w
    = Some (taskResults', allTasksSuccessful, w') →
    ∃ events,
      after w events w'
      ∧ Worker.totalRequests (Worker.metrics w')
        = Worker.totalRequests (Worker.metrics w) + countedAttempts events
      ∧ Worker.tasksCompleted (Worker.metrics w')
        + Worker.tasksFailed (Worker.metrics w')
        = Worker.tasksCompleted (Worker.metrics w)
          + Worker.tasksFailed (Worker.metrics w) + countedAttempts events
      ∧ Worker.tasksCompleted (Worker.metrics w)
        ≤ Worker.tasksCompleted (Worker.metrics w')
      ∧ Worker.tasksFailed (Worker.metrics w)
        ≤ Worker.tasksFailed (Worker.metrics w').
Proof.
  induction rest as [|taskType rest IH];
    intros taskResults w taskResults' ok w'; cbn [Worker.runTasks].
  { intros [= <- <- <-]. exists []. split; [unfold after; by rewrite app_nil_r|].
    unfold countedAttempts. cbn. lia. }
  destruct (Worker.executeTask _ _ _ _ _ _ _) as [[result w1]|] eqn:Hexec;
    [|done].
  pose proof (executeTask_metrics _ _ _ _ _ _ _ Hexec) as (Ht & Hc & Hf).
  apply executeTask_events in Hexec as (ev1 & Hev1 & Hatt1 & _); [|done].
  cbn [Z.eqb] in Hatt1.
  set (w2 := Worker.emit (Worker.Recorded taskType result) w1).
  assert (Hafter : after w (ev1 ++ [Worker.Recorded taskType result]) w2).
  { eapply after_trans; [exact Hev1|done]. }
  assert (Hcount : countedAttempts (ev1 ++ [Worker.Recorded taskType result])
                   = if countedTask taskType then 1 else 0).
  { unfold countedAttempts. rewrite attempted_app, Hatt1. cbn.
    by destruct (countedTask taskType). }
  assert (Hstop :
    after w (ev1 ++ [Worker.Recorded taskType result]) w2
    ∧ Worker.totalRequests (Worker.metrics w2)
      = Worker.totalRequests (Worker.metrics w)
        + countedAttempts (ev1 ++ [Worker.Recorded taskType result])
    ∧ Worker.tasksCompleted (Worker.metrics w2)
      + Worker.tasksFailed (Worker.metrics w2)
      = Worker.tasksCompleted (Worker.metrics w)
        + Worker.tasksFailed (Worker.metrics w)
        + countedAttempts (ev1 ++ [Worker.Recorded taskType result])
    ∧ Worker.tasksCompleted (Worker.metrics w)
      ≤ Worker.tasksCompleted (Worker.metrics w2)
    ∧ Worker.tasksFailed (Worker.metrics w)
      ≤ Worker.tasksFailed (Worker.metrics w2)).
  { split; [exact Hafter|]. rewrite Hcount.
    subst w2. cbn [Worker.emit Worker.metrics].
    destruct (countedTask taskType), (Worker.success result);
      cbn [andb negb] in *; lia. }
  destruct (Worker.fatalError result).
  { intros [= <- <- <-]. eexists. exact Hstop. }
  destruct (negb (Worker.success result) && Worker.stopOnFailure config).
  { intros [= <- <- <-]. eexists. exact Hstop. }
  destruct Hstop as (_ & H2t & H2s & H2c & H2f).
  destruct (pace_quiet config E tasksToExecute taskType w2)
    as (evp & Hevp & Hqp & _).
  pose proof (pace_metrics tasksToExecute taskType w2) as Hpm.
  intros Hloop.
  apply IH in Hloop as (evl & Hafterl & Hlt & Hls & Hlc & Hlf).
  rewrite Hpm in Hlt, Hls, Hlc, Hlf.
  exists ((ev1 ++ [Worker.Recorded taskType result]) ++ evp ++ evl).
  split.
  { eapply after_trans; [exact Hafter|]. eapply after_trans; done. }
  assert (Hp0 : countedAttempts evp = 0).
  { unfold countedAttempts. by rewrite Hqp. }
  rewrite (countedAttempts_app (ev1 ++ _)), (countedAttempts_app evp), Hp0.
  lia.
Qed.

(** X19. The metrics count the [sign] and [createEvent] tasks only.  Over
    a run [totalRequests] grows by the number of such tasks attempted, and
    so does the sum of [tasksCompleted] and [tasksFailed], neither of
    which ever decreases; tasks routed to the FractionAI handler and
    unknown tasks leave the metrics alone. *)
Theorem metrics_count_sign_and_createEvent_only (fuel : nat) (w : Worker.t) :
  (Z.to_nat (Js.orNumber (Worker.maxRetries config) 3) < fuel)%nat →
  ∃ summary w' events,
    Worker.executeAllTasks config E fuel w = Some (summary, w')
    ∧ Worker.trace w' = Worker.trace w ++ events
    ∧ Worker.totalRequests (Worker.summary_metrics summary)
      = Worker.totalRequests (Worker.metrics w) + countedAttempts events
    ∧ Worker.tasksCompleted (Worker.summary_metrics summary)
      + Worker.tasksFailed (Worker.summary_metrics summary)
      = Worker.tasksCompleted (Worker.metrics w)
        + Worker.tasksFailed (Worker.metrics w) + countedAttempts events
    ∧ Worker.tasksCompleted (Worker.metrics w)
      ≤ Worker.tasksCompleted (Worker.summary_metrics summary)
    ∧ Worker.tasksFailed (Worker.metrics w)
      ≤ Worker.tasksFailed (Worker.summary_metrics summary).
Proof.
  intros Hfuel. unfold Worker.executeAllTasks.
  set (tasksToExecute := default _ _).
  destruct (runTasks_total config E fuel tasksToExecute Hfuel tasksToExecute ∅
              (Worker.delay (Worker.initialDelay w) w))
    as [[[m ok] w1] Hrun].
  rewrite Hrun.
  apply runTasks_metrics in Hrun as (evs & Hafter & Ht & Hs & Hc & Hf).
  exists (Worker.mkSummary ok m (Worker.metrics w1)),
    (Worker.emit Worker.Closed w1),
    ([Worker.Slept (Worker.initialDelay w)] ++ evs ++ [Worker.Closed]).
  split; [done|]. split.
  { cbn [Worker.emit Worker.trace]. unfold after in Hafter. rewrite Hafter.
    cbn. by rewrite <- !app_assoc. }
  cbn [Worker.summary_metrics].
  cbn [Worker.delay Worker.emit Worker.metrics] in Ht, Hs, Hc, Hf.
  rewrite !countedAttempts_app.
  assert (H1 : countedAttempts [Worker.Slept (Worker.initialDelay w)] = 0)
    by done.
  assert (H2 : countedAttempts [Worker.Closed] = 0) by done.
  rewrite H1, H2. repeat split; lia.
Qed.

End MetricsFacts.

Lemma metrics_count_sign_and_createEvent_only_witness :
  ∃ summary w',
    Worker.executeAllTasks
      (configWith 5 false ["sign"; "fractionAI:verify"; "createEvent"])
      handlerFails 4 (Worker.constructor 1000) = Some (summary, w')
    ∧ Worker.summary_metrics summary = Worker.mkMetrics 2 0 2
    ∧ attempted (Worker.trace w')
      = ["sign"; "fractionAI:verify"; "createEvent"].
Proof.
  destruct (metrics_count_sign_and_createEvent_only
              (configWith 5 false ["sign"; "fractionAI:verify"; "createEvent"])
              handlerFails 4 (Worker.constructor 1000) ltac:(vm_compute; lia))
    as (summary & w' & events & Hrun & _).
  exists summary, w'. split; [exact Hrun|].
  vm_compute in Hrun. injection Hrun as <- <-. by vm_compute.
Defined.

(** ** Worker: the pause between two tasks *)

Lemma indexOf_NoDup (l : list string) (i : nat) (x : string) :
  NoDup l → l !! i = Some x → Worker.indexOf l x = Z.of_nat i.
Proof.
  revert i. induction l as [|y l IH]; intros i Hnd Hi; [done|].
  apply NoDup_cons in Hnd as [Hy Hnd]. cbn [Worker.indexOf].
  destruct i as [|i]; cbn in Hi.
  - injection Hi as ->. by rewrite String.eqb_refl.
  - destruct (String.eqb y x) eqn:Hyx.
    { apply String.eqb_eq in Hyx. subst y.
      exfalso. apply Hy. by eapply list_elem_of_lookup_2. }
    cbv zeta. rewrite (IH i Hnd Hi).
    destruct (Z.ltb_spec (Z.of_nat i) 0); lia.
Qed.

(** X20. With pairwise distinct task names, the pause after the task at
    position i is made exactly when i is not the last position: the
    configured pause when it is a non-zero number, 1000 ms plus the random
    draw when it is [true], and nothing when pauses are off. *)
Theorem pace_pauses_between_distinct_tasks (config : Worker.Config)
    (E : Worker.Env) (tasksToExecute : list string) (i : nat)
    (taskType : string) (w : Worker.t) :
  NoDup tasksToExecute →
  tasksToExecute !! i = Some taskType →
  Worker.trace (Worker.pace config E tasksToExecute taskType w)
  = Worker.trace w
    ++ (if (S i <? length tasksToExecute)%nat then
          match Worker.delayBetweenTasks config with
          | Worker.DelayOff => []
          | Worker.DelayRandom =>
              [Worker.Slept (1000 + Worker.random E (Worker.draws w))]
          | Worker.DelayFixed ms =>
              if ms =? 0 then [] else [Worker.Slept ms]
          end
        else []).
Proof.
  intros Hnd Hi. unfold Worker.pace. rewrite (indexOf_NoDup _ _ _ Hnd Hi).
  assert (Hlast : (Z.of_nat i <? Z.of_nat (length tasksToExecute) - 1)
                  = (S i <? length tasksToExecute)%nat).
  { destruct (S i <? length tasksToExecute)%nat eqn:Hlt.
    - apply Nat.ltb_lt in Hlt. apply Z.ltb_lt. lia.
    - apply Nat.ltb_ge in Hlt. apply Z.ltb_ge. lia. }
  rewrite Hlast.
  destruct (Worker.delayBetweenTasks config) as [| |ms].
  - destruct (_ <? _)%nat; by rewrite app_nil_r.
  - destruct (_ <? _)%nat; [done|by rewrite app_nil_r].
  - destruct (ms =? 0), (_ <? _)%nat; cbn; by rewrite ?app_nil_r.
Qed.

Lemma pace_pauses_between_distinct_tasks_witness :
  NoDup ["sign"; "createEvent"]
  ∧ Worker.trace
      (Worker.pace (configWith 5 false ["sign"; "createEvent"]) allSucceed
         ["sign"; "createEvent"] "createEvent" (Worker.constructor 0))
    = []
  ∧ Worker.trace
      (Worker.pace (configWith 5 false ["sign"; "createEvent"]) allSucceed
         ["sign"; "createEvent"] "sign" (Worker.constructor 0))
    = [Worker.Slept 2000].
Proof.
  assert (Hnd : NoDup ["sign"; "createEvent"]).
  { apply NoDup_cons. split; [set_solver|]. apply NoDup_singleton. }
  split; [exact Hnd|]. split.
  - rewrite (pace_pauses_between_distinct_tasks
               (configWith 5 false ["sign"; "createEvent"]) allSucceed
               ["sign"; "createEvent"] 1 "createEvent" (Worker.constructor 0)
               Hnd eq_refl).
    reflexivity.
  - reflexivity.
Defined.

(** ** CaptchaSolver *)

Lemma truthy_mapChars (f : ascii → ascii) (s : string) :
  Js.truthy (Js.mapChars f s) = Js.truthy s.
Proof. by destruct s. Qed.

Lemma captcha_service_name (service : option string) :
  default "2captcha" (Js.or (Js.toLowerCase <$> service) (Some "2captcha"))
  = chosenService service.
Proof.
  destruct service as [name|]; [|done]. unfold Js.or, chosenService.
  cbn [fmap option_fmap option_map Js.truthyField].
  unfold Js.toLowerCase. rewrite truthy_mapChars.
  by destruct (Js.truthy name).
Qed.

Lemma captcha_key_check (apiKey : option string) :
  negb (Js.truthyField apiKey) || (Js.length (default "" apiKey) <? 5)%nat
  = negb (usableKey apiKey).
Proof.
  destruct apiKey as [key|]; [|done].
  cbn [Js.truthyField default usableKey id].
  destruct key as [|a key]; [done|]. cbn [Js.truthy String.eqb negb orb].
  generalize (Js.length (String a key)). intros n.
  destruct (Nat.ltb_spec n 5), (Nat.leb_spec 5 n); try done; lia.
Qed.

(** X21. The constructor of the captcha solver succeeds exactly for the
    service 2captcha (taken when no name is given; names are compared in
    lower case) with an API key of at least 5 characters, and then starts
    with no task and the given retry budget (3 by default).  The service
    anticaptcha is in the list of supported services but always throws:
    not implemented with a usable key, invalid key otherwise. *)
Theorem captcha_constructor_accepts_only_2captcha
    (service apiKey : option string) (options : CaptchaSolver.Overrides.t) :
  match CaptchaSolver.constructor service apiKey options with
  | Ok s =>
      chosenService service = "2captcha"
      ∧ usableKey apiKey = true
      ∧ CaptchaSolver.service s = "2captcha"
      ∧ CaptchaSolver.apiKey s = apiKey
      ∧ CaptchaSolver.lastTaskId s = None
      ∧ CaptchaSolver.tasks s = ∅
      ∧ CaptchaSolver.Options.maxRetries (CaptchaSolver.options s)
        = default 3 (CaptchaSolver.Overrides.maxRetries options)
  | Throw e =>
      (chosenService service ≠ "2captcha" ∨ usableKey apiKey = false)
      ∧ message e
        = if bool_decide (chosenService service
                          ∈ CaptchaSolver.SUPPORTED_SERVICES)
          then if usableKey apiKey then "AntiCaptcha服务尚未实现"
               else "无效的" +:+ chosenService service +:+ "API密钥"
          else "不支持的验证码服务: " +:+ chosenService service
               +:+ "，目前支持: 2captcha, anticaptcha"
  end.
Proof.
  unfold CaptchaSolver.constructor.
  rewrite captcha_service_name, captcha_key_check.
  destruct (bool_decide (chosenService service
                         ∈ CaptchaSolver.SUPPORTED_SERVICES)) eqn:Hs;
    cbn [negb].
  - apply bool_decide_eq_true in Hs.
    destruct (usableKey apiKey) eqn:Hk; cbn [negb].
    + destruct (String.eqb (chosenService service) "2captcha") eqn:H2.
      { apply String.eqb_eq in H2. by rewrite H2. }
      apply String.eqb_neq in H2.
      assert (chosenService service = "anticaptcha") as Ha.
      { unfold CaptchaSolver.SUPPORTED_SERVICES in Hs. set_solver. }
      rewrite Ha. cbn. split; [by left|done].
    + split; [by right|done].
  - apply bool_decide_eq_false in Hs. cbn [message]. split; [|done].
    left. intros H2. apply Hs. rewrite H2.
    unfold CaptchaSolver.SUPPORTED_SERVICES. set_solver.
Qed.

Section CaptchaRetryFacts.

Variable E : CaptchaSolver.Env.

Lemma executeWithRetry_run (s : CaptchaSolver.t) :
  let M := CaptchaSolver.Options.maxRetries (CaptchaSolver.options s) in
  let d := CaptchaSolver.Options.retryDelay (CaptchaSolver.options s) in
  ∀ (fuel : nat) retries lastError w,
    0 ≤ retries ≤ M →
    (Z.to_nat (M - retries) < fuel)%nat →
    ∃ (k : nat) r s' w',
      CaptchaSolver._executeWithRetry E fuel retries lastError s w
      = Some (r, s', w')
      ∧ (k ≤ Z.to_nat (M - retries))%nat
      ∧ CaptchaSolver.calls w' = (CaptchaSolver.calls w + k + 1)%nat
      ∧ CaptchaSolver.events w'
        = CaptchaSolver.events w
          ++ ((λ j, CaptchaSolver.Slept d (retries + Z.of_nat j)) <$> seq 0 k)
      ∧ (∀ j, (j < k)%nat →
              ∃ e, CaptchaSolver.solverFn E (CaptchaSolver.calls w + j)
                   = Throw e
                   ∧ CaptchaSolver.shouldRetry e = true)
      ∧ match r with
        | Ok text =>
            ∃ id,
              CaptchaSolver.solverFn E (CaptchaSolver.calls w + k)
              = Ok (CaptchaSolver.mkSolution id text)
              ∧ CaptchaSolver.lastTaskId s' = Some id
        | Throw e =>
            CaptchaSolver.solverFn E (CaptchaSolver.calls w + k) = Throw e
            ∧ (CaptchaSolver.shouldRetry e = false
               ∨ k = Z.to_nat (M - retries))
            ∧ s' = s
        end.
Proof.
  intros M d. induction fuel as [|fuel IH]; intros retries lastError w Hr Hfuel;
    [lia|].
  cbn [CaptchaSolver._executeWithRetry]. fold M d.
  replace (retries <=? M) with true by lia.
  destruct (CaptchaSolver.solverFn E (CaptchaSolver.calls w))
    as [[id text]|error] eqn:Hcall.
  - exists 0%nat. cbn [CaptchaSolver.read CaptchaSolver._cleanupTasks
                       CaptchaSolver.called CaptchaSolver.setTasks
                       CaptchaSolver.id CaptchaSolver.data].
    eexists _, _, _. split; [reflexivity|].
    cbn [CaptchaSolver.calls CaptchaSolver.events CaptchaSolver.lastTaskId
         CaptchaSolver.called seq fmap list_fmap].
    rewrite app_nil_r, Nat.add_0_r.
    split; [lia|]. split; [lia|]. split; [done|]. split; [lia|]. eauto.
  - destruct (CaptchaSolver.shouldRetry error) eqn:Hretry; cbn [andb].
    + destruct (retries <? M) eqn:Hlt.
      * apply Z.ltb_lt in Hlt.
        destruct (IH (retries + 1) (Some error)
                    (CaptchaSolver.delay d (retries + 1 - 1)
                       (CaptchaSolver.called w)))
          as (k & r & s' & w' & Hrun & Hk & Hcalls & Hev & Hprev & Hres);
          [lia|lia|].
        cbn [CaptchaSolver.delay CaptchaSolver.called CaptchaSolver.calls
             CaptchaSolver.events] in Hcalls, Hev, Hprev, Hres.
        exists (S k), r, s', w'. split; [exact Hrun|].
        split; [lia|]. split; [lia|]. split.
        { rewrite Hev, <- app_assoc. f_equal. cbn [seq fmap list_fmap app].
          f_equal; [f_equal; lia|].
          rewrite <- fmap_S_seq, <- list_fmap_compose. apply list_fmap_ext.
          intros _ j _. cbn. f_equal. lia. }
        split.
        { intros [|j] Hj.
          - rewrite Nat.add_0_r. eauto.
          - replace (CaptchaSolver.calls w + S j)%nat
              with (S (CaptchaSolver.calls w) + j)%nat by lia.
            apply Hprev. lia. }
        replace (CaptchaSolver.calls w + S k)%nat
          with (S (CaptchaSolver.calls w) + k)%nat by lia.
        destruct r as [text|e]; [exact Hres|].
        destruct Hres as (Hc & Hwhy & Hs). split; [exact Hc|].
        split; [|exact Hs]. destruct Hwhy as [?| ->]; [by left|right; lia].
      * apply Z.ltb_ge in Hlt. exists 0%nat. eexists _, _, _.
        split; [reflexivity|].
        cbn [CaptchaSolver.called CaptchaSolver.calls CaptchaSolver.events
             seq fmap list_fmap].
        rewrite app_nil_r, Nat.add_0_r.
        split; [lia|]. split; [lia|]. split; [done|]. split; [lia|].
        split; [done|]. split; [right; lia|done].
    + exists 0%nat. eexists _, _, _. split; [reflexivity|].
      cbn [CaptchaSolver.called CaptchaSolver.calls CaptchaSolver.events
           seq fmap list_fmap].
      rewrite app_nil_r, Nat.add_0_r.
      split; [lia|]. split; [lia|]. split; [done|]. split; [lia|].
      split; [done|]. split; [by left|done].
Qed.

Lemma executeWithRetry_ok (fuel : nat) :
  ∀ retries lastError s w text s' w',
    CaptchaSolver._executeWithRetry E fuel retries lastError s w
    = Some (Ok text, s', w') →
    ∃ id,
      CaptchaSolver.lastTaskId s' = Some id
      ∧ CaptchaSolver.options s' = CaptchaSolver.options s
      ∧ CaptchaSolver.readings w' = S (S (CaptchaSolver.readings w))
      ∧ CaptchaSolver.reports w' = CaptchaSolver.reports w
      ∧ CaptchaSolver.tasks s'
        = filter
            (λ kv, ¬ (CaptchaSolver.Date_now E (S (CaptchaSolver.readings w))
                      - kv.2
                      > CaptchaSolver.Options.timeout (CaptchaSolver.options s)
                        * 2))
            (<[id := CaptchaSolver.Date_now E (CaptchaSolver.readings w)]>
               (CaptchaSolver.tasks s))
      ∧ (0 < CaptchaSolver.calls w')%nat
      ∧ CaptchaSolver.solverFn E (pred (CaptchaSolver.calls w'))
        = Ok (CaptchaSolver.mkSolution id text).
Proof.
  induction fuel as [|fuel IH]; intros retries lastError s w text s' w';
    [done|].
  cbn [CaptchaSolver._executeWithRetry].
  destruct (retries <=? _); [|done].
  destruct (CaptchaSolver.solverFn E (CaptchaSolver.calls w))
    as [[id text0]|error] eqn:Hcall.
  - cbn [CaptchaSolver.read CaptchaSolver._cleanupTasks CaptchaSolver.called
         CaptchaSolver.setTasks CaptchaSolver.id CaptchaSolver.data
         CaptchaSolver.readings CaptchaSolver.options CaptchaSolver.tasks].
    intros [= <- <- <-]. exists id. cbn. repeat split; try done. lia.
  - destruct (_ && _); [|done].
    intros Hrec. apply IH in Hrec as (id & H1 & H2 & H3 & H4 & H5 & H6 & H7).
    exists id. by cbn in *.
Qed.

(** X22. [solveImageCaptcha] with a retry budget M = [maxRetries] ≥ 0 and
    fuel above it returns after 1 + k calls of the library for some
    k ≤ M.  All calls but the last failed with an error worth a retry, and
    before retry j + 1 it waited [retryDelay] * 1.5^j ms.  It returns the
    text of the last call, whose id it remembers, or rethrows the error of
    the last call, which is not worth a retry unless the budget is used
    up, and leaves the solver as it was.  With a negative budget it makes
    no call and fails on reading the message of an error that is not
    there. *)
Theorem captcha_solve_retries_within_budget (fuel : nat)
    (s : CaptchaSolver.t) (w : CaptchaSolver.World) :
  let M := CaptchaSolver.Options.maxRetries (CaptchaSolver.options s) in
  let d := CaptchaSolver.Options.retryDelay (CaptchaSolver.options s) in
  (Z.to_nat M < fuel)%nat →
  if M <? 0 then
    CaptchaSolver.solveImageCaptcha E fuel s w
    = Some (Throw CaptchaSolver.nullMessage, s, w)
  else
    ∃ (k : nat) r s' w',
      CaptchaSolver.solveImageCaptcha E fuel s w = Some (r, s', w')
      ∧ (k ≤ Z.to_nat M)%nat
      ∧ CaptchaSolver.calls w' = (CaptchaSolver.calls w + k + 1)%nat
      ∧ CaptchaSolver.events w'
        = CaptchaSolver.events w
          ++ ((λ j, CaptchaSolver.Slept d (Z.of_nat j)) <$> seq 0 k)
      ∧ (∀ j, (j < k)%nat →
              ∃ e, CaptchaSolver.solverFn E (CaptchaSolver.calls w + j)
                   = Throw e
                   ∧ CaptchaSolver.shouldRetry e = true)
      ∧ match r with
        | Ok text =>
            ∃ id,
              CaptchaSolver.solverFn E (CaptchaSolver.calls w + k)
              = Ok (CaptchaSolver.mkSolution id text)
              ∧ CaptchaSolver.lastTaskId s' = Some id
        | Throw e =>
            CaptchaSolver.solverFn E (CaptchaSolver.calls w + k) = Throw e
            ∧ (CaptchaSolver.shouldRetry e = false ∨ k = Z.to_nat M)
            ∧ s' = s
        end.
Proof.
  intros M d Hfuel. unfold CaptchaSolver.solveImageCaptcha.
  destruct (M <? 0) eqn:Hneg.
  - apply Z.ltb_lt in Hneg. destruct fuel as [|fuel]; [lia|].
    cbn [CaptchaSolver._executeWithRetry]. fold M.
    by replace (0 <=? M) with false by lia.
  - apply Z.ltb_ge in Hneg.
    destruct (executeWithRetry_run s fuel 0 None w)
      as (k & r & s' & w' & Hrun & Hk & Hcalls & Hev & Hprev & Hres).
    { fold M. lia. }
    { fold M. by rewrite Z.sub_0_r. }
    fold M d in Hk, Hev, Hres. rewrite Z.sub_0_r in Hk, Hres.
    exists k, r, s', w'. split; [exact Hrun|]. split; [exact Hk|].
    split; [exact Hcalls|]. split; [|by split].
    by rewrite Hev.
Qed.

(** X23. After a successful solve the solver remembers the id that the
    last call of the library returned together with the text, and has
    registered that id with the time of the registration, unless the
    cleanup that follows found it older than twice the timeout already.
    At the time of the cleanup the task registry holds no entry older
    than twice the timeout, still holds every other entry that is not
    older, and has grown by at most one entry.  [reportIncorrect] without
    an argument then reports the task just solved and returns whether the
    report went through; when the id of that task is the empty string it
    reports nothing and returns false. *)
Theorem captcha_success_is_registered_and_reportable (fuel : nat)
    (s s' : CaptchaSolver.t) (w w' : CaptchaSolver.World) (text : string) :
  CaptchaSolver.solveImageCaptcha E fuel s w = Some (Ok text, s', w') →
  ∃ id,
    (0 < CaptchaSolver.calls w')%nat
    ∧ CaptchaSolver.solverFn E (pred (CaptchaSolver.calls w'))
      = Ok (CaptchaSolver.mkSolution id text)
    ∧ CaptchaSolver.lastTaskId s' = Some id
    ∧ CaptchaSolver.tasks s' !! id
      = (if bool_decide
              (CaptchaSolver.Date_now E (S (CaptchaSolver.readings w))
               - CaptchaSolver.Date_now E (CaptchaSolver.readings w)
               ≤ 2 * CaptchaSolver.Options.timeout (CaptchaSolver.options s))
         then Some (CaptchaSolver.Date_now E (CaptchaSolver.readings w))
         else None)
    ∧ (∀ other createdAt,
         CaptchaSolver.tasks s' !! other = Some createdAt →
         CaptchaSolver.Date_now E (S (CaptchaSolver.readings w)) - createdAt
         ≤ 2 * CaptchaSolver.Options.timeout (CaptchaSolver.options s))
    ∧ (∀ other createdAt,
         other ≠ id →
         CaptchaSolver.tasks s !! other = Some createdAt →
         CaptchaSolver.Date_now E (S (CaptchaSolver.readings w)) - createdAt
         ≤ 2 * CaptchaSolver.Options.timeout (CaptchaSolver.options s) →
         CaptchaSolver.tasks s' !! other = Some createdAt)
    ∧ (size (CaptchaSolver.tasks s') ≤ S (size (CaptchaSolver.tasks s)))%nat
    ∧ CaptchaSolver.reportIncorrect E None s' w'
      = if Js.truthy id
        then (match CaptchaSolver.solver_report E (CaptchaSolver.reports w) id
              with
              | Ok _ => true
              | Throw _ => false
              end,
              CaptchaSolver.mkWorld (CaptchaSolver.calls w')
                (S (CaptchaSolver.reports w)) (CaptchaSolver.readings w')
                (CaptchaSolver.events w'))
        else (false, w').
Proof.
  intros Hrun. apply executeWithRetry_ok in Hrun
    as (id & Hid & Hopt & Hread & Hrep & Htasks & Hcalls & Hlast).
  exists id. split; [exact Hcalls|]. split; [exact Hlast|].
  split; [exact Hid|]. rewrite Htasks.
  split; [|split; [|split; [|split]]].
  - case_bool_decide as Hfresh.
    + apply map_lookup_filter_Some. split; [by rewrite lookup_insert_eq|].
      cbn. lia.
    + apply map_lookup_filter_None. right. intros createdAt Hl.
      rewrite lookup_insert_eq in Hl. injection Hl as <-. cbn. lia.
  - intros other createdAt Hl.
    apply map_lookup_filter_Some in Hl as [_ Hl]. cbn in Hl. lia.
  - intros other createdAt Hne Hl Hfresh.
    apply map_lookup_filter_Some. split; [by rewrite lookup_insert_ne|].
    cbn. lia.
  - etrans; [apply map_size_filter|].
    destruct (CaptchaSolver.tasks s !! id) eqn:Hl.
    + rewrite map_size_insert_Some by eauto. lia.
    + by rewrite map_size_insert_None.
  - unfold CaptchaSolver.reportIncorrect, Js.or.
    rewrite Hid. cbn [Js.truthyField default Datatypes.id].
    destruct (Js.truthy id); cbn [negb]; [|done]. rewrite Hrep.
    by destruct (CaptchaSolver.solver_report E _ id).
Qed.

End CaptchaRetryFacts.

Lemma captcha_solve_retries_within_budget_witness :
  (Z.to_nat 3 < 4)%nat
  ∧ ∃ (k : nat) r s' w',
      CaptchaSolver.solveImageCaptcha slowSolver 4 sampleSolver
        (CaptchaSolver.mkWorld 0 0 0 []) = Some (r, s', w')
      ∧ (k ≤ Z.to_nat 3)%nat
      ∧ CaptchaSolver.calls w' = (0 + k + 1)%nat.
Proof.
  split; [vm_compute; lia|].
  pose proof (captcha_solve_retries_within_budget slowSolver 4 sampleSolver
                (CaptchaSolver.mkWorld 0 0 0 []) ltac:(vm_compute; lia)) as H.
  cbn [CaptchaSolver.options sampleSolver CaptchaSolver.Options.maxRetries
       Z.ltb Z.compare] in H.
  destruct H as (k & r & s' & w' & Hrun & Hk & Hcalls & _).
  exists k, r, s', w'. by repeat split.
Defined.

Lemma captcha_success_is_registered_and_reportable_witness :
  CaptchaSolver.solveImageCaptcha slowSolver 4 sampleSolver
    (CaptchaSolver.mkWorld 0 0 0 [])
  = Some (Ok "x7k2p",
          CaptchaSolver.mk "2captcha" (Some "0123456789abcdef")
            (CaptchaSolver.Options.mk 5000 180000 false 3 5000) (Some "77")
            {[ "77" := 0 ]},
          CaptchaSolver.mkWorld 3 0 2
            [CaptchaSolver.Slept 5000 0; CaptchaSolver.Slept 5000 1])
  ∧ CaptchaSolver.solverFn slowSolver 2
    = Ok (CaptchaSolver.mkSolution "77" "x7k2p")
  ∧ (CaptchaSolver.reportIncorrect slowSolver None
       (CaptchaSolver.mk "2captcha" (Some "0123456789abcdef")
          (CaptchaSolver.Options.mk 5000 180000 false 3 5000) (Some "77")
          {[ "77" := 0 ]})
       (CaptchaSolver.mkWorld 3 0 2
          [CaptchaSolver.Slept 5000 0; CaptchaSolver.Slept 5000 1])).1
    = true.
Proof.
  assert (Hrun :
    CaptchaSolver.solveImageCaptcha slowSolver 4 sampleSolver
      (CaptchaSolver.mkWorld 0 0 0 [])
    = Some (Ok "x7k2p",
            CaptchaSolver.mk "2captcha" (Some "0123456789abcdef")
              (CaptchaSolver.Options.mk 5000 180000 false 3 5000) (Some "77")
              {[ "77" := 0 ]},
            CaptchaSolver.mkWorld 3 0 2
              [CaptchaSolver.Slept 5000 0; CaptchaSolver.Slept 5000 1]))
    by (vm_compute; reflexivity).
  split; [exact Hrun|].
  destruct (captcha_success_is_registered_and_reportable slowSolver 4 _ _ _ _ _
              Hrun) as (id & _ & Hlast & Hid & _ & _ & _ & _ & Hreport).
  cbn [CaptchaSolver.lastTaskId] in Hid. injection Hid as <-.
  split; [exact Hlast|]. by rewrite Hreport.
Defined.

(** ** FractionAIHandler: captcha recognition *)

Lemma prefix_app_l (p a b : string) :
  String.prefix p a = true → String.prefix p (a +:+ b) = true.
Proof.
  revert a. induction p as [|c p IH]; intros a; [by destruct (a +:+ b)|].
  destruct a as [|c' a]; [done|].
  change (String c' a +:+ b) with (String c' (a +:+ b)). cbn.
  destruct (ascii_dec c c'); [apply IH|done].
Qed.

Section RecognitionFacts.

Variable E : FractionAIHandler.Env.

Lemma solve_bounds (fuel : nat) (s : CaptchaSolver.t) (w : CaptchaSolver.World) :
  let M := CaptchaSolver.Options.maxRetries (CaptchaSolver.options s) in
  (Z.to_nat M < fuel)%nat →
  ∃ r s' w',
    CaptchaSolver.solveImageCaptcha (FractionAIHandler.captcha E) fuel s w
    = Some (r, s', w')
    ∧ (CaptchaSolver.calls w' ≤ CaptchaSolver.calls w + Z.to_nat (M + 1))%nat
    ∧ CaptchaSolver.options s' = CaptchaSolver.options s
    ∧ match r with
      | Ok _ => True
      | Throw _ => s' = s
      end.
Proof.
  intros M Hfuel. unfold CaptchaSolver.solveImageCaptcha.
  destruct (M <? 0) eqn:Hneg.
  - apply Z.ltb_lt in Hneg. destruct fuel as [|fuel]; [lia|].
    cbn [CaptchaSolver._executeWithRetry]. fold M.
    replace (0 <=? M) with false by lia.
    eexists _, _, _. split; [reflexivity|]. split; [lia|]. by split.
  - apply Z.ltb_ge in Hneg.
    destruct (executeWithRetry_run (FractionAIHandler.captcha E) s fuel 0
                None w)
      as (k & r & s' & w' & Hrun & Hk & Hcalls & _ & _ & Hres).
    { fold M. lia. }
    { fold M. by rewrite Z.sub_0_r. }
    fold M in Hk. rewrite Z.sub_0_r in Hk.
    exists r, s', w'. split; [exact Hrun|]. split; [lia|].
    destruct r as [text|e].
    + apply executeWithRetry_ok in Hrun as (id & _ & Hopt & _). by split.
    + destruct Hres as (_ & _ & ->). by split.
Qed.

Lemma attempt_bounds (fuel : nat) (imageUrl : string)
    (h : FractionAIHandler.t) (w : FractionAIHandler.World) :
  match FractionAIHandler.captchaSolver h with
  | Some solver =>
      (Z.to_nat
         (CaptchaSolver.Options.maxRetries (CaptchaSolver.options solver))
       < fuel)%nat
  | None => True
  end →
  ∃ r imageUrl' h' w',
    FractionAIHandler.attempt E fuel imageUrl h w = Some (r, imageUrl', h', w')
    ∧ recognitionWaits (FractionAIHandler.trace w')
      = recognitionWaits (FractionAIHandler.trace w)
    ∧ (FractionAIHandler.requests w' ≤ S (FractionAIHandler.requests w))%nat
    ∧ (CaptchaSolver.calls (FractionAIHandler.solving w')
       ≤ CaptchaSolver.calls (FractionAIHandler.solving w)
         + solverCallsPerSolve h)%nat
    ∧ solverCallsPerSolve h' = solverCallsPerSolve h
    ∧ match FractionAIHandler.captchaSolver h with
      | Some _ =>
          is_Some (FractionAIHandler.captchaSolver h')
          ∧ match FractionAIHandler.captchaSolver h' with
            | Some solver' =>
                (Z.to_nat
                   (CaptchaSolver.Options.maxRetries
                      (CaptchaSolver.options solver'))
                 < fuel)%nat
            | None => True
            end
      | None => h' = h ∧ w' = w ∧ ∃ e, r = Throw e
      end.
Proof.
  unfold FractionAIHandler.attempt, solverCallsPerSolve.
  destruct (FractionAIHandler.captchaSolver h) as [solver|] eqn:Hs.
  - intros Hfuel.
    set (w1 := FractionAIHandler.mkWorld _ _ _).
    assert (Hw1 : recognitionWaits (FractionAIHandler.trace w1)
                  = recognitionWaits (FractionAIHandler.trace w)
                  ∧ FractionAIHandler.requests w1
                    = S (FractionAIHandler.requests w)
                  ∧ FractionAIHandler.solving w1 = FractionAIHandler.solving w).
    { subst w1. cbn. unfold recognitionWaits. rewrite omap_app. cbn.
      by rewrite app_nil_r. }
    destruct Hw1 as (Hwaits & Hreq & Hsolving).
    assert (Hstay :
      ∀ r : Result string, ∃ r' imageUrl' h' w',
        Some (r, FractionAIHandler.fixUrl h imageUrl, h, w1)
        = Some (r', imageUrl', h', w')
        ∧ recognitionWaits (FractionAIHandler.trace w')
          = recognitionWaits (FractionAIHandler.trace w)
        ∧ (FractionAIHandler.requests w' ≤ S (FractionAIHandler.requests w))%nat
        ∧ (CaptchaSolver.calls (FractionAIHandler.solving w')
           ≤ CaptchaSolver.calls (FractionAIHandler.solving w)
             + Z.to_nat
                 (CaptchaSolver.Options.maxRetries
                    (CaptchaSolver.options solver) + 1))%nat
        ∧ match FractionAIHandler.captchaSolver h' with
          | Some solver0 =>
              Z.to_nat
                (CaptchaSolver.Options.maxRetries
                   (CaptchaSolver.options solver0) + 1)
          | None => 0%nat
          end
          = Z.to_nat
              (CaptchaSolver.Options.maxRetries
                 (CaptchaSolver.options solver) + 1)
        ∧ is_Some (FractionAIHandler.captchaSolver h')
          ∧ match FractionAIHandler.captchaSolver h' with
            | Some solver' =>
                (Z.to_nat
                   (CaptchaSolver.Options.maxRetries
                      (CaptchaSolver.options solver'))
                 < fuel)%nat
            | None => True
            end).
    { intros r. eexists _, _, _, _. split; [reflexivity|].
      rewrite Hs, Hsolving. repeat split; try done; try lia; eauto. }
    destruct (FractionAIHandler.axios_request E _ _) as [response|error];
      [|apply Hstay].
    destruct (negb (FractionAIHandler.status response =? 200)); [apply Hstay|].
    destruct (FractionAIHandler.data response) as [bytes|]; [|apply Hstay].
    destruct (negb _ || _); [apply Hstay|].
    destruct (solve_bounds fuel solver (FractionAIHandler.solving w1) Hfuel)
      as (r & solver' & sw & Hrun & Hcalls & Hopt & _).
    rewrite Hrun. eexists _, _, _, _. split; [reflexivity|].
    cbn [FractionAIHandler.trace FractionAIHandler.requests
         FractionAIHandler.solving FractionAIHandler.captchaSolver].
    rewrite Hopt. rewrite Hsolving in Hcalls.
    repeat split; try done; try lia; eauto.
  - intros _. eexists _, _, _, _. split; [reflexivity|].
    rewrite Hs. repeat split; try done; try lia; eauto.
Qed.

Lemma recognizeLoop_run (fuel' : nat) :
  ∀ (fuel : nat) imageUrl retryCount h w,
    0 ≤ retryCount < 3 →
    (Z.to_nat (3 - retryCount) ≤ fuel)%nat →
    match FractionAIHandler.captchaSolver h with
    | Some solver =>
        (Z.to_nat
           (CaptchaSolver.Options.maxRetries (CaptchaSolver.options solver))
         < fuel')%nat
    | None => True
    end →
    ∃ (attempts : nat) r h' w',
      FractionAIHandler.recognizeLoop E fuel fuel' imageUrl retryCount h w
      = Some (r, h', w')
      ∧ (1 ≤ attempts ≤ Z.to_nat (3 - retryCount))%nat
      ∧ recognitionWaits (FractionAIHandler.trace w')
        = recognitionWaits (FractionAIHandler.trace w)
          ++ ((λ j, 2000 * (retryCount + Z.of_nat j + 1))
                <$> seq 0 (attempts - 1))
      ∧ (FractionAIHandler.requests w'
         ≤ FractionAIHandler.requests w + attempts)%nat
      ∧ (CaptchaSolver.calls (FractionAIHandler.solving w')
         ≤ CaptchaSolver.calls (FractionAIHandler.solving w)
           + attempts * solverCallsPerSolve h)%nat
      ∧ match r with
        | Ok text => is_Some text
        | Throw e =>
            e = FractionAIHandler.fatalError
            ∧ attempts = Z.to_nat (3 - retryCount)
        end
      ∧ (FractionAIHandler.captchaSolver h = None →
         r = Throw FractionAIHandler.fatalError
         ∧ FractionAIHandler.requests w' = FractionAIHandler.requests w
         ∧ FractionAIHandler.solving w' = FractionAIHandler.solving w).
Proof.
  induction fuel as [|fuel IH]; intros imageUrl retryCount h w Hrc Hfuel Hs;
    [lia|].
  cbn [FractionAIHandler.recognizeLoop].
  replace (retryCount <? 3) with true by lia.
  destruct (attempt_bounds fuel' imageUrl h w Hs)
    as (r & url' & h1 & w1 & Hrun & Hwaits & Hreq & Hcalls & Hper & Hkeep).
  rewrite Hrun. destruct r as [text|error].
  - exists 1%nat. eexists _, _, _. split; [reflexivity|].
    split; [lia|]. cbn [Nat.sub seq fmap list_fmap].
    rewrite app_nil_r. split; [exact Hwaits|]. split; [lia|]. split; [lia|].
    split; [eauto|]. intros Hnone. rewrite Hnone in Hkeep.
    by destruct Hkeep as (_ & _ & e & ?).
  - destruct (3 <=? retryCount + 1) eqn:Hlast.
    + apply Z.leb_le in Hlast. assert (retryCount = 2) as -> by lia.
      exists 1%nat. eexists _, _, _. split; [reflexivity|].
      split; [cbn; lia|]. cbn [Nat.sub seq fmap list_fmap].
      rewrite app_nil_r. split; [exact Hwaits|]. split; [lia|]. split; [lia|].
      split; [done|]. intros Hnone. rewrite Hnone in Hkeep.
      destruct Hkeep as (_ & -> & _). done.
    + apply Z.leb_gt in Hlast.
      assert (Hs1 : match FractionAIHandler.captchaSolver h1 with
                    | Some solver =>
                        (Z.to_nat
                           (CaptchaSolver.Options.maxRetries
                              (CaptchaSolver.options solver))
                         < fuel')%nat
                    | None => True
                    end).
      { destruct (FractionAIHandler.captchaSolver h) eqn:Hh.
        - by destruct Hkeep as [_ ?].
        - destruct Hkeep as (-> & _). by rewrite Hh. }
      destruct (IH url' (retryCount + 1) h1
                  (FractionAIHandler.delay (2000 * (retryCount + 1)) w1))
        as (a & r & h' & w' & Hloop & Ha & Hw & Hq & Hc & Hr & Hn);
        [lia|lia|exact Hs1|].
      cbn [FractionAIHandler.delay FractionAIHandler.trace
           FractionAIHandler.requests FractionAIHandler.solving]
        in Hw, Hq, Hc, Hn.
      exists (S a), r, h', w'. split; [exact Hloop|].
      split; [lia|]. split.
      { rewrite Hw. unfold recognitionWaits at 1. rewrite omap_app.
        cbn [omap list_omap]. fold (recognitionWaits (FractionAIHandler.trace w1)).
        rewrite Hwaits, <- app_assoc. f_equal.
        destruct a as [|a]; [lia|].
        cbn [Nat.sub seq fmap list_fmap app]. rewrite Nat.sub_0_r.
        f_equal; [lia|].
        rewrite <- fmap_S_seq, <- list_fmap_compose. apply list_fmap_ext.
        intros _ j _. cbn. lia. }
      split; [lia|]. split; [rewrite Hper in Hc; lia|].
      split.
      { destruct r as [text|e]; [exact Hr|]. destruct Hr as [-> ->].
        split; [done|lia]. }
      intros Hnone. rewrite Hnone in Hkeep. destruct Hkeep as (-> & -> & _).
      by apply Hn.
Qed.

(** X24. [recognizeCaptchaImage], given fuel for the retries of the
    solver, returns after 1 to 3 attempts, with waits of 2000 and 4000 ms
    between them; it downloads at most once per attempt and calls the
    2captcha library at most [maxRetries] + 1 times per attempt.  It
    returns a text or, after exactly 3 failed attempts, throws the error
    marked fatal, whatever made the attempts fail.  Without a captcha
    service it downloads nothing and calls no solver, and still goes
    through all three attempts before it throws. *)
Theorem recognizeCaptchaImage_gives_up_fatally (fuel : nat)
    (imageUrl : string) (h : FractionAIHandler.t)
    (w : FractionAIHandler.World) :
  match FractionAIHandler.captchaSolver h with
  | Some solver =>
      (Z.to_nat
         (CaptchaSolver.Options.maxRetries (CaptchaSolver.options solver))
       < fuel)%nat
  | None => True
  end →
  ∃ (attempts : nat) r h' w',
    FractionAIHandler.recognizeCaptchaImage E fuel imageUrl h w
    = Some (r, h', w')
    ∧ (1 ≤ attempts ≤ 3)%nat
    ∧ recognitionWaits (FractionAIHandler.trace w')
      = recognitionWaits (FractionAIHandler.trace w)
        ++ take (attempts - 1) [2000; 4000]
    ∧ (FractionAIHandler.requests w'
       ≤ FractionAIHandler.requests w + attempts)%nat
    ∧ (CaptchaSolver.calls (FractionAIHandler.solving w')
       ≤ CaptchaSolver.calls (FractionAIHandler.solving w)
         + attempts * solverCallsPerSolve h)%nat
    ∧ match r with
      | Ok text => is_Some text
      | Throw e => e = FractionAIHandler.fatalError ∧ attempts = 3%nat
      end
    ∧ (FractionAIHandler.captchaSolver h = None →
       r = Throw FractionAIHandler.fatalError
       ∧ FractionAIHandler.requests w' = FractionAIHandler.requests w
       ∧ FractionAIHandler.solving w' = FractionAIHandler.solving w).
Proof.
  intros Hs. unfold FractionAIHandler.recognizeCaptchaImage.
  destruct (recognizeLoop_run fuel 3 imageUrl 0 h w)
    as (a & r & h' & w' & Hloop & Ha & Hw & Hq & Hc & Hr & Hn);
    [lia|cbn; lia|exact Hs|].
  exists a, r, h', w'. split; [exact Hloop|].
  cbn in Ha. split; [lia|]. split.
  { rewrite Hw. f_equal.
    destruct a as [|[|[|[|a]]]]; [lia|done|done|done|lia]. }
  split; [exact Hq|]. split; [exact Hc|]. split; [|exact Hn].
  destruct r as [text|e]; [exact Hr|]. destruct Hr as [-> ->]. by cbn.
Qed.

End RecognitionFacts.

Lemma recognizeCaptchaImage_gives_up_fatally_witness :
  ∃ h' w',
    FractionAIHandler.recognizeCaptchaImage imageServerDown 4
      "/captcha/42.png" sampleHandler quietWorld
    = Some (Throw FractionAIHandler.fatalError, h', w')
    ∧ recognitionWaits (FractionAIHandler.trace w') = [2000; 4000]
    ∧ FractionAIHandler.requests w' = 3%nat.
Proof.
  destruct (recognizeCaptchaImage_gives_up_fatally imageServerDown 4
              "/captcha/42.png" sampleHandler quietWorld
              ltac:(vm_compute; lia))
    as (a & r & h' & w' & Hrun & _).
  vm_compute in Hrun. injection Hrun as <- <- <-.
  eexists _, _. split; [vm_compute; reflexivity|]. by vm_compute.
Defined.

Section RecognitionUrlFacts.

Variable E : FractionAIHandler.Env.

Lemma fixUrl_http (h : FractionAIHandler.t) (imageUrl : string) :
  Js.startsWith (FractionAIHandler.api3BaseUrl h) "http" = true →
  Js.startsWith (FractionAIHandler.fixUrl h imageUrl) "http" = true.
Proof.
  intros Hbase. unfold FractionAIHandler.fixUrl.
  destruct (Js.startsWith imageUrl "/").
  { unfold Js.startsWith in *. by apply prefix_app_l. }
  destruct (Js.startsWith imageUrl "http") eqn:Hh; cbn [negb]; [exact Hh|].
  apply (prefix_app_l "http" "https://" imageUrl). reflexivity.
Qed.

Lemma fixUrl_fixed (h : FractionAIHandler.t) (imageUrl : string) :
  Js.startsWith imageUrl "http" = true →
  FractionAIHandler.fixUrl h imageUrl = imageUrl.
Proof.
  intros Hh. unfold FractionAIHandler.fixUrl. rewrite Hh. cbn [negb].
  destruct imageUrl as [|c u]; [done|].
  unfold Js.startsWith in *. cbn [String.prefix] in Hh |- *.
  destruct (ascii_dec "/" c) as [<-|Hne]; [|done].
  by destruct (ascii_dec "h" "/").
Qed.

Lemma attempt_url (fuel : nat) (imageUrl : string) (h : FractionAIHandler.t)
    (w : FractionAIHandler.World) r imageUrl' h' w' :
  FractionAIHandler.attempt E fuel imageUrl h w = Some (r, imageUrl', h', w') →
  FractionAIHandler.api3BaseUrl h' = FractionAIHandler.api3BaseUrl h
  ∧ ((imageUrl' = imageUrl
      ∧ requestedUrls (FractionAIHandler.trace w')
        = requestedUrls (FractionAIHandler.trace w))
     ∨ (imageUrl' = FractionAIHandler.fixUrl h imageUrl
        ∧ requestedUrls (FractionAIHandler.trace w')
          = requestedUrls (FractionAIHandler.trace w)
            ++ [FractionAIHandler.fixUrl h imageUrl])).
Proof.
  unfold FractionAIHandler.attempt.
  destruct (FractionAIHandler.captchaSolver h) as [solver|].
  - set (w1 := FractionAIHandler.mkWorld _ _ _).
    assert (Hw1 : requestedUrls (FractionAIHandler.trace w1)
                  = requestedUrls (FractionAIHandler.trace w)
                    ++ [FractionAIHandler.fixUrl h imageUrl]).
    { subst w1. cbn. unfold requestedUrls. by rewrite omap_app. }
    assert (Hstay : ∀ r0 : Result string,
      Some (r0, FractionAIHandler.fixUrl h imageUrl, h, w1)
      = Some (r, imageUrl', h', w') →
      FractionAIHandler.api3BaseUrl h' = FractionAIHandler.api3BaseUrl h
      ∧ ((imageUrl' = imageUrl
          ∧ requestedUrls (FractionAIHandler.trace w')
            = requestedUrls (FractionAIHandler.trace w))
         ∨ (imageUrl' = FractionAIHandler.fixUrl h imageUrl
            ∧ requestedUrls (FractionAIHandler.trace w')
              = requestedUrls (FractionAIHandler.trace w)
                ++ [FractionAIHandler.fixUrl h imageUrl]))).
    { intros r0 [= <- <- <- <-]. split; [done|]. by right. }
    destruct (FractionAIHandler.axios_request E _ _) as [response|error];
      [|apply Hstay].
    destruct (negb (FractionAIHandler.status response =? 200)); [apply Hstay|].
    destruct (FractionAIHandler.data response) as [bytes|]; [|apply Hstay].
    destruct (negb _ || _); [apply Hstay|].
    destruct (CaptchaSolver.solveImageCaptcha _ _ _ _) as [[[r0 s0] sw]|];
      [|done].
    intros [= <- <- <- <-]. split; [done|]. by right.
  - intros [= <- <- <- <-]. split; [done|]. by left.
Qed.

Lemma recognizeLoop_urls (fuel' : nat) (target base : string) :
  Js.startsWith base "http" = true →
  ∀ (fuel : nat) imageUrl retryCount h w r h' w',
    FractionAIHandler.api3BaseUrl h = base →
    FractionAIHandler.fixUrl h imageUrl = target →
    FractionAIHandler.recognizeLoop E fuel fuel' imageUrl retryCount h w
    = Some (r, h', w') →
    ∃ n : nat,
      (n ≤ fuel)%nat
      ∧ requestedUrls (FractionAIHandler.trace w')
        = requestedUrls (FractionAIHandler.trace w) ++ replicate n target.
Proof.
  intros Hbase.
  induction fuel as [|fuel IH]; intros imageUrl retryCount h w r h' w' Hh Ht;
    [done|].
  cbn [FractionAIHandler.recognizeLoop].
  destruct (retryCount <? 3).
  2:{ intros [= <- <- <-]. exists 0%nat. split; [lia|]. by rewrite app_nil_r. }
  destruct (FractionAIHandler.attempt E fuel' imageUrl h w)
    as [[[[r1 url1] h1] w1]|] eqn:Hattempt; [|done].
  apply attempt_url in Hattempt as (Hb1 & Hcase).
  assert (Hsame : ∃ n1 : nat,
    (n1 ≤ 1)%nat
    ∧ requestedUrls (FractionAIHandler.trace w1)
    = requestedUrls (FractionAIHandler.trace w) ++ replicate n1 target
    ∧ FractionAIHandler.fixUrl h1 url1 = target).
  { assert (Hfix : ∀ u, FractionAIHandler.fixUrl h1 u
                        = FractionAIHandler.fixUrl h u).
    { intros u. unfold FractionAIHandler.fixUrl. by rewrite Hb1. }
    destruct Hcase as [[-> Hu]|[-> Hu]].
    - exists 0%nat. split; [lia|]. rewrite Hu, app_nil_r, Hfix. by split.
    - exists 1%nat. split; [lia|]. rewrite Hu, Ht. split; [done|].
      rewrite Hfix, <- Ht. apply fixUrl_fixed, fixUrl_http.
      by rewrite Hh. }
  destruct Hsame as (n1 & Hle1 & Hu1 & Ht1).
  destruct r1 as [text|error].
  { intros [= <- <- <-]. exists n1. split; [lia|done]. }
  destruct (3 <=? retryCount + 1).
  { intros [= <- <- <-]. exists n1. split; [lia|done]. }
  intros Hloop. apply IH in Hloop as (n & Hle & Hn); [|congruence|exact Ht1].
  cbn [FractionAIHandler.delay FractionAIHandler.trace] in Hn.
  exists (n1 + n)%nat. split; [lia|]. rewrite Hn. unfold requestedUrls at 1.
  rewrite omap_app. cbn [omap list_omap]. rewrite app_nil_r.
  fold (requestedUrls (FractionAIHandler.trace w1)).
  by rewrite Hu1, replicate_add, app_assoc.
Qed.

(** X25. When the API base URL starts with http, the repaired image URL
    starts with http and repairing it again changes nothing, so all
    downloads of one recognition, at most 3, ask for the same URL. *)
Theorem recognizeCaptchaImage_downloads_one_url (fuel : nat)
    (imageUrl : string) (h h' : FractionAIHandler.t)
    (w w' : FractionAIHandler.World) (r : Result (option string)) :
  Js.startsWith (FractionAIHandler.api3BaseUrl h) "http" = true →
  FractionAIHandler.recognizeCaptchaImage E fuel imageUrl h w
  = Some (r, h', w') →
  Js.startsWith (FractionAIHandler.fixUrl h imageUrl) "http" = true
  ∧ FractionAIHandler.fixUrl h (FractionAIHandler.fixUrl h imageUrl)
    = FractionAIHandler.fixUrl h imageUrl
  ∧ ∃ n : nat,
      (n ≤ 3)%nat
      ∧ requestedUrls (FractionAIHandler.trace w')
        = requestedUrls (FractionAIHandler.trace w)
          ++ replicate n (FractionAIHandler.fixUrl h imageUrl).
Proof.
  intros Hbase Hrun.
  split; [by apply fixUrl_http|].
  split; [by apply fixUrl_fixed, fixUrl_http|].
  unfold FractionAIHandler.recognizeCaptchaImage in Hrun.
  by eapply recognizeLoop_urls in Hrun.
Qed.

End RecognitionUrlFacts.

Lemma recognizeCaptchaImage_downloads_one_url_witness :
  Js.startsWith (FractionAIHandler.api3BaseUrl sampleHandler) "http" = true
  ∧ ∃ r h' w',
      FractionAIHandler.recognizeCaptchaImage imageServerDown 4
        "/captcha/42.png" sampleHandler quietWorld = Some (r, h', w')
      ∧ requestedUrls (FractionAIHandler.trace w')
        = replicate 3
            "https://dapp-backend-4x.fractionai.xyz/api3/captcha/42.png".
Proof.
  split; [reflexivity|].
  destruct (FractionAIHandler.recognizeCaptchaImage imageServerDown 4
              "/captcha/42.png" sampleHandler quietWorld)
    as [[[r h'] w']|] eqn:Hrun; [|vm_compute in Hrun; discriminate Hrun].
  exists r, h', w'. split; [reflexivity|].
  destruct (recognizeCaptchaImage_downloads_one_url imageServerDown 4
              "/captcha/42.png" sampleHandler h' quietWorld w' r eq_refl Hrun)
    as (_ & _ & n & _ & Hurls).
  vm_compute in Hrun. injection Hrun as _ _ <-. by vm_compute.
Defined.

(** ** Worker: the closure of [sign] *)

Section SignTaskFacts.

Variable Wallet_address : string → option string.
Variable Wallet_signMessage : string → string → string.
Variable verifyMessage : string → string → option string.
Variable post : nat → Result string.

Lemma postLoop_run :
  ∀ (fuel : nat) retryCount lastError w,
    0 ≤ retryCount ≤ 3 →
    (Z.to_nat (4 - retryCount) < fuel)%nat →
    ∃ (n : nat) r w',
      SignTask.postLoop post fuel retryCount lastError w = Some (r, w')
      ∧ (1 ≤ n ≤ Z.to_nat (4 - retryCount))%nat
      ∧ SignTask.posts w' = (SignTask.posts w + n)%nat
      ∧ (∀ j, (j < n - 1)%nat →
              ∃ e, post (SignTask.posts w + j) = Throw e)
      ∧ match r with
        | Ok data =>
            post (SignTask.posts w + n - 1) = Ok data
            ∧ SignTask.retries w' = SignTask.retries w + Z.of_nat n - 1
            ∧ SignTask.slept w'
              = SignTask.slept w
                ++ ((λ j, 2 ^ (retryCount + Z.of_nat j + 1) * 1000)
                      <$> seq 0 (n - 1))
        | Throw e =>
            n = Z.to_nat (4 - retryCount)
            ∧ post (SignTask.posts w + n - 1) = Throw e
            ∧ SignTask.retries w' = SignTask.retries w + Z.of_nat n
            ∧ SignTask.slept w'
              = SignTask.slept w
                ++ ((λ j, 2 ^ (retryCount + Z.of_nat j + 1) * 1000)
                      <$> seq 0 (n - 1))
        end.
Proof.
  induction fuel as [|fuel IH]; intros retryCount lastError w Hrc Hfuel; [lia|].
  cbn [SignTask.postLoop]. replace (retryCount <=? 3) with true by lia.
  destruct (post (SignTask.posts w)) as [data|error] eqn:Hpost.
  - exists 1%nat. eexists _, _. split; [reflexivity|].
    cbn [SignTask.posts SignTask.retries SignTask.slept Nat.sub seq fmap
         list_fmap].
    rewrite app_nil_r. split; [lia|]. split; [lia|].
    split; [intros j Hj; lia|].
    replace (SignTask.posts w + 1 - 1)%nat with (SignTask.posts w) by lia.
    split; [done|]. split; [lia|done].
  - destruct (retryCount + 1 <=? 3) eqn:Hmore.
    + apply Z.leb_le in Hmore.
      destruct (IH (retryCount + 1) (Some error)
                  {| SignTask.posts := S (SignTask.posts w);
                     SignTask.retries := SignTask.retries w + 1;
                     SignTask.slept :=
                       SignTask.slept w ++ [2 ^ (retryCount + 1) * 1000] |})
        as (n & r & w' & Hrun & Hn & Hposts & Hprev & Hr); [lia|lia|].
      cbn [SignTask.posts SignTask.retries SignTask.slept] in *.
      exists (S n), r, w'. split; [exact Hrun|].
      split; [lia|]. split; [lia|]. split.
      { intros [|j] Hj.
        - rewrite Nat.add_0_r. eauto.
        - replace (SignTask.posts w + S j)%nat
            with (S (SignTask.posts w) + j)%nat by lia.
          apply Hprev. lia. }
      assert (Hlist :
        (SignTask.slept w ++ [2 ^ (retryCount + 1) * 1000])
        ++ ((λ j, 2 ^ (retryCount + 1 + Z.of_nat j + 1) * 1000)
              <$> seq 0 (n - 1))
        = SignTask.slept w
          ++ ((λ j, 2 ^ (retryCount + Z.of_nat j + 1) * 1000)
                <$> seq 0 (S n - 1))).
      { rewrite <- app_assoc. f_equal. destruct n as [|n]; [lia|].
        cbn [Nat.sub seq fmap list_fmap app]. rewrite Nat.sub_0_r.
        f_equal; [do 2 f_equal; lia|].
        rewrite <- fmap_S_seq, <- list_fmap_compose. apply list_fmap_ext.
        intros _ j _. cbn. do 2 f_equal. lia. }
      replace (SignTask.posts w + S n - 1)%nat
        with (S (SignTask.posts w) + n - 1)%nat by lia.
      destruct r as [data|e].
      * destruct Hr as (Hp & Hret & Hsl). split; [exact Hp|].
        split; [lia|]. by rewrite Hsl, Hlist.
      * destruct Hr as (Hlast & Hp & Hret & Hsl). split; [lia|].
        split; [exact Hp|]. split; [lia|]. by rewrite Hsl, Hlist.
    + apply Z.leb_gt in Hmore. assert (retryCount = 3) as -> by lia.
      destruct fuel as [|fuel]; [cbn in Hfuel; lia|].
      cbn [SignTask.postLoop]. cbn [Z.add Z.leb Z.compare Pos.add
        Pos.compare Pos.compare_cont Pos.succ default].
      exists 1%nat. eexists _, _. split; [reflexivity|].
      cbn [SignTask.posts SignTask.retries SignTask.slept Nat.sub seq fmap
           list_fmap].
      rewrite app_nil_r. split; [cbn; lia|]. split; [lia|].
      split; [intros j Hj; lia|].
      replace (SignTask.posts w + 1 - 1)%nat with (SignTask.posts w) by lia.
      split; [done|]. split; [done|]. split; [lia|done].
Qed.

(** X26. The closure of [sign], run by a signer built from a key the
    library accepts, under the contract of the library on recovering the
    signer.  The local verification passes; then between 1 and 4 posts
    are made, every post but the last having failed, with waits of 2000,
    4000 and 8000 ms between them.  It returns the data of the first post
    that succeeds, with one retry counted per failed post, or after 4
    failed posts throws the error of the last one, with 4 retries
    counted. *)
Theorem sign_posts_at_most_four_times (fuel : nat) (key : string)
    (signer : EthSigner.t) (timestamp : Z) (w : SignTask.World) :
  recoversSigner Wallet_address Wallet_signMessage verifyMessage →
  EthSigner.constructor Wallet_address (Some key) = Ok signer →
  (4 < fuel)%nat →
  ∃ (n : nat) r w',
    SignTask.taskFn Wallet_signMessage verifyMessage post fuel signer
      timestamp w = Some (r, w')
    ∧ (1 ≤ n ≤ 4)%nat
    ∧ SignTask.posts w' = (SignTask.posts w + n)%nat
    ∧ (∀ j, (j < n - 1)%nat → ∃ e, post (SignTask.posts w + j) = Throw e)
    ∧ SignTask.slept w'
      = SignTask.slept w ++ take (n - 1) [2000; 4000; 8000]
    ∧ match r with
      | Ok data =>
          post (SignTask.posts w + n - 1) = Ok data
          ∧ SignTask.retries w' = SignTask.retries w + Z.of_nat n - 1
      | Throw e =>
          n = 4%nat
          ∧ post (SignTask.posts w + 3) = Throw e
          ∧ SignTask.retries w' = SignTask.retries w + 4
      end.
Proof.
  intros Hlib Hsigner Hfuel. unfold SignTask.taskFn.
  set (message := "Sign message for authentication " +:+ pretty timestamp).
  assert (Hvalid : EthSigner.verifySignature verifyMessage signer message
                     (EthSigner.signMessage Wallet_signMessage signer message)
                   = Ok true).
  { unfold EthSigner.constructor in Hsigner.
    destruct (negb (Js.truthy key) || negb (Js.startsWith key "0x")); [done|].
    destruct (Wallet_address key) as [addr|] eqn:Haddr; [|done].
    injection Hsigner as <-.
    destruct (Hlib key addr message Haddr) as (recovered & Hrec & Hcase).
    unfold EthSigner.verifySignature, EthSigner.signMessage.
    cbn [EthSigner.wallet EthSigner.address]. rewrite Hrec, Hcase.
    by rewrite String.eqb_refl. }
  rewrite Hvalid. cbn [negb].
  destruct (postLoop_run fuel 0 None w)
    as (n & r & w' & Hrun & Hn & Hposts & Hprev & Hr); [lia|cbn; lia|].
  exists n, r, w'. split; [exact Hrun|]. cbn in Hn.
  split; [lia|]. split; [exact Hposts|]. split; [exact Hprev|].
  assert (Hwaits : (λ j, 2 ^ (0 + Z.of_nat j + 1) * 1000) <$> seq 0 (n - 1)
                   = take (n - 1) [2000; 4000; 8000]).
  { destruct n as [|[|[|[|[|n]]]]]; [lia|done|done|done|done|lia]. }
  destruct r as [data|e].
  - destruct Hr as (Hp & Hret & Hsl). rewrite Hsl, Hwaits. by repeat split.
  - destruct Hr as (Hlast & Hp & Hret & Hsl). cbn in Hlast. subst n.
    rewrite Hsl, Hwaits. repeat split; try done.
    by replace (SignTask.posts w + 3)%nat
      with (SignTask.posts w + 4 - 1)%nat by lia.
Qed.

End SignTaskFacts.

Lemma sign_posts_at_most_four_times_witness :
  ∃ w',
    SignTask.taskFn toySign toyRecover busyServer 5
      (EthSigner.mk "0xA1" "0XA1") 1700000000000 (SignTask.mkWorld 0 0 [])
    = Some (Ok "signed", w')
    ∧ SignTask.posts w' = 3%nat
    ∧ SignTask.slept w' = [2000; 4000]
    ∧ SignTask.retries w' = 2.
Proof.
  assert (Hlib : recoversSigner toyAddress toySign toyRecover).
  { intros key addr message Hk. unfold toyAddress in Hk.
    destruct (Js.startsWith key "0x"); [|done]. injection Hk as <-.
    exists (Js.toLowerCase key). split; [reflexivity|].
    by rewrite toLowerCase_idempotent, toLowerCase_toUpperCase. }
  destruct (sign_posts_at_most_four_times toyAddress toySign toyRecover
              busyServer 5 "0xA1" (EthSigner.mk "0xA1" "0XA1") 1700000000000
              (SignTask.mkWorld 0 0 []) Hlib eq_refl ltac:(lia))
    as (n & r & w' & Hrun & _).
  vm_compute in Hrun. injection Hrun as <- <-.
  eexists. split; [vm_compute; reflexivity|]. by vm_compute.
Defined.
